(** * Order analysis pipeline (app2.py, sales_06.py)

    A shallow embedding of the order/product-master pipeline of the two
    Streamlit dashboards: column and identifier normalisation, the
    VLOOKUP-style maps, enrichment, filtering, the key metrics and the four
    pivot views.

    Conventions of the model.
    - A spreadsheet cell is missing ([NaN]), a number ([Num]) or text
      ([Str]).  Numbers are exact integers: sums are exact and the rounding
      of binary floating point is outside the model.
    - Strings are byte strings; [strip] and [lower] act on ASCII.
    - pandas calls ([pivot_table], [groupby], [sort_values], [map],
      [drop_duplicates], [to_numeric]) are modelled by what they return for
      the arguments the scripts pass.  The text-to-number parser of
      [pd.to_numeric] is a parameter [parse].
    - A Python exception is a value of [exn]; code that can raise returns
      [result].
    - [astype(str)] renders a number by the dtype of its column; the model
      renders the integer.  Statements that depend on the text of an
      identifier or of a vendor code take those cells to be text or missing
      ([text_or_missing]).
    - Selecting a column by label gives a column only when the label occurs
      once.  Statements that conclude that a step succeeds, or name the
      exception it raises, take the cleaned labels to be distinct.
    - Where rows tie on every key of a sort, their relative order is not
      modelled.
    - The steps follow app2.py.  sales_06.py shares Steps 1 to 4, the cost
      mapping and the filter; it has no vendor column, builds View C over
      the index (Brand, asin) and View D as a plain pivot.  Its View C is
      [Sales06.pivot_Brand_ASIN_with_total]. *)

From Stdlib Require Import Ascii.
From stdpp Require Import base list strings gmap sorting pretty.

Open Scope Z_scope.

(** ** Cells *)

Inductive cell :=
  | NaN
  | Num (z : Z)
  | Str (s : string).

Global Instance cell_eq_dec : EqDecision cell.
Proof. solve_decision. Defined.

Global Instance cell_inhabited : Inhabited cell := populate NaN.

(** [Series.notna()] *)
Definition notna (c : cell) : Prop := c ≠ NaN.

(** A cell that holds no number. *)
Definition text_or_missing (c : cell) : Prop := ∀ z, c ≠ Num z.

(** ** Python string methods *)

Module Py.

(** ASCII characters removed by [str.strip()]. *)
Definition is_whitespace (a : ascii) : bool :=
  match a with
  | "009" | "010" | "011" | "012" | "013"
  | "028" | "029" | "030" | "031" | " " => true
  | _ => false
  end%char.

Fixpoint lstrip (s : string) : string :=
  match s with
  | String a s' => if is_whitespace a then lstrip s' else s
  | EmptyString => EmptyString
  end.

Definition rstrip (s : string) : string :=
  String.rev (lstrip (String.rev s)).

Definition strip (s : string) : string := rstrip (lstrip s).

Definition lower_char (a : ascii) : ascii :=
  let n := nat_of_ascii a in
  if bool_decide (65 ≤ n ≤ 90)%nat then ascii_of_nat (n + 32) else a.

Fixpoint lower (s : string) : string :=
  match s with
  | String a s' => String (lower_char a) (lower s')
  | EmptyString => EmptyString
  end.

Fixpoint startswith (p s : string) : bool :=
  match p, s with
  | EmptyString, _ => true
  | String a p', String b s' => bool_decide (a = b) && startswith p' s'
  | String _ _, EmptyString => false
  end.

(** [sub in s] *)
Fixpoint contains (sub s : string) : bool :=
  startswith sub s ||
  match s with
  | String _ s' => contains sub s'
  | EmptyString => false
  end.

(** [str(x)] of a cell value, as [astype(str)] applies it. *)
Definition str (c : cell) : string :=
  match c with
  | NaN => "nan"
  | Num z => pretty z
  | Str s => s
  end.

End Py.

(** [Series.astype(str)] *)
Definition astype_str (c : cell) : cell := Str (Py.str c).

(** [Series.astype(str).str.strip()] *)
Definition astype_str_strip (c : cell) : string := Py.strip (Py.str c).

(** ** Exceptions *)

Inductive exn :=
  | IndexError (msg : string)
  | KeyError (key : string)
  | ValueError (msg : string)
  | TypeError (msg : string)
  | InvalidIndexError (msg : string).

Definition result (A : Type) : Type := exn + A.

Global Instance result_ret : MRet result := λ A x, inr x.
Global Instance result_bind : MBind result := λ A B f m,
  match m with
  | inl e => inl e
  | inr x => f x
  end.

(** [type(e).__name__] *)
Definition exn_class (e : exn) : string :=
  match e with
  | IndexError _ => "IndexError"
  | KeyError _ => "KeyError"
  | ValueError _ => "ValueError"
  | TypeError _ => "TypeError"
  | InvalidIndexError _ => "InvalidIndexError"
  end.

(** [str(e)] *)
Definition exn_str (e : exn) : string :=
  match e with
  | IndexError m | ValueError m | TypeError m | InvalidIndexError m => m
  | KeyError k => "'" +:+ k +:+ "'"
  end.

(** The text the top-level handler passes to [st.error] (after the
    cross-mark glyph). *)
Definition error_report (e : exn) : string :=
  " Error processing files: " +:+ exn_str e.

(** ** The two tables *)

(** The product master as [pd.read_excel] returns it: column labels and
    rows of cells, a row holding one cell per column. *)
Record frame := {
  columns : list string;
  rows : list (list cell)
}.

(** A row of [Working].  The columns the scripts read or create are
    fields; [others] holds the remaining columns by label.
    [purchase_date] is the timestamp [pd.to_datetime] reads from the
    "purchase-date" column, as the seconds from 1970-01-01 00:00 to its
    wall-clock time (a UTC offset, if it has one, is not subtracted),
    [None] for [NaT]; [date] is a day number.  [quantity] is a numeric
    column, [None] for a missing value.  The columns the scripts assign
    ([date], [Brand_Manager], [Brand], [Vendor_SKU], [cost]) are overwritten
    whatever a loaded row holds there.  The labels of [others] are those
    of the file; when two of them, or one of them and a field, get the same
    label in Step 2, the table has two columns under one label, which the
    record does not show: [other_labels_ok] rules this out where a
    statement depends on it. *)
Record order := {
  purchase_date : option Z;
  date : option Z;
  asin : cell;
  quantity : option Z;
  item_price : cell;
  product_name : cell;
  item_status : cell;
  Brand_Manager : cell;
  Brand : cell;
  Vendor_SKU : cell;
  cost : cell;
  others : list (string * cell)
}.

Global Instance order_eq_dec : EqDecision order.
Proof. solve_decision. Defined.

(** Column assignments [Working[col] = ...], row by row. *)
Definition set_date (v : option Z) (r : order) : order :=
  {| purchase_date := purchase_date r; date := v; asin := asin r;
     quantity := quantity r; item_price := item_price r;
     product_name := product_name r; item_status := item_status r;
     Brand_Manager := Brand_Manager r; Brand := Brand r;
     Vendor_SKU := Vendor_SKU r; cost := cost r; others := others r |}.

Definition set_asin (v : cell) (r : order) : order :=
  {| purchase_date := purchase_date r; date := date r; asin := v;
     quantity := quantity r; item_price := item_price r;
     product_name := product_name r; item_status := item_status r;
     Brand_Manager := Brand_Manager r; Brand := Brand r;
     Vendor_SKU := Vendor_SKU r; cost := cost r; others := others r |}.

Definition set_item_price (v : cell) (r : order) : order :=
  {| purchase_date := purchase_date r; date := date r; asin := asin r;
     quantity := quantity r; item_price := v;
     product_name := product_name r; item_status := item_status r;
     Brand_Manager := Brand_Manager r; Brand := Brand r;
     Vendor_SKU := Vendor_SKU r; cost := cost r; others := others r |}.

Definition set_Brand_Manager (v : cell) (r : order) : order :=
  {| purchase_date := purchase_date r; date := date r; asin := asin r;
     quantity := quantity r; item_price := item_price r;
     product_name := product_name r; item_status := item_status r;
     Brand_Manager := v; Brand := Brand r;
     Vendor_SKU := Vendor_SKU r; cost := cost r; others := others r |}.

Definition set_Brand (v : cell) (r : order) : order :=
  {| purchase_date := purchase_date r; date := date r; asin := asin r;
     quantity := quantity r; item_price := item_price r;
     product_name := product_name r; item_status := item_status r;
     Brand_Manager := Brand_Manager r; Brand := v;
     Vendor_SKU := Vendor_SKU r; cost := cost r; others := others r |}.

Definition set_Vendor_SKU (v : cell) (r : order) : order :=
  {| purchase_date := purchase_date r; date := date r; asin := asin r;
     quantity := quantity r; item_price := item_price r;
     product_name := product_name r; item_status := item_status r;
     Brand_Manager := Brand_Manager r; Brand := Brand r;
     Vendor_SKU := v; cost := cost r; others := others r |}.

Definition set_cost (v : cell) (r : order) : order :=
  {| purchase_date := purchase_date r; date := date r; asin := asin r;
     quantity := quantity r; item_price := item_price r;
     product_name := product_name r; item_status := item_status r;
     Brand_Manager := Brand_Manager r; Brand := Brand r;
     Vendor_SKU := Vendor_SKU r; cost := v; others := others r |}.

Definition set_others (v : list (string * cell)) (r : order) : order :=
  {| purchase_date := purchase_date r; date := date r; asin := asin r;
     quantity := quantity r; item_price := item_price r;
     product_name := product_name r; item_status := item_status r;
     Brand_Manager := Brand_Manager r; Brand := Brand r;
     Vendor_SKU := Vendor_SKU r; cost := cost r; others := v |}.

(** ** Steps 1 to 3: dates, column labels, identifiers *)

(** [pd.to_datetime(...).dt.date]: the calendar day of the wall-clock
    time. *)
Definition dt_date (t : option Z) : option Z := (λ s, s `div` 86400) <$> t.

(** [columns.str.strip().str.lower()] *)
Definition clean_label (c : string) : string := Py.lower (Py.strip c).

Definition clean_columns (cols : list string) : list string :=
  clean_label <$> cols.

(** [df[name]]: the position of the column labelled [name]. *)
Definition column_position (cols : list string) (name : string) : result nat :=
  match list_find (λ c, c = name) cols with
  | Some (i, _) => mret i
  | None => inl (KeyError name)
  end.

Definition cell_at (i : nat) (r : list cell) : cell := default NaN (r !! i).

(** The product master once [pm["asin"]] is rewritten: each row beside its
    cleaned identifier, rows with an empty or "nan" identifier removed. *)
Definition clean_pm_asin (i : nat) (rs : list (list cell))
    : list (string * list cell) :=
  let pm := (λ r, (astype_str_strip (cell_at i r), r)) <$> rs in
  filter (λ kr, kr.1 ≠ "" ∧ notna (Str kr.1) ∧ kr.1 ≠ "nan") pm.

(** [Working["asin"] = Working["asin"].astype(str).str.strip()] *)
Definition clean_order_asin (r : order) : order :=
  set_asin (Str (astype_str_strip (asin r))) r.

(** ** Steps 4 to 6: column detection and the lookup maps *)

(** [l[0]] of a Python list *)
Definition list_first (l : list string) : result string :=
  match l with
  | c :: _ => mret c
  | [] => inl (IndexError "list index out of range")
  end.

Definition out_of_bounds (i size : nat) : exn :=
  IndexError ("index " +:+ pretty i +:+
              " is out of bounds for axis 0 with size " +:+ pretty size).

(** [pm.columns[i]] *)
Definition columns_getitem (cols : list string) (i : nat) : result string :=
  match cols !! i with
  | Some c => mret c
  | None => inl (out_of_bounds i (length cols))
  end.

Definition vendor_names : list string :=
  ["vendor sku"; "vendor_sku"; "vendor sku code"; "vendor_sku_code"].

Definition cp_names : list string := ["cp"; "cost price"; "cost"].

Definition find_bm_col (cols : list string) : result string :=
  list_first
    (filter (λ c, Py.contains "brand" c ∧ Py.contains "manager" c) cols).

Definition find_brand_col (cols : list string) : result string :=
  list_first (filter (λ c, c = "brand") cols).

Definition find_vendor_col (cols : list string) : result string :=
  match filter (λ c, c ∈ vendor_names) cols with
  | c :: _ => mret c
  | [] => columns_getitem cols 3
  end.

Definition find_cp_col (cols : list string) : result string :=
  match filter (λ c, c ∈ cp_names) cols with
  | c :: _ => mret c
  | [] => columns_getitem cols 7
  end.

(** [pm.drop_duplicates(subset="asin", keep="first")] *)
Fixpoint drop_duplicates_go (seen : gset string)
    (pm : list (string * list cell)) : list (string * list cell) :=
  match pm with
  | [] => []
  | kr :: pm' =>
      if decide (kr.1 ∈ seen) then drop_duplicates_go seen pm'
      else kr :: drop_duplicates_go ({[ kr.1 ]} ∪ seen) pm'
  end.

Definition drop_duplicates (pm : list (string * list cell))
    : list (string * list cell) :=
  drop_duplicates_go ∅ pm.

(** The series of the column at position [j], indexed by identifier.  It
    is the series pandas builds when no identifier repeats, which
    [drop_duplicates] sees to and [map_check] tests. *)
Definition series_of (pm_unique : list (string * list cell)) (j : nat)
    : gmap string cell :=
  list_to_map ((λ kr, (kr.1, cell_at j kr.2)) <$> pm_unique).

(** [pm_unique.set_index("asin")[col]]: the series as a map from
    identifier to value.  The index column itself is no longer a column. *)
Definition set_index_asin (cols : list string)
    (pm_unique : list (string * list cell)) (col : string)
    : result (gmap string cell) :=
  if decide (col = "asin") then inl (KeyError col)
  else
    j ← column_position cols col;
    mret (series_of pm_unique j).

(** [Working["asin"].map(series)] looks the identifiers up in the index of
    the series and raises when the index repeats an identifier. *)
Definition map_check (pm_unique : list (string * list cell)) : result unit :=
  if decide (NoDup pm_unique.*1) then mret ()
  else inl (InvalidIndexError
              "Reindexing only valid with uniquely valued Index objects").

(** [Working["asin"].map(series)] on one value *)
Definition series_map (m : gmap string cell) (c : cell) : cell :=
  match c with
  | Str k => default NaN (m !! k)
  | _ => NaN
  end.

(** [Series.fillna(0)] *)
Definition fillna0 (c : cell) : cell :=
  match c with
  | NaN => Num 0
  | _ => c
  end.

(** [Working["sku"] = Working["sku"].astype(str)], when the column exists *)
Definition sku_astype_str (cs : list (string * cell)) : list (string * cell) :=
  (λ nc, if decide (nc.1 = "sku") then (nc.1, astype_str nc.2) else nc) <$> cs.

Record lookup_maps := {
  bm_map : gmap string cell;
  brand_map : gmap string cell;
  vendor_map : gmap string cell;
  cp_map : gmap string cell
}.

(** The four maps in the order the script builds them; the first failing
    statement decides the exception.  The first [map], of the brand
    managers, comes once [bm_map] and [brand_map] are built. *)
Definition build_maps (pm : frame) : result lookup_maps :=
  let cols := clean_columns (columns pm) in
  i ← column_position cols "asin";
  let pm3 := clean_pm_asin i (rows pm) in
  bm_col ← find_bm_col cols;
  brand_col ← find_brand_col cols;
  let pm_unique := drop_duplicates pm3 in
  bm ← set_index_asin cols pm_unique bm_col;
  brand ← set_index_asin cols pm_unique brand_col;
  _ ← map_check pm_unique;
  vendor_col ← find_vendor_col cols;
  vendor ← set_index_asin cols pm_unique vendor_col;
  cp_col ← find_cp_col cols;
  cp ← set_index_asin cols pm_unique cp_col;
  mret {| bm_map := bm; brand_map := brand; vendor_map := vendor; cp_map := cp |}.

Section Numeric.

(** The parser behind [pd.to_numeric] on text: [None] when the text is
    not a number. *)
Variable parse : string → option Z.

(** [pd.to_numeric(..., errors="coerce")] on one value *)
Definition to_numeric (c : cell) : cell :=
  match c with
  | NaN => NaN
  | Num z => Num z
  | Str s => match parse s with Some z => Num z | None => NaN end
  end.

(** Steps 1 to 3 on a row of [Working]. *)
Definition normalise_order (r : order) : order :=
  let r := set_date (dt_date (purchase_date r)) r in
  let r := set_others ((λ nc, (clean_label nc.1, nc.2)) <$> others r) r in
  clean_order_asin r.

(** Steps 4 to 6 on a row of [Working]. *)
Definition enrich_order (m : lookup_maps) (r : order) : order :=
  let r := set_Brand_Manager (series_map (bm_map m) (asin r)) r in
  let r := set_Brand (series_map (brand_map m) (asin r)) r in
  let r := set_Vendor_SKU (series_map (vendor_map m) (asin r)) r in
  let r := set_Vendor_SKU (astype_str (Vendor_SKU r)) r in
  let r := set_cost (series_map (cp_map m) (asin r)) r in
  let r := set_cost (fillna0 (to_numeric (cost r))) r in
  set_others (sku_astype_str (others r)) r.

(** [Working] at the end of Step 6.  Moving the cost and Vendor SKU
    columns changes the order of the columns only. *)
Definition prepare (pm : frame) (orders : list order) : result (list order) :=
  m ← build_maps pm;
  mret (enrich_order m <$> (normalise_order <$> orders)).

(** ** Step 7: filtering *)

Definition Working_filter (Working : list order) : list order :=
  let Working := filter (λ r, quantity r ≠ Some 0) Working in
  let Working :=
    (λ r, set_item_price (to_numeric (item_price r)) r) <$> Working in
  let Working := filter (λ r, item_price r ≠ Num 0) Working in
  let Working :=
    filter (λ r, notna (product_name r) ∧
                 astype_str_strip (product_name r) ≠ "-" ∧
                 astype_str_strip (product_name r) ≠ "") Working in
  filter (λ r, item_status r ≠ Str "Cancelled") Working.

End Numeric.

(** ** Ordering of keys *)

(** The order pandas sorts labels in: numbers by value, then text by code
    point, missing values last ([na_position="last"]). *)
Definition cell_le (a b : cell) : Prop :=
  match a, b with
  | _, NaN => True
  | NaN, _ => False
  | Num x, Num y => x ≤ y
  | Num _, Str _ => True
  | Str _, Num _ => False
  | Str s, Str t => String.le s t
  end.

Global Instance cell_le_dec : RelDecision cell_le.
Proof. intros [|x|s] [|y|t]; simpl; apply _. Defined.

(** Comparing rows by one column. *)
Definition on {A B} (R : relation B) (f : A → B) : relation A :=
  λ x y, R (f x) (f y).

(** Comparing by a first key, ties broken by the following keys, as
    [sort_values(by=[k1, k2, ...])] does. *)
Definition lex {A} (R1 R2 : relation A) : relation A :=
  λ x y, R1 x y ∧ (R1 y x → R2 x y).

Global Instance on_dec {A B} (R : relation B) (f : A → B)
  `{!RelDecision R} : RelDecision (on R f).
Proof. intros x y. unfold on. apply _. Defined.

Global Instance lex_dec {A} (R1 R2 : relation A)
  `{!RelDecision R1, !RelDecision R2} : RelDecision (lex R1 R2).
Proof. intros x y. unfold lex. apply _. Defined.

(** [ascending=False] on a numeric column *)
Definition Z_ge : relation Z := λ x y, y ≤ x.

Global Instance Z_ge_dec : RelDecision Z_ge.
Proof. intros x y. unfold Z_ge. apply _. Defined.

(** ** Sums *)

Definition sumZ (l : list Z) : Z := foldr Z.add 0 l.

(** The value a pandas sum adds for a cell: missing values are skipped.
    The summed columns are numeric when the views are built: Step 6 coerces
    [cost], Step 7 coerces [item_price]. *)
Definition num_of (c : cell) : Z :=
  match c with
  | Num z => z
  | _ => 0
  end.

Definition qty_of (q : option Z) : Z := default 0 q.

Definition sum_quantity (g : list order) : Z := sumZ (qty_of ∘ quantity <$> g).
Definition sum_item_price (g : list order) : Z := sumZ (num_of ∘ item_price <$> g).
Definition sum_cost (g : list order) : Z := sumZ (num_of ∘ cost <$> g).

(** ** Key metrics *)

(** [Working.groupby(key)[item-price].sum()]: groups with a missing key are
    dropped, groups come sorted by key. *)
Definition groupby_item_price (key : order → cell) (Working : list order)
    : list (cell * Z) :=
  let data := filter (λ r, notna (key r)) Working in
  (λ k, (k, sum_item_price (filter (λ r, key r = k) data)))
    <$> merge_sort cell_le (remove_dups (key <$> data)).

(** [Series.idxmax()]: the label of the first largest value. *)
Fixpoint idxmax_go (best : cell * Z) (s : list (cell * Z)) : cell :=
  match s with
  | [] => best.1
  | kv :: s' => idxmax_go (if decide (best.2 < kv.2) then kv else best) s'
  end.

Definition idxmax (s : list (cell * Z)) : result cell :=
  match s with
  | [] => inl (ValueError "attempt to get argmax of an empty sequence")
  | kv :: s' => mret (idxmax_go kv s')
  end.

(** ** Views A and B: label by date *)

(** A date pivot: the dates heading the column pairs, and per label one
    pair (sum of item-price, sum of quantity) under each date. *)
Record pivot := {
  pv_dates : list Z;
  pv_rows : list (cell * list (Z * Z))
}.

(** [pd.pivot_table(Working, index=..., columns="date",
    values=["quantity", "item-price"], aggfunc="sum", fill_value=0)]
    followed by the swap and sort of the column levels.  Rows with a
    missing label or a missing date are in no group. *)
Definition pivot_by_date (index : order → cell) (Working : list order) : pivot :=
  let data := filter (λ r, notna (index r) ∧ is_Some (date r)) Working in
  let labels := merge_sort cell_le (remove_dups (index <$> data)) in
  let dates := merge_sort Z.le (remove_dups (omap date data)) in
  {| pv_dates := dates;
     pv_rows :=
       (λ m, (m, (λ d,
                let g := filter (λ r, index r = m ∧ date r = Some d) data in
                (sum_item_price g, sum_quantity g)) <$> dates)) <$> labels |}.

Definition pivot_Brand_Manager := pivot_by_date Brand_Manager.
Definition pivot_Brand := pivot_by_date Brand.

Definition add_pair (a b : Z * Z) : Z * Z := (a.1 + b.1, a.2 + b.2).

(** [pivot.sum(numeric_only=True)]: the sum of each column. *)
Definition column_sums (p : pivot) : list (Z * Z) :=
  foldr (λ row acc, zip_with add_pair row.2 acc)
        (replicate (length (pv_dates p)) (0, 0)) (pv_rows p).

(** [pd.concat([pivot, grand_total])] *)
Definition pivot_with_total (p : pivot) : pivot :=
  {| pv_dates := pv_dates p;
     pv_rows := pv_rows p ++ [(Str "Grand Total", column_sums p)] |}.

(** The quantity summed over every row and date of a pivot. *)
Definition pivot_quantity (p : pivot) : Z :=
  sumZ ((λ row, sumZ (snd <$> row.2)) <$> pv_rows p).

(** ** View C: brand and identifier *)

Record crow := {
  c_asin : cell;
  c_Brand : cell;
  c_quantity : Z;
  c_item_price : Z;
  c_cost : Z
}.

Global Instance crow_eq_dec : EqDecision crow.
Proof. solve_decision. Defined.

(** The rows both variants give [pd.pivot_table(Working, index=[...],
    values=["quantity", "item-price", "cost"], aggfunc="sum")] for a list
    of (asin, Brand) keys. *)
Definition brand_asin_table (data : list order) (keys : list (cell * cell))
    : list crow :=
  (λ k, let g := filter (λ r, asin r = k.1 ∧ Brand r = k.2) data in
        {| c_asin := k.1; c_Brand := k.2; c_quantity := sum_quantity g;
           c_item_price := sum_item_price g; c_cost := sum_cost g |}) <$> keys.

Definition brand_asin_keys (data : list order) : list (cell * cell) :=
  remove_dups ((λ r, (asin r, Brand r)) <$> data).

(** [sort_index(level=["Brand", "asin"])] *)
Definition by_Brand_asin : relation crow :=
  lex (on cell_le c_Brand) (on cell_le c_asin).

Module App2.

(** index=["asin", "Brand"]: groups sorted by asin, then Brand; then
    sorted by Brand, then asin. *)
Definition pivot_Brand_ASIN (Working : list order) : list crow :=
  let data := filter (λ r, notna (asin r) ∧ notna (Brand r)) Working in
  let keys :=
    merge_sort (lex (on cell_le fst) (on cell_le snd)) (brand_asin_keys data) in
  merge_sort by_Brand_asin (brand_asin_table data keys).

(** The total is indexed by the tuple ("Grand Total", "") under the
    names (asin, Brand). *)
Definition grand_total_values (table : list crow) : crow :=
  {| c_asin := Str "Grand Total"; c_Brand := Str "";
     c_quantity := sumZ (c_quantity <$> table);
     c_item_price := sumZ (c_item_price <$> table);
     c_cost := sumZ (c_cost <$> table) |}.

Definition pivot_Brand_ASIN_with_total (Working : list order) : list crow :=
  let table := pivot_Brand_ASIN Working in
  table ++ [grand_total_values table].

End App2.

Module Sales06.

(** index=["Brand", "asin"]: groups sorted by Brand, then asin; the
    following sort keeps that order. *)
Definition pivot_Brand_ASIN (Working : list order) : list crow :=
  let data := filter (λ r, notna (Brand r) ∧ notna (asin r)) Working in
  let keys :=
    merge_sort (lex (on cell_le snd) (on cell_le fst)) (brand_asin_keys data) in
  merge_sort by_Brand_asin (brand_asin_table data keys).

(** The total is indexed by the tuple ("Grand Total", "") under the
    names (Brand, asin). *)
Definition grand_total_values (table : list crow) : crow :=
  {| c_asin := Str ""; c_Brand := Str "Grand Total";
     c_quantity := sumZ (c_quantity <$> table);
     c_item_price := sumZ (c_item_price <$> table);
     c_cost := sumZ (c_cost <$> table) |}.

Definition pivot_Brand_ASIN_with_total (Working : list order) : list crow :=
  let table := pivot_Brand_ASIN Working in
  table ++ [grand_total_values table].

End Sales06.

(** ** View D: manager, brand and identifier with subtotals (app2.py) *)

(** A row of [combined]; [d_order] is the "order" column. *)
Record drow := {
  d_asin : cell;
  d_Brand_Manager : cell;
  d_Brand : cell;
  d_quantity : Z;
  d_item_price : Z;
  d_cost : Z;
  d_order : Z
}.

Global Instance drow_eq_dec : EqDecision drow.
Proof. solve_decision. Defined.

(** [column + " Total"] on one label: text is extended, a missing value
    stays missing, a number raises. *)
Definition add_text (c : cell) (suffix : string) : result cell :=
  match c with
  | Str s => mret (Str (s +:+ suffix))
  | NaN => mret NaN
  | Num _ => inl (TypeError "unsupported operand type(s) for +: 'int' and 'str'")
  end.

Definition by_key3 : relation (cell * cell * cell) :=
  lex (on cell_le (λ k, k.1.1)) (lex (on cell_le (λ k, k.1.2)) (on cell_le snd)).

(** [Working.groupby(["asin", "Brand Manager", "Brand"], dropna=False)
    [agg_cols].sum().reset_index()] with [order] set to 0. *)
Definition base_groups (Working : list order) : list drow :=
  let keys :=
    merge_sort by_key3
      (remove_dups ((λ r, (asin r, Brand_Manager r, Brand r)) <$> Working)) in
  (λ k, let g := filter (λ r, asin r = k.1.1 ∧ Brand_Manager r = k.1.2 ∧
                              Brand r = k.2) Working in
        {| d_asin := k.1.1; d_Brand_Manager := k.1.2; d_Brand := k.2;
           d_quantity := sum_quantity g; d_item_price := sum_item_price g;
           d_cost := sum_cost g; d_order := 0 |}) <$> keys.

(** [sort_values(by=["Brand Manager", "Brand", "quantity"],
    ascending=[True, True, False])] *)
Definition by_manager_brand_quantity : relation drow :=
  lex (on cell_le d_Brand_Manager)
      (lex (on cell_le d_Brand) (on Z_ge d_quantity)).

Definition base (Working : list order) : list drow :=
  merge_sort by_manager_brand_quantity (base_groups Working).

(** The base rows of one (manager, brand) group. *)
Definition brand_group (base : list drow) (m b : cell) : list drow :=
  filter (λ x, d_Brand_Manager x = m ∧ d_Brand x = b)
         (filter (λ x, notna (d_Brand_Manager x) ∧ notna (d_Brand x)) base).

Definition brand_total_row (base : list drow) (k : cell * cell) : result drow :=
  let g := brand_group base k.1 k.2 in
  a ← add_text k.2 " Total";
  mret {| d_asin := a; d_Brand_Manager := k.1; d_Brand := k.2;
          d_quantity := sumZ (d_quantity <$> g);
          d_item_price := sumZ (d_item_price <$> g);
          d_cost := sumZ (d_cost <$> g); d_order := 1 |}.

Definition brand_keys (base : list drow) : list (cell * cell) :=
  merge_sort (lex (on cell_le fst) (on cell_le snd))
    (remove_dups
       ((λ x, (d_Brand_Manager x, d_Brand x)) <$>
          filter (λ x, notna (d_Brand_Manager x) ∧ notna (d_Brand x)) base)).

(** [base.groupby(["Brand Manager", "Brand"], as_index=False)[agg_cols]
    .sum()], then the "asin" and "order" columns. *)
Definition brand_totals (base : list drow) : result (list drow) :=
  mapM (brand_total_row base) (brand_keys base).

Definition manager_total_row (base : list drow) (m : cell) : result drow :=
  let g := filter (λ x, d_Brand_Manager x = m)
                  (filter (λ x, notna (d_Brand_Manager x)) base) in
  a ← add_text m " Total";
  mret {| d_asin := a; d_Brand_Manager := m; d_Brand := Str "";
          d_quantity := sumZ (d_quantity <$> g);
          d_item_price := sumZ (d_item_price <$> g);
          d_cost := sumZ (d_cost <$> g); d_order := 2 |}.

(** [base.groupby(["Brand Manager"], as_index=False)[agg_cols].sum()],
    then the "Brand", "asin" and "order" columns. *)
Definition manager_totals (base : list drow) : result (list drow) :=
  mapM (manager_total_row base)
    (merge_sort cell_le
       (remove_dups
          (d_Brand_Manager <$> filter (λ x, notna (d_Brand_Manager x)) base))).

Definition grand_total (base : list drow) : drow :=
  {| d_asin := Str "Grand Total"; d_Brand_Manager := Str ""; d_Brand := Str "";
     d_quantity := sumZ (d_quantity <$> base);
     d_item_price := sumZ (d_item_price <$> base);
     d_cost := sumZ (d_cost <$> base); d_order := 3 |}.

(** [(combined["asin"] == "Grand Total").astype(int)] *)
Definition is_grand (x : drow) : Z :=
  if decide (d_asin x = Str "Grand Total") then 1 else 0.

(** [sort_values(by=["is_grand", "Brand Manager", "Brand", "order",
    "quantity"], ascending=[True, True, True, True, False])] *)
Definition by_combined : relation drow :=
  lex (on Z.le is_grand)
      (lex (on cell_le d_Brand_Manager)
           (lex (on cell_le d_Brand)
                (lex (on Z.le d_order) (on Z_ge d_quantity)))).

(** The rows of [display_df], each still carrying its "order" value. *)
Definition combined (Working : list order) : result (list drow) :=
  let base := base Working in
  brand_totals ← brand_totals base;
  manager_totals ← manager_totals base;
  mret (merge_sort by_combined
          (base ++ brand_totals ++ manager_totals ++ [grand_total base])).

(** ** One run of app2.py *)

Record outputs := {
  processed_orders : list order;
  total_revenue : Z;
  top_brand : cell;
  top_manager : cell;
  brand_manager_analysis : pivot;
  brand_analysis : pivot;
  brand_asin_summary : list crow;
  bm_brand_asin_summary : list drow
}.

Section Run.

Variable parse : string → option Z.

Definition run (pm : frame) (orders : list order) : result outputs :=
  Working ← prepare parse pm orders;
  let Working := Working_filter parse Working in
  top_brand ← idxmax (groupby_item_price Brand Working);
  top_manager ← idxmax (groupby_item_price Brand_Manager Working);
  display_df ← combined Working;
  mret {| processed_orders := Working;
          total_revenue := sum_item_price Working;
          top_brand := top_brand;
          top_manager := top_manager;
          brand_manager_analysis :=
            pivot_with_total (pivot_Brand_Manager Working);
          brand_analysis := pivot_with_total (pivot_Brand Working);
          brand_asin_summary := App2.pivot_Brand_ASIN_with_total Working;
          bm_brand_asin_summary := display_df |}.

End Run.

(** ** A parser and sample tables *)

(** Decimal integers with an optional sign, surrounding blanks ignored; the
    numbers of the model are integers. *)
Fixpoint parse_digits (acc : Z) (s : string) : option Z :=
  match s with
  | EmptyString => Some acc
  | String a s' =>
      match Ascii.is_nat a with
      | Some d => parse_digits (10 * acc + Z.of_nat d) s'
      | None => None
      end
  end.

Definition parse_decimal (s : string) : option Z :=
  match Py.strip s with
  | EmptyString => None
  | String "-" (String a s') => Z.opp <$> parse_digits 0 (String a s')
  | String "+" (String a s') => parse_digits 0 (String a s')
  | s' => parse_digits 0 s'
  end.

(** A loaded order row: the pipeline's own columns start out missing. *)
Definition loaded_order (id : cell) (qty : option Z) (price name status : cell)
    (ts : option Z) : order :=
  {| purchase_date := ts; date := None; asin := id; quantity := qty;
     item_price := price; product_name := name; item_status := status;
     Brand_Manager := NaN; Brand := NaN; Vendor_SKU := NaN; cost := NaN;
     others := [] |}.

(** Scenario 1 of the specification: one product, one shipped order on
    2024-01-01. *)
Definition pm_acme : frame :=
  {| columns := ["ASIN"; "Brand Manager"; "Brand"; "Vendor SKU"; "CP"];
     rows := [[Str "A1"; Str "Jo"; Str "Acme"; Str "V1"; Num 40]] |}.

Definition order_widget : order :=
  loaded_order (Str "A1") (Some 2) (Num 100) (Str "Widget") (Str "Shipped")
               (Some 1704103200).

(** An order for an identifier the product master does not list. *)
Definition order_unlisted : order :=
  loaded_order (Str "ZZ") (Some 3) (Num 50) (Str "Gadget") (Str "Shipped")
               (Some 1704103200).

(** An order whose price is text that is not a number. *)
Definition order_bad_price : order :=
  loaded_order (Str "A1") (Some 1) (Str "abc") (Str "Widget") (Str "Shipped")
               (Some 1704103200).

(** An order with no identifier. *)
Definition order_no_asin : order :=
  loaded_order NaN (Some 1) (Num 10) (Str "Widget") (Str "Shipped")
               (Some 1704103200).

(** ** The filter, stated row by row *)

Section Retained.

Variable parse : string → option Z.

(** The assignment of Step 7 on one row. *)
Definition coerce_item_price (r : order) : order :=
  set_item_price (to_numeric parse (item_price r)) r.

Definition product_name_ok (r : order) : Prop :=
  notna (product_name r) ∧
  astype_str_strip (product_name r) ≠ "-" ∧
  astype_str_strip (product_name r) ≠ "".

(** The four tests of Step 7 on a row.  A price that does not coerce is
    [NaN], and [NaN != 0] holds. *)
Definition keeps (r : order) : Prop :=
  quantity r ≠ Some 0 ∧
  to_numeric parse (item_price r) ≠ Num 0 ∧
  product_name_ok r ∧
  item_status r ≠ Str "Cancelled".

(** The filter predicate in the words of the specification: a price that
    does not coerce to a number fails the price test. *)
Definition spec_retained (r : order) : Prop :=
  quantity r ≠ Some 0 ∧
  (∃ z, to_numeric parse (item_price r) = Num z ∧ z ≠ 0) ∧
  product_name_ok r ∧
  item_status r ≠ Str "Cancelled".

End Retained.

(** ** Required columns, in the words of the specification *)

(** One of the four attribute columns is found neither by name nor by
    position: no label holds both "brand" and "manager"; or none is "brand";
    or none is a vendor name and there is no 4th column; or none is a cost
    name and there is no 8th column. *)
Definition unresolved (cols : list string) : Prop :=
  Forall (λ c, ¬ (Py.contains "brand" c ∧ Py.contains "manager" c)) cols
  ∨ Forall (λ c, c ≠ "brand") cols
  ∨ (Forall (λ c, c ∉ vendor_names) cols ∧ (length cols ≤ 3)%nat)
  ∨ (Forall (λ c, c ∉ cp_names) cols ∧ (length cols ≤ 7)%nat).

(** The error the specification asks for would carry the attribute and the
    source in its text. *)
Definition names_in_message (e : exn) (attribute source : string) : bool :=
  Py.contains attribute (Py.lower (exn_str e)) &&
  Py.contains source (Py.lower (exn_str e)).

(** A product master without a brand-manager column. *)
Definition pm_no_manager : frame :=
  {| columns := ["ASIN"; "Brand"; "Vendor SKU"; "CP"];
     rows := [[Str "A1"; Str "Acme"; Str "V1"; Num 40]] |}.

(** A product master listing identifier A1 twice, the second time padded
    with blanks and with other attributes. *)
Definition pm_duplicates : frame :=
  {| columns := ["ASIN"; "Brand Manager"; "Brand"; "Vendor SKU"; "CP"];
     rows := [[Str "A1"; Str "Jo"; Str "Acme"; Str "V1"; Num 40];
              [Str " A1 "; Str "Sam"; Str "Zenith"; Str "V9"; Num 99];
              [Str "B2"; Str "Sam"; Str "Zenith"; Str "V2"; Str "N/A"]] |}.

(** The maps of a product master whose columns resolve. *)
Definition maps_of (pm : frame) : lookup_maps :=
  match build_maps pm with
  | inr m => m
  | inl _ => {| bm_map := ∅; brand_map := ∅; vendor_map := ∅; cp_map := ∅ |}
  end.

(** [Working] at the end of Step 6 for tables that load. *)
Definition prepared (pm : frame) (orders : list order) : list order :=
  match prepare parse_decimal pm orders with
  | inr W => W
  | inl _ => []
  end.

(** The outputs of a run that completes. *)
Definition default_outputs (r : result outputs) : outputs :=
  match r with
  | inr out => out
  | inl _ =>
      {| processed_orders := []; total_revenue := 0; top_brand := NaN;
         top_manager := NaN;
         brand_manager_analysis := {| pv_dates := []; pv_rows := [] |};
         brand_analysis := {| pv_dates := []; pv_rows := [] |};
         brand_asin_summary := []; bm_brand_asin_summary := [] |}
  end.

Definition outputs_acme : outputs :=
  default_outputs (run parse_decimal pm_acme [order_widget; order_unlisted]).

(** A product master whose only brand is named "Grand". *)
Definition pm_grand : frame :=
  {| columns := ["ASIN"; "Brand Manager"; "Brand"; "Vendor SKU"; "CP"];
     rows := [[Str "A1"; Str "Jo"; Str "Grand"; Str "V1"; Num 40]] |}.

(** ** Column order of [Working] *)

(** [l.index(x)] of a Python list *)
Definition py_index (x : string) (l : list string) : option nat :=
  fst <$> list_find (λ c, c = x) l.

(** [l.insert(i, x)]: past the end it appends. *)
Definition py_insert (i : nat) (x : string) (l : list string) : list string :=
  take i l ++ x :: drop i l.

(** "Place cost after item-price": the position of item-price is read
    before the cost label is popped. *)
Definition place_cost (cols : list string) : list string :=
  match py_index "item-price" cols, py_index "cost" cols with
  | Some price_index, Some cost_index =>
      py_insert (price_index + 1) "cost" (delete cost_index cols)
  | _, _ => cols
  end.

(** The loop that rebuilds the labels with "Vendor SKU" after "asin". *)
Fixpoint after_asin (cols : list string) : list string :=
  match cols with
  | [] => []
  | c :: cols' =>
      if decide (c = "asin") then c :: "Vendor SKU" :: after_asin cols'
      else c :: after_asin cols'
  end.

(** "Vendor SKU right after asin": [cols.remove] drops the first
    occurrence. *)
Definition place_vendor (cols : list string) : list string :=
  match py_index "asin" cols, py_index "Vendor SKU" cols with
  | Some _, Some vendor_index => after_asin (delete vendor_index cols)
  | _, _ => cols
  end.

(** [Working[label] = ...]: a new label is appended, an existing one keeps
    its place. *)
Definition assign_column (label : string) (cols : list string) : list string :=
  if decide (label ∈ cols) then cols else cols ++ [label].

(** [Working[cols]]: for each label of [cols] in turn, every column of the
    table that carries the label. *)
Definition getitem_columns (cols current : list string) : list string :=
  cols ≫= λ c, filter (λ c', c' = c) current.

(** The labels of [Working] at the end of Step 6 of app2.py, from the
    labels of the orders file. *)
Definition Working_columns (orders_columns : list string) : list string :=
  let cols := clean_columns (assign_column "date" orders_columns) in
  let cols := assign_column "Brand Manager" cols in
  let cols := assign_column "Brand" cols in
  let cols := assign_column "Vendor SKU" cols in
  let cols := assign_column "cost" cols in
  let cols :=
    if decide ("item-price" ∈ cols ∧ "cost" ∈ cols)
    then getitem_columns (place_cost cols) cols else cols in
  if decide ("asin" ∈ cols ∧ "Vendor SKU" ∈ cols)
  then getitem_columns (place_vendor cols) cols else cols.

(** The labels the reordering looks for or places. *)
Definition placed_labels : list string :=
  ["asin"; "item-price"; "Brand Manager"; "Brand"; "Vendor SKU"; "cost"].

(** ** The columns of the orders file *)

(** The cleaned labels of the columns a row of [Working] holds in fields
    once Step 2 has run; "cost" is assigned under this very label. *)
Definition field_labels : list string :=
  ["purchase-date"; "date"; "asin"; "quantity"; "item-price"; "product-name";
   "item-status"; "cost"].

(** The remaining columns of a loaded row have labels that stay distinct
    when cleaned and collide with none of the columns held in fields: the
    orders file then gives a table whose labels are distinct after Step 2,
    with one "date" column. *)
Definition other_labels_ok (r : order) : Prop :=
  NoDup (clean_label <$> (others r).*1) ∧
  Forall (λ c, c ∉ field_labels) (clean_label <$> (others r).*1).

(** ** Steps 4 and 5 of sales_06.py *)

(** sales_06.py looks up the brand manager, the brand and the cost only:
    it has no vendor column and leaves "sku" as loaded. *)
Module Sales06Steps.

Record lookup_maps := {
  bm_map : gmap string cell;
  brand_map : gmap string cell;
  cp_map : gmap string cell
}.

Definition build_maps (pm : frame) : result lookup_maps :=
  let cols := clean_columns (columns pm) in
  i ← column_position cols "asin";
  let pm3 := clean_pm_asin i (rows pm) in
  bm_col ← find_bm_col cols;
  brand_col ← find_brand_col cols;
  let pm_unique := drop_duplicates pm3 in
  bm ← set_index_asin cols pm_unique bm_col;
  brand ← set_index_asin cols pm_unique brand_col;
  _ ← map_check pm_unique;
  cp_col ← find_cp_col cols;
  cp ← set_index_asin cols pm_unique cp_col;
  mret {| bm_map := bm; brand_map := brand; cp_map := cp |}.

Section Numeric.

Variable parse : string → option Z.

Definition enrich_order (m : lookup_maps) (r : order) : order :=
  let r := set_Brand_Manager (series_map (bm_map m) (asin r)) r in
  let r := set_Brand (series_map (brand_map m) (asin r)) r in
  let r := set_cost (series_map (cp_map m) (asin r)) r in
  set_cost (fillna0 (to_numeric parse (cost r))) r.

(** [Working] at the end of Step 5. *)
Definition prepare (pm : frame) (orders : list order) : result (list order) :=
  m ← build_maps pm;
  mret (enrich_order m <$> (normalise_order <$> orders)).

End Numeric.

End Sales06Steps.

(** Two rows agree when they differ in "Vendor SKU" and in the value under
    "sku" at most: the named columns are equal, the remaining columns have
    the same labels in the same order, and the same values except under
    "sku". *)
Definition same_but_vendor (r r' : order) : Prop :=
  purchase_date r = purchase_date r' ∧ date r = date r' ∧ asin r = asin r' ∧
  quantity r = quantity r' ∧ item_price r = item_price r' ∧
  product_name r = product_name r' ∧ item_status r = item_status r' ∧
  Brand_Manager r = Brand_Manager r' ∧ Brand r = Brand r' ∧ cost r = cost r' ∧
  (others r).*1 = (others r').*1 ∧
  filter (λ nc, nc.1 ≠ "sku") (others r)
  = filter (λ nc, nc.1 ≠ "sku") (others r').

(** ** View D of sales_06.py: manager, brand and identifier *)

Module Sales06ViewD.

Record trow := {
  t_Brand_Manager : cell;
  t_Brand : cell;
  t_asin : cell;
  t_quantity : Z;
  t_item_price : Z;
  t_cost : Z
}.

Global Instance trow_eq_dec : EqDecision trow.
Proof. solve_decision. Defined.

(** [pd.pivot_table(Working, index=["Brand Manager", "Brand", "asin"],
    values=["quantity", "item-price", "cost"], aggfunc="sum")]: orders with
    a missing label are in no group, groups come sorted by the three
    labels. *)
Definition pivot_BM_Brand_ASIN (Working : list order) : list trow :=
  let data :=
    filter (λ r, notna (Brand_Manager r) ∧ notna (Brand r) ∧ notna (asin r))
           Working in
  let keys :=
    merge_sort by_key3
      (remove_dups ((λ r, (Brand_Manager r, Brand r, asin r)) <$> data)) in
  (λ k, let g := filter (λ r, Brand_Manager r = k.1.1 ∧ Brand r = k.1.2 ∧
                              asin r = k.2) data in
        {| t_Brand_Manager := k.1.1; t_Brand := k.1.2; t_asin := k.2;
           t_quantity := sum_quantity g; t_item_price := sum_item_price g;
           t_cost := sum_cost g |}) <$> keys.

(** [sort_values(by=["Brand Manager", "Brand", "Sum of quantity"],
    ascending=[True, True, False])] *)
Definition by_manager_brand_quantity : relation trow :=
  lex (on cell_le t_Brand_Manager)
      (lex (on cell_le t_Brand) (on Z_ge t_quantity)).

Definition pivot_BM_Brand_ASIN_sorted (Working : list order) : list trow :=
  merge_sort by_manager_brand_quantity (pivot_BM_Brand_ASIN Working).

End Sales06ViewD.

(** A detail row of View D in app2.py, without its "order" column. *)
Definition detail_row (x : drow) : Sales06ViewD.trow :=
  {| Sales06ViewD.t_Brand_Manager := d_Brand_Manager x;
     Sales06ViewD.t_Brand := d_Brand x;
     Sales06ViewD.t_asin := d_asin x;
     Sales06ViewD.t_quantity := d_quantity x;
     Sales06ViewD.t_item_price := d_item_price x;
     Sales06ViewD.t_cost := d_cost x |}.

(** ** Views A and B, stated date by date *)

(** Under each date, the sums of item-price and quantity over the orders of
    that date that have the label. *)
Definition totals_by_date (index : order → cell) (Working : list order)
    (dates : list Z) : list (Z * Z) :=
  (λ d, let g := filter (λ r, notna (index r) ∧ date r = Some d) Working in
        (sum_item_price g, sum_quantity g)) <$> dates.

(** The dates and labels a date view shows for a table of orders: the
    dates of the labelled orders in strictly increasing order, and above
    the Grand Total row one row per label of a dated order, in increasing
    order, each with one pair per date. *)
Definition pivot_layout (index : order → cell) (Working : list order)
    (view : pivot) : Prop :=
  StronglySorted Z.lt (pv_dates view)
  ∧ (∀ d, d ∈ pv_dates view ↔
          ∃ r, r ∈ Working ∧ notna (index r) ∧ date r = Some d)
  ∧ ∃ body totals,
      pv_rows view = body ++ [(Str "Grand Total", totals)]
      ∧ StronglySorted cell_le (fst <$> body)
      ∧ NoDup (fst <$> body)
      ∧ (∀ m, m ∈ fst <$> body ↔
              notna m ∧ ∃ r, r ∈ Working ∧ index r = m ∧ is_Some (date r))
      ∧ Forall (λ row, length row.2 = length (pv_dates view)) (pv_rows view).

(** An order of a file that also has an "SKU" and an "Item-Tax" column. *)
Definition order_with_sku : order :=
  set_others [("SKU", Num 77); ("Item-Tax", Num 18)] order_widget.

(** A product master without a vendor column whose fourth column is the
    identifier. *)
Definition pm_no_vendor : frame :=
  {| columns := ["Brand Manager"; "Brand"; "CP"; "ASIN"];
     rows := [[Str "Jo"; Str "Acme"; Num 40; Str "A1"]] |}.
(** * Properties *)

(** ** The orders on keys *)

Global Instance cell_le_total : Total cell_le.
Proof.
  intros [|x|s] [|y|t]; simpl; auto.
  - destruct (Z.le_ge_cases x y); auto.
  - apply (total String.le).
Qed.

Global Instance cell_le_trans : Transitive cell_le.
Proof.
  intros [|x|s] [|y|t] [|z|u]; simpl; try done.
  - apply Z.le_trans.
  - apply (transitivity (R := String.le)).
Qed.

Global Instance cell_le_antisymm : AntiSymm (=) cell_le.
Proof.
  intros [|x|s] [|y|t]; simpl; try done.
  - intros ??. f_equal. lia.
  - intros ??. f_equal. by apply (anti_symm String.le).
Qed.

Global Instance Z_ge_total : Total Z_ge.
Proof. intros x y. unfold Z_ge. lia. Qed.

Global Instance Z_ge_trans : Transitive Z_ge.
Proof. intros x y z. unfold Z_ge. lia. Qed.

Global Instance Z_le_total : Total Z.le.
Proof. intros x y. lia. Qed.

Global Instance on_total {A B} (R : relation B) (f : A → B) `{!Total R} :
  Total (on R f).
Proof. intros x y. apply (total R). Qed.

Global Instance on_trans {A B} (R : relation B) (f : A → B) `{!Transitive R} :
  Transitive (on R f).
Proof. intros x y z. apply (transitivity (R := R)). Qed.

Global Instance lex_total {A} (R1 R2 : relation A)
  `{!RelDecision R1, !Total R1, !Total R2} : Total (lex R1 R2).
Proof.
  intros x y. unfold lex.
  destruct (decide (R1 x y)) as [Hxy|Hxy], (decide (R1 y x)) as [Hyx|Hyx].
  - destruct (total R2 x y); auto.
  - left. split; [done|]. intros; contradiction.
  - right. split; [done|]. intros; contradiction.
  - destruct (total R1 x y); contradiction.
Qed.

Global Instance lex_trans {A} (R1 R2 : relation A)
  `{!Transitive R1, !Transitive R2} : Transitive (lex R1 R2).
Proof.
  intros x y z [Hxy Hxy'] [Hyz Hyz']. split.
  - by transitivity y.
  - intros Hzx. transitivity y.
    + apply Hxy'. by transitivity z.
    + apply Hyz'. by transitivity x.
Qed.

(** ** Sums over groups *)

Lemma sumZ_nil : sumZ [] = 0.
Proof. reflexivity. Qed.

Lemma sumZ_cons x l : sumZ (x :: l) = x + sumZ l.
Proof. reflexivity. Qed.

Lemma sumZ_app l1 l2 : sumZ (l1 ++ l2) = sumZ l1 + sumZ l2.
Proof.
  induction l1 as [|x l1 IH]; [done|].
  rewrite <- app_comm_cons, !sumZ_cons, IH. lia.
Qed.

Lemma sumZ_Permutation l1 l2 : l1 ≡ₚ l2 → sumZ l1 = sumZ l2.
Proof. induction 1; rewrite ?sumZ_cons; lia. Qed.

Lemma sumZ_zero {A} (l : list A) : sumZ ((λ _, 0) <$> l) = 0.
Proof. induction l as [|x l IH]; [done|]. by rewrite fmap_cons, sumZ_cons, IH. Qed.

Section Groups.

Context {A K : Type} `{!EqDecision K}.
Variables (key : A → K) (f : A → Z).

Lemma sum_no_key (a : A) (ks : list K) :
  key a ∉ ks →
  sumZ ((λ k, if decide (key a = k) then f a else 0) <$> ks) = 0.
Proof.
  induction ks as [|k ks IH]; intros Hk; [done|].
  rewrite fmap_cons, sumZ_cons, IH.
  - destruct (decide (key a = k)) as [Heq|_]; [|done].
    exfalso. apply Hk. rewrite Heq. left.
  - intros ?. apply Hk. by right.
Qed.

(** One key selects a row's value once among keys without repetition. *)
Lemma sum_one_key (a : A) (ks : list K) :
  NoDup ks → key a ∈ ks →
  sumZ ((λ k, if decide (key a = k) then f a else 0) <$> ks) = f a.
Proof.
  induction 1 as [|k ks Hk Hks IH]; intros Hin.
  - by apply elem_of_nil in Hin.
  - rewrite fmap_cons, sumZ_cons.
    destruct (decide (key a = k)) as [Heq|Hne].
    + rewrite sum_no_key; [lia|]. by rewrite Heq.
    + apply elem_of_cons in Hin as [?|Hin]; [done|].
      rewrite IH by done. lia.
Qed.

(** Grouping by key partitions the rows: the group sums add up to the
    sum over all rows. *)
Lemma sum_groups (l : list A) (ks : list K) :
  NoDup ks → (∀ a, a ∈ l → key a ∈ ks) →
  sumZ ((λ k, sumZ (f <$> filter (λ a, key a = k) l)) <$> ks)
  = sumZ (f <$> l).
Proof.
  intros Hnd. induction l as [|a l IH]; intros Hin.
  - apply sumZ_zero.
  - rewrite fmap_cons, sumZ_cons.
    rewrite <- IH by (intros; apply Hin; by right).
    rewrite <- (sum_one_key a ks Hnd) at 1 by (apply Hin; left).
    clear IH Hin Hnd. induction ks as [|k ks IHk]; [done|].
    rewrite !fmap_cons, !sumZ_cons, IHk, filter_cons.
    destruct (decide (key a = k)); rewrite ?fmap_cons, ?sumZ_cons; lia.
Qed.

End Groups.

(** ** Step 7 *)

Lemma filter_fmap {A B} (f : A → B) (P : B → Prop) `{!∀ x, Decision (P x)}
    (l : list A) :
  filter P (f <$> l) = f <$> filter (λ x, P (f x)) l.
Proof.
  induction l as [|x l IH]; [done|].
  rewrite fmap_cons, !filter_cons, IH. by destruct (decide (P (f x))).
Qed.

Section FilterProperties.

Variable parse : string → option Z.

Lemma to_numeric_idemp c :
  to_numeric parse (to_numeric parse c) = to_numeric parse c.
Proof. destruct c as [|z|s]; simpl; [done..|]. by destruct (parse s). Qed.

Lemma to_numeric_not_text c s : to_numeric parse c ≠ Str s.
Proof. destruct c as [|z|t]; simpl; [done..|]. by destruct (parse t). Qed.

Lemma Working_filter_keeps (Working : list order) :
  Working_filter parse Working
  = coerce_item_price parse <$> filter (keeps parse) Working.
Proof.
  unfold Working_filter. rewrite !list_filter_filter, filter_fmap.
  rewrite list_filter_filter. f_equal.
  apply list_filter_iff. intros r. unfold keeps, product_name_ok. simpl.
  tauto.
Qed.

Lemma keeps_coerce_eq r r' :
  coerce_item_price parse r = coerce_item_price parse r' →
  keeps parse r ↔ keeps parse r'.
Proof.
  intros Heq. unfold keeps, product_name_ok.
  assert (to_numeric parse (item_price r) = to_numeric parse (item_price r'))
    as Hp by (by apply (f_equal item_price) in Heq).
  apply (f_equal quantity) in Heq as Hq.
  apply (f_equal product_name) in Heq as Hn.
  apply (f_equal item_status) in Heq as Hs.
  simpl in Hq, Hn, Hs. by rewrite Hp, Hq, Hn, Hs.
Qed.

(** C1 (as the code has it).  The filter keeps exactly the rows with
    quantity other than 0, coerced price other than the number 0 (a price
    that does not coerce is missing, and a missing price is other than 0,
    so the row stays), a product name that is present and after trimming
    neither empty nor "-", and a status other than "Cancelled"; the kept
    rows come out in their order, with the price coerced. *)
Theorem C1_filter_retains_iff (Working : list order) :
  Working_filter parse Working
  = coerce_item_price parse <$> filter (keeps parse) Working
  ∧ ∀ r, r ∈ Working →
         (coerce_item_price parse r ∈ Working_filter parse Working
          ↔ keeps parse r).
Proof.
  split; [apply Working_filter_keeps|].
  intros r Hr. rewrite Working_filter_keeps, list_elem_of_fmap. split.
  - intros (r' & Heq & [Hk Hin]%list_elem_of_filter).
    by apply (keeps_coerce_eq r r').
  - intros Hk. exists r. split; [done|]. by apply list_elem_of_filter.
Qed.

(** C4 (as the code has it).  A row that leaves the filter is a row that
    entered it with every field as it was, except the item-price, which
    holds its numeric coercion; a row whose price was not text is
    unchanged altogether. *)
Theorem C4_filter_changes_price_only (Working : list order) (r' : order) :
  r' ∈ Working_filter parse Working →
  ∃ r, r ∈ Working ∧
    purchase_date r' = purchase_date r ∧ date r' = date r ∧
    asin r' = asin r ∧ quantity r' = quantity r ∧
    product_name r' = product_name r ∧ item_status r' = item_status r ∧
    Brand_Manager r' = Brand_Manager r ∧ Brand r' = Brand r ∧
    Vendor_SKU r' = Vendor_SKU r ∧ cost r' = cost r ∧
    others r' = others r ∧
    item_price r' = to_numeric parse (item_price r) ∧
    ((∀ s, item_price r ≠ Str s) → r' = r).
Proof.
  rewrite Working_filter_keeps, list_elem_of_fmap.
  intros (r & -> & [_ Hin]%list_elem_of_filter).
  exists r. repeat split; try done.
  intros Hs. destruct r as [? ? ? ? p ? ? ? ? ? ? ?].
  unfold coerce_item_price, set_item_price. simpl in *.
  destruct p as [|z|s]; [done..|]. by destruct (Hs s).
Qed.

End FilterProperties.

(** ** Column detection and the lookup maps *)

Lemma result_bind_inr {A B} (f : A → result B) (m : result A) (y : B) :
  m ≫= f = inr y → ∃ x, m = inr x ∧ f x = inr y.
Proof.
  destruct m as [e|x]; intros H; [discriminate H|].
  exists x. split; [done|exact H].
Qed.

Lemma result_bind_inl {A B} (f : A → result B) (m : result A) (e : exn) :
  m ≫= f = inl e → m = inl e ∨ ∃ x, m = inr x ∧ f x = inl e.
Proof.
  destruct m as [e'|x]; intros H.
  - left. f_equal. unfold mbind, result_bind in H. by injection H.
  - right. exists x. split; [done|exact H].
Qed.

Lemma filter_nil_Forall {A} (P : A → Prop) `{!∀ x, Decision (P x)} (l : list A) :
  filter P l = [] ↔ Forall (λ x, ¬ P x) l.
Proof.
  induction l as [|x l IH]; [by split|].
  rewrite filter_cons, Forall_cons. destruct (decide (P x)); [|tauto].
  split; [done|]. by intros [? _].
Qed.

Lemma filter_head_elem_of {A} (P : A → Prop) `{!∀ x, Decision (P x)}
    (l l' : list A) (c : A) :
  filter P l = c :: l' → c ∈ l ∧ P c.
Proof.
  intros Hf. assert (c ∈ filter P l) as Hc by (rewrite Hf; left).
  apply list_elem_of_filter in Hc. tauto.
Qed.

Lemma column_position_inr cols name i :
  column_position cols name = inr i → cols !! i = Some name.
Proof.
  unfold column_position. destruct (list_find _ cols) as [[j c]|] eqn:Hf; [|done].
  intros [= <-]. apply list_find_Some in Hf as (? & -> & _). done.
Qed.

Lemma column_position_inl cols name e :
  column_position cols name = inl e → e = KeyError name ∧ name ∉ cols.
Proof.
  unfold column_position. destruct (list_find _ cols) as [[j c]|] eqn:Hf; [done|].
  intros [= <-]. split; [done|]. apply list_find_None in Hf.
  intros Hin. by eapply Forall_forall in Hf.
Qed.

Lemma list_first_inr l c : list_first l = inr c → ∃ l', l = c :: l'.
Proof. destruct l as [|c' l']; [done|]. intros [= <-]. eauto. Qed.

Lemma list_first_inl l e :
  list_first l = inl e → e = IndexError "list index out of range" ∧ l = [].
Proof. destruct l as [|c' l']; [|done]. by intros [= <-]. Qed.

Lemma set_index_asin_inr cols pmu col m :
  set_index_asin cols pmu col = inr m →
  ∃ j, column_position cols col = inr j ∧ m = series_of pmu j.
Proof.
  unfold set_index_asin. destruct (decide (col = "asin")); [done|].
  intros (j & Hj & [= <-])%result_bind_inr. eauto.
Qed.

Lemma set_index_asin_inl cols pmu col e :
  col ∈ cols → set_index_asin cols pmu col = inl e → e = KeyError "asin".
Proof.
  unfold set_index_asin. intros Hin.
  destruct (decide (col = "asin")) as [->|]; [by intros [= <-]|].
  intros [Hp|(j & _ & [=])]%result_bind_inl.
  apply column_position_inl in Hp as [_ Hn]. contradiction.
Qed.

Lemma columns_getitem_inr cols i c :
  columns_getitem cols i = inr c → c ∈ cols ∧ (i < length cols)%nat.
Proof.
  unfold columns_getitem. destruct (cols !! i) as [c'|] eqn:Hi; [|done].
  intros [= <-]. split; [by eapply list_elem_of_lookup_2|].
  by eapply lookup_lt_Some.
Qed.

Lemma columns_getitem_inl cols i e :
  columns_getitem cols i = inl e →
  e = out_of_bounds i (length cols) ∧ (length cols ≤ i)%nat.
Proof.
  unfold columns_getitem. destruct (cols !! i) as [c'|] eqn:Hi; [done|].
  intros [= <-]. split; [done|]. by apply lookup_ge_None.
Qed.

(** The candidates-or-position rule shared by the vendor and cost columns. *)
Lemma fallback_inr (P : string → Prop) `{!∀ c, Decision (P c)} cols i c :
  match filter P cols with
  | c :: _ => mret c
  | [] => columns_getitem cols i
  end = inr c →
  c ∈ cols ∧ ¬ (Forall (λ c, ¬ P c) cols ∧ (length cols ≤ i)%nat).
Proof.
  destruct (filter P cols) as [|c' l'] eqn:Hf.
  - intros [Hc Hi]%columns_getitem_inr. split; [done|]. intros [_ ?]. lia.
  - intros [= <-]. apply filter_head_elem_of in Hf as [Hc HP].
    split; [done|]. intros [Hall _].
    by eapply Forall_forall in Hall.
Qed.

Lemma fallback_inl (P : string → Prop) `{!∀ c, Decision (P c)} cols i e :
  match filter P cols with
  | c :: _ => mret c
  | [] => columns_getitem cols i
  end = inl e →
  e = out_of_bounds i (length cols).
Proof.
  destruct (filter P cols) as [|c' l'] eqn:Hf; [|done].
  by intros [-> _]%columns_getitem_inl.
Qed.

Lemma drop_duplicates_go_elem_of seen pm kr :
  kr ∈ drop_duplicates_go seen pm → kr ∈ pm ∧ kr.1 ∉ seen.
Proof.
  revert seen. induction pm as [|kr' pm IH]; intros seen; simpl.
  - by intros ?%elem_of_nil.
  - destruct (decide (kr'.1 ∈ seen)) as [Hs|Hs].
    + intros [??]%IH. split; [by right|done].
    + intros [->|[? Hn]%IH]%elem_of_cons; [split; [left|done]|].
      split; [by right|]. intros ?. apply Hn, elem_of_union. by right.
Qed.

Lemma drop_duplicates_go_NoDup seen pm :
  NoDup (drop_duplicates_go seen pm).*1.
Proof.
  revert seen. induction pm as [|kr pm IH]; intros seen; simpl.
  - constructor.
  - destruct (decide (kr.1 ∈ seen)); [apply IH|].
    rewrite fmap_cons. constructor; [|apply IH].
    intros ([k' r'] & Hk & [_ Hn]%drop_duplicates_go_elem_of)%list_elem_of_fmap.
    simpl in *. apply Hn, elem_of_union. left. by apply elem_of_singleton.
Qed.

Lemma map_check_drop_duplicates (pm : list (string * list cell)) :
  map_check (drop_duplicates pm) = inr ().
Proof.
  unfold map_check, drop_duplicates.
  by rewrite decide_True by apply drop_duplicates_go_NoDup.
Qed.

(** The test of [map_check] never fails on the de-duplicated table, so the
    maps are built by the column lookups alone. *)
Lemma build_maps_eq (pm : frame) :
  build_maps pm
  = (let cols := clean_columns (columns pm) in
     i ← column_position cols "asin";
     let pm3 := clean_pm_asin i (rows pm) in
     bm_col ← find_bm_col cols;
     brand_col ← find_brand_col cols;
     let pm_unique := drop_duplicates pm3 in
     bm ← set_index_asin cols pm_unique bm_col;
     brand ← set_index_asin cols pm_unique brand_col;
     vendor_col ← find_vendor_col cols;
     vendor ← set_index_asin cols pm_unique vendor_col;
     cp_col ← find_cp_col cols;
     cp ← set_index_asin cols pm_unique cp_col;
     mret {| bm_map := bm; brand_map := brand; vendor_map := vendor;
             cp_map := cp |}).
Proof.
  unfold build_maps. cbv zeta.
  destruct (column_position _ "asin") as [e|i]; [done|]. simpl.
  destruct (find_bm_col _) as [e|cbm]; [done|]. simpl.
  destruct (find_brand_col _) as [e|cb]; [done|]. simpl.
  destruct (set_index_asin _ _ cbm) as [e|bm]; [done|]. simpl.
  destruct (set_index_asin _ _ cb) as [e|brand]; [done|]. simpl.
  by rewrite map_check_drop_duplicates.
Qed.

(** What a successful construction of the maps consists of. *)
Lemma build_maps_inr pm m :
  build_maps pm = inr m →
  let cols := clean_columns (columns pm) in
  ∃ i jbm jb jv jc,
    column_position cols "asin" = inr i ∧
    find_bm_col cols ≫= column_position cols = inr jbm ∧
    find_brand_col cols ≫= column_position cols = inr jb ∧
    find_vendor_col cols ≫= column_position cols = inr jv ∧
    find_cp_col cols ≫= column_position cols = inr jc ∧
    let pm_unique := drop_duplicates (clean_pm_asin i (rows pm)) in
    m = {| bm_map := series_of pm_unique jbm;
           brand_map := series_of pm_unique jb;
           vendor_map := series_of pm_unique jv;
           cp_map := series_of pm_unique jc |}.
Proof.
  rewrite build_maps_eq. intros H.
  apply result_bind_inr in H as (i & Hi & H).
  apply result_bind_inr in H as (cbm & Hcbm & H).
  apply result_bind_inr in H as (cb & Hcb & H).
  apply result_bind_inr in H as (bm & Hbm & H).
  apply result_bind_inr in H as (brand & Hbrand & H).
  apply result_bind_inr in H as (cv & Hcv & H).
  apply result_bind_inr in H as (vendor & Hvendor & H).
  apply result_bind_inr in H as (cc & Hcc & H).
  apply result_bind_inr in H as (cp & Hcp & H).
  apply set_index_asin_inr in Hbm as (jbm & Hjbm & ->).
  apply set_index_asin_inr in Hbrand as (jb & Hjb & ->).
  apply set_index_asin_inr in Hvendor as (jv & Hjv & ->).
  apply set_index_asin_inr in Hcp as (jc & Hjc & ->).
  exists i, jbm, jb, jv, jc. simpl.
  rewrite Hcbm, Hcb, Hcv, Hcc. repeat split; try done.
  by injection H.
Qed.

Lemma build_maps_resolved pm m :
  build_maps pm = inr m → ¬ unresolved (clean_columns (columns pm)).
Proof.
  rewrite build_maps_eq. intros H.
  apply result_bind_inr in H as (i & Hi & H).
  apply result_bind_inr in H as (cbm & Hcbm & H).
  apply result_bind_inr in H as (cb & Hcb & H).
  apply result_bind_inr in H as (bm & Hbm & H).
  apply result_bind_inr in H as (brand & Hbrand & H).
  apply result_bind_inr in H as (cv & Hcv & H).
  apply result_bind_inr in H as (vendor & Hvendor & H).
  apply result_bind_inr in H as (cc & Hcc & H).
  clear H Hbm Hbrand Hvendor Hi.
  apply list_first_inr in Hcbm as [l1 Hl1].
  apply list_first_inr in Hcb as [l2 Hl2].
  apply fallback_inr in Hcv as [_ Hv].
  apply fallback_inr in Hcc as [_ Hc].
  intros [Hu|[Hu|[Hu|Hu]]].
  - apply (filter_nil_Forall
             (λ c, Py.contains "brand" c ∧ Py.contains "manager" c)) in Hu.
    by rewrite Hu in Hl1.
  - apply (filter_nil_Forall (λ c, c = "brand")) in Hu. by rewrite Hu in Hl2.
  - apply Hv. done.
  - apply Hc. done.
Qed.

(** Every exception the construction of the maps can raise. *)
Lemma build_maps_inl pm e :
  build_maps pm = inl e →
  let n := length (columns pm) in
  e = KeyError "asin" ∨ e = IndexError "list index out of range" ∨
  e = out_of_bounds 3 n ∨ e = out_of_bounds 7 n.
Proof.
  rewrite build_maps_eq. intros H.
  assert (length (clean_columns (columns pm)) = length (columns pm)) as Hlen
    by apply length_fmap.
  apply result_bind_inl in H as [H|(i & Hi & H)].
  { apply column_position_inl in H as [-> _]. by left. }
  apply result_bind_inl in H as [H|(cbm & Hcbm & H)].
  { apply list_first_inl in H as [-> _]. right; by left. }
  apply result_bind_inl in H as [H|(cb & Hcb & H)].
  { apply list_first_inl in H as [-> _]. right; by left. }
  apply list_first_inr in Hcbm as [l1 [Hcbm _]%filter_head_elem_of].
  apply list_first_inr in Hcb as [l2 [Hcb _]%filter_head_elem_of].
  apply result_bind_inl in H as [H|(bm & _ & H)].
  { apply set_index_asin_inl in H as ->; [by left|done]. }
  apply result_bind_inl in H as [H|(brand & _ & H)].
  { apply set_index_asin_inl in H as ->; [by left|done]. }
  apply result_bind_inl in H as [H|(cv & Hcv & H)].
  { apply fallback_inl in H as ->. rewrite Hlen. right; right; by left. }
  apply fallback_inr in Hcv as [Hcv _].
  apply result_bind_inl in H as [H|(vendor & _ & H)].
  { apply set_index_asin_inl in H as ->; [by left|done]. }
  apply result_bind_inl in H as [H|(cc & Hcc & H)].
  { apply fallback_inl in H as ->. rewrite Hlen. right; right; by right. }
  apply fallback_inr in Hcc as [Hcc _].
  apply result_bind_inl in H as [H|(cp & _ & H)].
  { apply set_index_asin_inl in H as ->; [by left|done]. }
  discriminate H.
Qed.

Section RunProperties.

Variable parse : string → option Z.

Lemma run_build_maps_inl pm orders e :
  build_maps pm = inl e → run parse pm orders = inl e.
Proof. unfold run, prepare. by intros ->. Qed.


End RunProperties.

(** ** Deduplication *)

(** The first row carrying an unseen identifier is kept. *)
Lemma drop_duplicates_go_first seen pm1 kr pm2 :
  kr.1 ∉ seen → kr.1 ∉ pm1.*1 →
  kr ∈ drop_duplicates_go seen (pm1 ++ kr :: pm2).
Proof.
  revert seen. induction pm1 as [|kr' pm1 IH]; intros seen Hs H1; simpl.
  - rewrite decide_False by done. left.
  - rewrite fmap_cons, not_elem_of_cons in H1. destruct H1 as [Hne H1].
    destruct (decide (kr'.1 ∈ seen)); [by apply IH|].
    right. apply IH; [|done].
    by intros [?%elem_of_singleton|?]%elem_of_union.
Qed.

(** Rows carrying an identifier already seen change nothing. *)
Lemma drop_duplicates_go_seen seen pm k :
  k ∈ seen →
  drop_duplicates_go seen (filter (λ kr, kr.1 ≠ k) pm)
  = drop_duplicates_go seen pm.
Proof.
  revert seen. induction pm as [|kr pm IH]; intros seen Hk; [done|].
  rewrite filter_cons. destruct (decide (kr.1 ≠ k)) as [Hne|Heq]; simpl.
  - destruct (decide (kr.1 ∈ seen)); [by apply IH|].
    f_equal. apply IH, elem_of_union. by right.
  - apply dec_stable in Heq. rewrite decide_True by (by rewrite Heq).
    by apply IH.
Qed.

Lemma drop_duplicates_go_later seen pm1 kr pm2 :
  drop_duplicates_go seen (pm1 ++ kr :: filter (λ kr', kr'.1 ≠ kr.1) pm2)
  = drop_duplicates_go seen (pm1 ++ kr :: pm2).
Proof.
  revert seen. induction pm1 as [|kr' pm1 IH]; intros seen; simpl.
  - destruct (decide (kr.1 ∈ seen)).
    + by apply drop_duplicates_go_seen.
    + f_equal. apply drop_duplicates_go_seen, elem_of_union.
      left. by apply elem_of_singleton.
  - destruct (decide (kr'.1 ∈ seen)); [apply IH|]. f_equal. apply IH.
Qed.

Lemma clean_pm_asin_app i rs1 rs2 :
  clean_pm_asin i (rs1 ++ rs2) = clean_pm_asin i rs1 ++ clean_pm_asin i rs2.
Proof. unfold clean_pm_asin. by rewrite fmap_app, filter_app. Qed.

Lemma clean_pm_asin_elem_of i rs kr :
  kr ∈ clean_pm_asin i rs →
  kr.1 ≠ "" ∧ kr.1 ≠ "nan" ∧ kr.2 ∈ rs ∧ kr.1 = astype_str_strip (cell_at i kr.2).
Proof.
  unfold clean_pm_asin.
  intros [(? & _ & ?) (r & -> & Hr)%list_elem_of_fmap]%list_elem_of_filter.
  done.
Qed.

Lemma clean_pm_asin_filter i rs k :
  clean_pm_asin i (filter (λ r, astype_str_strip (cell_at i r) ≠ k) rs)
  = filter (λ kr, kr.1 ≠ k) (clean_pm_asin i rs).
Proof.
  unfold clean_pm_asin. rewrite filter_fmap, !list_filter_filter, filter_fmap.
  f_equal. apply list_filter_iff. intros r. simpl. tauto.
Qed.

Lemma series_of_lookup pmu j k r :
  NoDup pmu.*1 → (k, r) ∈ pmu → series_of pmu j !! k = Some (cell_at j r).
Proof.
  intros Hnd Hin. unfold series_of. apply elem_of_list_to_map_1.
  - by rewrite <- list_fmap_compose.
  - apply list_elem_of_fmap. by exists (k, r).
Qed.

Lemma series_of_lookup_None pmu j k :
  k ∉ pmu.*1 → series_of pmu j !! k = None.
Proof.
  intros Hk. unfold series_of. apply not_elem_of_list_to_map_1.
  by rewrite <- list_fmap_compose.
Qed.

Lemma build_maps_ext pm1 pm2 :
  columns pm1 = columns pm2 →
  (∀ i, column_position (clean_columns (columns pm1)) "asin" = inr i →
        drop_duplicates (clean_pm_asin i (rows pm1))
        = drop_duplicates (clean_pm_asin i (rows pm2))) →
  build_maps pm1 = build_maps pm2.
Proof.
  intros Hc Hr. rewrite !build_maps_eq. cbv zeta. rewrite <- Hc.
  destruct (column_position _ "asin") as [e|i] eqn:Hi; [done|].
  simpl. by rewrite (Hr i).
Qed.

(** C5.  On a product master with distinct labels and identifiers that
    are text, when several rows carry the same cleaned identifier, the
    de-duplicated table [pm_unique] holds each identifier once and for this
    identifier the first such row only; each of the four maps holds for it
    the value of that row; and the maps are those of the table with the
    later rows of that identifier removed. *)
Theorem C5_first_occurrence_wins (pm : frame) (m : lookup_maps) (i : nat)
    (l1 l2 : list (list cell)) (r : list cell) (k : string) :
  NoDup (clean_columns (columns pm)) →
  column_position (clean_columns (columns pm)) "asin" = inr i →
  Forall (λ r0, text_or_missing (cell_at i r0)) (rows pm) →
  rows pm = l1 ++ r :: l2 →
  astype_str_strip (cell_at i r) = k →
  k ≠ "" → k ≠ "nan" →
  Forall (λ r0, astype_str_strip (cell_at i r0) ≠ k) l1 →
  build_maps pm = inr m →
  (∃ jbm jb jv jc,
    find_bm_col (clean_columns (columns pm))
      ≫= column_position (clean_columns (columns pm)) = inr jbm ∧
    find_brand_col (clean_columns (columns pm))
      ≫= column_position (clean_columns (columns pm)) = inr jb ∧
    find_vendor_col (clean_columns (columns pm))
      ≫= column_position (clean_columns (columns pm)) = inr jv ∧
    find_cp_col (clean_columns (columns pm))
      ≫= column_position (clean_columns (columns pm)) = inr jc ∧
    bm_map m !! k = Some (cell_at jbm r) ∧
    brand_map m !! k = Some (cell_at jb r) ∧
    vendor_map m !! k = Some (cell_at jv r) ∧
    cp_map m !! k = Some (cell_at jc r))
  ∧ build_maps
      {| columns := columns pm;
         rows := l1 ++ r :: filter (λ r', astype_str_strip (cell_at i r') ≠ k) l2 |}
    = inr m
  ∧ NoDup (drop_duplicates (clean_pm_asin i (rows pm))).*1
  ∧ (∀ r', (k, r') ∈ drop_duplicates (clean_pm_asin i (rows pm)) ↔ r' = r)
  ∧ (∀ r', r' ∈ l2 → astype_str_strip (cell_at i r') = k →
       ∀ k', (k', r') ∈ drop_duplicates (clean_pm_asin i (rows pm)) → r' = r).
Proof.
  intros _ Hi _ Hrows Hk Hk1 Hk2 Hl1 Hb.
  assert (clean_pm_asin i [r] = [(k, r)]) as Hr.
  { unfold clean_pm_asin. simpl. rewrite filter_cons_True, Hk; [done|].
    simpl. rewrite Hk. unfold notna. done. }
  assert (k ∉ (clean_pm_asin i l1).*1) as Hfresh.
  { intros ([k' r0] & Hk' & Hin)%list_elem_of_fmap. simpl in Hk'. subst k'.
    apply clean_pm_asin_elem_of in Hin as (_ & _ & Hin & Heq). simpl in *.
    eapply Forall_forall in Hl1; [|done]. by apply Hl1. }
  assert (NoDup (drop_duplicates (clean_pm_asin i (rows pm))).*1) as Hnd
    by apply drop_duplicates_go_NoDup.
  assert ((k, r) ∈ drop_duplicates (clean_pm_asin i (rows pm))) as Hfirst.
  { rewrite Hrows, (clean_pm_asin_app i l1 (r :: l2)).
    change (r :: l2) with ([r] ++ l2).
    rewrite (clean_pm_asin_app i [r] l2), Hr.
    apply (drop_duplicates_go_first ∅ _ (k, r)); [apply not_elem_of_empty|done]. }
  assert (∀ r', (k, r') ∈ drop_duplicates (clean_pm_asin i (rows pm)) → r' = r)
    as Honly.
  { intros r' Hin.
    pose proof (series_of_lookup _ 0 _ _ Hnd Hin) as H1.
    assert (list_to_map (drop_duplicates (clean_pm_asin i (rows pm)))
            !! k = Some r') as Hr'
      by (by apply elem_of_list_to_map_1).
    assert (list_to_map (drop_duplicates (clean_pm_asin i (rows pm)))
            !! k = Some r) as Hr0
      by (by apply elem_of_list_to_map_1).
    congruence. }
  split; [|split; [|split; [done|split]]].
  - apply build_maps_inr in Hb as (i' & jbm & jb & jv & jc & Hi' & ? & ? & ? & ? & ->).
    simpl in Hi'. rewrite Hi in Hi'. injection Hi' as <-.
    exists jbm, jb, jv, jc. repeat split; try done; simpl;
      by apply series_of_lookup.
  - rewrite <- Hb. apply build_maps_ext; [done|]. simpl.
    intros i' Hi'. rewrite Hi in Hi'. injection Hi' as <-.
    rewrite Hrows, !(clean_pm_asin_app i l1).
    change (r :: filter (λ r', astype_str_strip (cell_at i r') ≠ k) l2)
      with ([r] ++ filter (λ r', astype_str_strip (cell_at i r') ≠ k) l2).
    change (r :: l2) with ([r] ++ l2).
    rewrite !(clean_pm_asin_app i [r]), Hr, clean_pm_asin_filter.
    apply (drop_duplicates_go_later ∅ _ (k, r)).
  - intros r'. split; [apply Honly|]. by intros ->.
  - intros r' _ Hk' k' Hin.
    pose proof Hin as [Hin' _]%drop_duplicates_go_elem_of.
    apply clean_pm_asin_elem_of in Hin' as (_ & _ & _ & Heq). simpl in Heq.
    assert (k' = k) as -> by congruence. by apply Honly.
Qed.

(** Identifiers the cleaning removes are keys of no map. *)
Lemma build_maps_blank pm m k :
  build_maps pm = inr m → k = "" ∨ k = "nan" →
  bm_map m !! k = None ∧ brand_map m !! k = None ∧
  vendor_map m !! k = None ∧ cp_map m !! k = None.
Proof.
  intros (i & jbm & jb & jv & jc & _ & _ & _ & _ & _ & ->)%build_maps_inr Hk.
  simpl.
  assert (k ∉ (drop_duplicates (clean_pm_asin i (rows pm))).*1) as Hn.
  { intros ([k' r0] & Hk' & Hin)%list_elem_of_fmap. simpl in Hk'. subst k'.
    apply drop_duplicates_go_elem_of in Hin as [Hin _].
    apply clean_pm_asin_elem_of in Hin as (? & ? & _). simpl in *.
    destruct Hk; contradiction. }
  repeat split; by apply series_of_lookup_None.
Qed.

Section Enrichment.

Variable parse : string → option Z.

Lemma prepare_inr pm orders W :
  prepare parse pm orders = inr W →
  ∃ m, build_maps pm = inr m ∧
       W = enrich_order parse m <$> (normalise_order <$> orders).
Proof.
  unfold prepare. intros (m & Hm & H)%result_bind_inr.
  exists m. split; [done|]. by injection H.
Qed.

Lemma run_inr pm orders out :
  run parse pm orders = inr out →
  ∃ W, prepare parse pm orders = inr W ∧
    processed_orders out = Working_filter parse W ∧
    brand_manager_analysis out
      = pivot_with_total (pivot_Brand_Manager (processed_orders out)) ∧
    brand_analysis out = pivot_with_total (pivot_Brand (processed_orders out)) ∧
    brand_asin_summary out
      = App2.pivot_Brand_ASIN_with_total (processed_orders out) ∧
    combined (processed_orders out) = inr (bm_brand_asin_summary out).
Proof.
  unfold run. intros (W & HW & H)%result_bind_inr.
  apply result_bind_inr in H as (tb & _ & H).
  apply result_bind_inr in H as (tm & _ & H).
  apply result_bind_inr in H as (d & Hd & H).
  injection H as <-. exists W. simpl. done.
Qed.

(** What enrichment gives a row whose identifier is a key of no map. *)
Lemma enrich_order_unmatched m r :
  let k := astype_str_strip (asin r) in
  bm_map m !! k = None → brand_map m !! k = None →
  vendor_map m !! k = None → cp_map m !! k = None →
  let r' := enrich_order parse m (normalise_order r) in
  asin r' = Str k ∧ Brand_Manager r' = NaN ∧ Brand r' = NaN ∧
  Vendor_SKU r' = Str "nan" ∧ cost r' = Num 0 ∧
  quantity r' = quantity r ∧ item_price r' = item_price r ∧
  product_name r' = product_name r ∧ item_status r' = item_status r.
Proof.
  intros k Hbm Hb Hv Hc. simpl. fold k. rewrite Hbm, Hb, Hv, Hc. done.
Qed.

Lemma keeps_enrich m r :
  keeps parse (enrich_order parse m (normalise_order r)) ↔ keeps parse r.
Proof. done. Qed.

Lemma enriched_elem_of (pm : frame) (orders W : list order)
    (m : lookup_maps) (r : order) :
  build_maps pm = inr m →
  prepare parse pm orders = inr W →
  r ∈ orders →
  enrich_order parse m (normalise_order r) ∈ W.
Proof.
  intros Hm (m' & Hm' & ->)%prepare_inr Hr.
  rewrite Hm in Hm'. injection Hm' as <-.
  by do 2 apply list_elem_of_fmap_2.
Qed.

(** A row of [Working] whose fields pass the four tests leaves the filter. *)
Lemma keeps_survives (W : list order) (r : order) :
  r ∈ W → keeps parse r →
  coerce_item_price parse r ∈ Working_filter parse W.
Proof.
  intros Hr Hk. rewrite Working_filter_keeps. apply list_elem_of_fmap_2.
  by apply list_elem_of_filter.
Qed.


End Enrichment.

(** ** Views A and B *)

Lemma merge_sort_NoDup {A} (R : relation A) `{!RelDecision R} (l : list A) :
  NoDup l → NoDup (merge_sort R l).
Proof. intros Hl. by rewrite merge_sort_Permutation. Qed.

Lemma merge_sort_elem_of {A} (R : relation A) `{!RelDecision R} (l : list A) x :
  x ∈ merge_sort R l ↔ x ∈ l.
Proof. by rewrite merge_sort_Permutation. Qed.

Section PivotByDate.

Variable index : order → cell.

(** The quantities of a date pivot add up to the quantity of the rows that
    have a label and a date. *)
Lemma pivot_quantity_by_date (Working : list order) :
  pivot_quantity (pivot_by_date index Working)
  = sum_quantity (filter (λ r, notna (index r) ∧ is_Some (date r)) Working).
Proof.
  unfold pivot_quantity, pivot_by_date. simpl.
  set (data := filter (λ r, notna (index r) ∧ is_Some (date r)) Working).
  set (dates := merge_sort Z.le (remove_dups (omap date data))).
  set (labels := merge_sort cell_le (remove_dups (index <$> data))).
  rewrite <- list_fmap_compose.
  unfold sum_quantity at 2.
  rewrite <- (sum_groups index (qty_of ∘ quantity) data labels).
  - f_equal. apply list_fmap_ext. intros _ m _. simpl.
    rewrite <- list_fmap_compose.
    rewrite <- (sum_groups date (qty_of ∘ quantity)
                  (filter (λ r, index r = m) data) (Some <$> dates)).
    + rewrite <- list_fmap_compose. f_equal. apply list_fmap_ext.
      intros _ d _. simpl. unfold sum_quantity. f_equal. f_equal.
      rewrite list_filter_filter. apply list_filter_iff. intros r. tauto.
    + apply (NoDup_fmap_2 Some), merge_sort_NoDup, NoDup_remove_dups.
    + intros r [_ Hr]%list_elem_of_filter.
      assert (is_Some (date r)) as [d Hd].
      { apply list_elem_of_filter in Hr. tauto. }
      rewrite Hd. apply list_elem_of_fmap_2.
      apply merge_sort_elem_of, elem_of_remove_dups, list_elem_of_omap.
      by exists r.
  - apply merge_sort_NoDup, NoDup_remove_dups.
  - intros r Hr. apply merge_sort_elem_of, elem_of_remove_dups.
    by apply list_elem_of_fmap_2.
Qed.

Lemma pivot_by_date_row_lengths (Working : list order) :
  Forall (λ row, length row.2 = length (pv_dates (pivot_by_date index Working)))
         (pv_rows (pivot_by_date index Working)).
Proof.
  unfold pivot_by_date. simpl. apply Forall_fmap, Forall_true. intros m.
  simpl. by rewrite length_fmap.
Qed.

End PivotByDate.

Lemma sumZ_snd_zip_add (a b : list (Z * Z)) :
  length a = length b →
  sumZ (snd <$> zip_with add_pair a b) = sumZ (snd <$> a) + sumZ (snd <$> b).
Proof.
  revert b. induction a as [|x a IH]; intros [|y b] Hlen; try done.
  simpl in Hlen. rewrite !fmap_cons. simpl zip_with.
  rewrite !fmap_cons, !sumZ_cons, IH by lia. simpl. lia.
Qed.

Lemma length_column_sums_go (n : nat) (rs : list (cell * list (Z * Z))) :
  Forall (λ row, length row.2 = n) rs →
  length (foldr (λ row acc, zip_with add_pair row.2 acc)
                (replicate n (0, 0)) rs) = n.
Proof.
  induction 1 as [|row rs Hrow _ IH]; simpl.
  - apply length_replicate.
  - rewrite length_zip_with, IH, Hrow. lia.
Qed.

(** The Grand Total row of a date pivot carries the quantity of all its
    rows. *)
Lemma column_sums_quantity (p : pivot) :
  Forall (λ row, length row.2 = length (pv_dates p)) (pv_rows p) →
  sumZ (snd <$> column_sums p) = pivot_quantity p.
Proof.
  unfold column_sums, pivot_quantity.
  generalize (length (pv_dates p)) as n. intros n.
  induction 1 as [|row rs Hrow Hrs IH].
  - cbn [foldr]. rewrite fmap_replicate. simpl.
    induction n as [|n IHn]; [done|].
    change (replicate (S n) 0) with (0 :: replicate n 0).
    by rewrite sumZ_cons, IHn.
  - rewrite fmap_cons, sumZ_cons. cbn [foldr].
    rewrite sumZ_snd_zip_add, IH; [done|].
    by rewrite length_column_sums_go.
Qed.

Lemma filter_Forall_id {A} (P : A → Prop) `{!∀ x, Decision (P x)} (l : list A) :
  Forall P l → filter P l = l.
Proof.
  induction 1 as [|x l Hx _ IH]; [done|]. by rewrite filter_cons_True, IH.
Qed.

Section Views.

Variable parse : string → option Z.


End Views.

(** ** View C *)

Lemma brand_asin_table_quantity (data : list order) (keys : list (cell * cell)) :
  NoDup keys → (∀ r, r ∈ data → (asin r, Brand r) ∈ keys) →
  sumZ (c_quantity <$> brand_asin_table data keys) = sum_quantity data
  ∧ sumZ (c_item_price <$> brand_asin_table data keys) = sum_item_price data
  ∧ sumZ (c_cost <$> brand_asin_table data keys) = sum_cost data.
Proof.
  intros Hnd Hin. unfold brand_asin_table, sum_quantity, sum_item_price, sum_cost.
  rewrite <- !list_fmap_compose.
  rewrite <- (sum_groups (λ r, (asin r, Brand r)) (qty_of ∘ quantity) data keys),
    <- (sum_groups (λ r, (asin r, Brand r)) (num_of ∘ item_price) data keys),
    <- (sum_groups (λ r, (asin r, Brand r)) (num_of ∘ cost) data keys) by done.
  repeat split; f_equal; apply list_fmap_ext; intros _ [a b] _; simpl;
    f_equal; f_equal; apply list_filter_iff; intros r; simpl;
    (split; [intros [-> ->]; done|intros [= -> ->]; done]).
Qed.

Lemma brand_asin_keys_spec (data : list order) :
  NoDup (brand_asin_keys data) ∧
  ∀ r, r ∈ data → (asin r, Brand r) ∈ brand_asin_keys data.
Proof.
  unfold brand_asin_keys. split; [apply NoDup_remove_dups|].
  intros r Hr. apply elem_of_remove_dups.
  by apply (list_elem_of_fmap_2 (λ r, (asin r, Brand r))).
Qed.

Lemma by_Brand_asin_sorted (table : list crow) :
  StronglySorted by_Brand_asin (merge_sort by_Brand_asin table).
Proof.
  apply StronglySorted_merge_sort; unfold by_Brand_asin; apply _.
Qed.

(** X3.  The totals of View C in app2.py are the sums of quantity, item-price
    and cost over the filtered orders that have a brand. *)
Theorem view_c_totals_of_branded_orders (Working : list order) :
  c_quantity (App2.grand_total_values (App2.pivot_Brand_ASIN Working))
  = sum_quantity (filter (λ r, notna (asin r) ∧ notna (Brand r)) Working)
  ∧ c_item_price (App2.grand_total_values (App2.pivot_Brand_ASIN Working))
    = sum_item_price (filter (λ r, notna (asin r) ∧ notna (Brand r)) Working)
  ∧ c_cost (App2.grand_total_values (App2.pivot_Brand_ASIN Working))
    = sum_cost (filter (λ r, notna (asin r) ∧ notna (Brand r)) Working).
Proof.
  unfold App2.grand_total_values, App2.pivot_Brand_ASIN. simpl.
  set (data := filter (λ r, notna (asin r) ∧ notna (Brand r)) Working).
  destruct (brand_asin_keys_spec data) as [Hnd Hin].
  rewrite !(sumZ_Permutation _ _
              (fmap_Permutation _ _ _ (merge_sort_Permutation by_Brand_asin _))).
  apply brand_asin_table_quantity.
  - by apply merge_sort_NoDup.
  - intros r Hr. by apply merge_sort_elem_of, Hin.
Qed.


(** ** View D *)

Lemma mapM_result_inr {A B} (f : A → result B) (l : list A) (ys : list B) :
  mapM f l = inr ys → Forall2 (λ x y, f x = inr y) l ys.
Proof.
  revert ys. induction l as [|x l IH]; intros ys.
  - intros [= <-]. constructor.
  - intros H. change (mapM f (x :: l))
      with (y ← f x; k ← mapM f l; mret (y :: k)) in H.
    apply result_bind_inr in H as (y & Hy & H).
    apply result_bind_inr in H as (k & Hk & H).
    injection H as <-. constructor; [done|by apply IH].
Qed.

Lemma Forall2_elem_of_r {A B} (R : A → B → Prop) l k y :
  Forall2 R l k → y ∈ k → ∃ x, x ∈ l ∧ R x y.
Proof.
  induction 1 as [|x y' l k HR _ IH]; [by intros ?%elem_of_nil|].
  intros [->|Hin]%elem_of_cons.
  - exists x. split; [left|done].
  - destruct (IH Hin) as (x' & ? & ?). exists x'. split; [by right|done].
Qed.

Lemma Forall2_elem_of_l {A B} (R : A → B → Prop) l k x :
  Forall2 R l k → x ∈ l → ∃ y, y ∈ k ∧ R x y.
Proof.
  induction 1 as [|x' y l k HR _ IH]; [by intros ?%elem_of_nil|].
  intros [->|Hin]%elem_of_cons.
  - exists y. split; [left|done].
  - destruct (IH Hin) as (y' & ? & ?). exists y'. split; [by right|done].
Qed.

Lemma base_order (Working : list order) :
  Forall (λ x, d_order x = 0) (base Working).
Proof.
  unfold base. rewrite merge_sort_Permutation. unfold base_groups.
  apply Forall_fmap, Forall_true. done.
Qed.

Lemma brand_group_filter (bs : list drow) (m b : cell) :
  notna m → notna b →
  brand_group bs m b
  = filter (λ x, d_Brand_Manager x = m ∧ d_Brand x = b) bs.
Proof.
  intros Hm Hb. unfold brand_group. rewrite list_filter_filter.
  apply list_filter_iff. intros x. split; [tauto|].
  intros [-> ->]. done.
Qed.

Lemma brand_keys_spec (bs : list drow) (k : cell * cell) :
  k ∈ brand_keys bs ↔
  notna k.1 ∧ notna k.2 ∧
  ∃ x, x ∈ bs ∧ d_Brand_Manager x = k.1 ∧ d_Brand x = k.2.
Proof.
  unfold brand_keys.
  rewrite merge_sort_elem_of, elem_of_remove_dups, list_elem_of_fmap. split.
  - intros (x & -> & [[??] ?]%list_elem_of_filter). simpl. eauto 10.
  - intros (Hm & Hb & x & Hx & H1 & H2). exists x. split.
    + destruct k; simpl in *; by subst.
    + apply list_elem_of_filter. by rewrite H1, H2.
Qed.

(** A brand subtotal row, read off the base rows. *)
Lemma brand_total_row_inr (bs : list drow) (k : cell * cell) (t : drow) :
  brand_total_row bs k = inr t →
  d_Brand_Manager t = k.1 ∧ d_Brand t = k.2 ∧ d_order t = 1 ∧
  (∃ b, k.2 = Str b ∧ d_asin t = Str (b +:+ " Total")) ∨
  (k.2 = NaN ∧ d_asin t = NaN ∧ d_Brand_Manager t = k.1 ∧ d_Brand t = k.2 ∧
   d_order t = 1).
Proof.
  unfold brand_total_row. intros (a & Ha & H)%result_bind_inr.
  injection H as <-. simpl. destruct (k.2) as [|z|b] eqn:Hb; simpl in Ha.
  - right. injection Ha as <-. done.
  - discriminate Ha.
  - left. injection Ha as <-. repeat split; try done. by exists b.
Qed.

Lemma brand_total_row_sums (bs : list drow) (k : cell * cell) (t : drow) :
  brand_total_row bs k = inr t →
  d_quantity t = sumZ (d_quantity <$> brand_group bs k.1 k.2) ∧
  d_item_price t = sumZ (d_item_price <$> brand_group bs k.1 k.2) ∧
  d_cost t = sumZ (d_cost <$> brand_group bs k.1 k.2).
Proof.
  unfold brand_total_row. intros (a & Ha & H)%result_bind_inr.
  by injection H as <-.
Qed.

(** The brand subtotals of a list of base rows: one row per (manager,
    brand) pair present in the base rows, labelled "<brand> Total" and
    holding the sums over the base rows of the pair. *)
Lemma brand_totals_spec (bs bt : list drow) :
  brand_totals bs = inr bt →
  Forall (λ t, d_order t = 1 ∧ notna (d_Brand_Manager t) ∧
               (∃ b, d_Brand t = Str b ∧ d_asin t = Str (b +:+ " Total")) ∧
               (∃ x, x ∈ bs ∧ d_Brand_Manager x = d_Brand_Manager t ∧
                     d_Brand x = d_Brand t) ∧
               let g := filter (λ x, d_Brand_Manager x = d_Brand_Manager t ∧
                                     d_Brand x = d_Brand t) bs in
               d_quantity t = sumZ (d_quantity <$> g) ∧
               d_item_price t = sumZ (d_item_price <$> g) ∧
               d_cost t = sumZ (d_cost <$> g)) bt
  ∧ ∀ x, x ∈ bs → notna (d_Brand_Manager x) → notna (d_Brand x) →
      ∃ t, t ∈ bt ∧ d_Brand_Manager t = d_Brand_Manager x ∧
           d_Brand t = d_Brand x.
Proof.
  unfold brand_totals. intros HF%mapM_result_inr. split.
  - apply Forall_forall. intros t Ht.
    destruct (Forall2_elem_of_r _ _ _ _ HF Ht) as (k & Hk & Hrow).
    apply brand_keys_spec in Hk as (Hm & Hb & x & Hx & Hxm & Hxb).
    destruct (brand_total_row_sums _ _ _ Hrow) as (Hq & Hp & Hc).
    destruct (brand_total_row_inr _ _ _ Hrow)
      as [(Htm & Htb & Ho & b & Hkb & Ha)|(Hnan & _)]; [|by rewrite Hnan in Hb].
    rewrite brand_group_filter in Hq, Hp, Hc by done.
    rewrite Htm, Htb. repeat split; try done.
    + exists b. by rewrite Hkb.
    + by exists x.
  - intros x Hx Hm Hb.
    assert ((d_Brand_Manager x, d_Brand x) ∈ brand_keys bs) as Hk.
    { apply brand_keys_spec. simpl. eauto 10. }
    destruct (Forall2_elem_of_l _ _ _ _ HF Hk) as (t & Ht & Hrow).
    exists t. split; [done|].
    destruct (brand_total_row_inr _ _ _ Hrow)
      as [(Htm & Htb & _)|(_ & _ & Htm & Htb & _)]; by rewrite Htm, Htb.
Qed.

Lemma manager_totals_order (bs mt : list drow) :
  manager_totals bs = inr mt → Forall (λ t, d_order t = 2) mt.
Proof.
  unfold manager_totals. intros HF%mapM_result_inr.
  apply Forall_forall. intros t Ht.
  destruct (Forall2_elem_of_r _ _ _ _ HF Ht) as (m & _ & Hrow).
  unfold manager_total_row in Hrow.
  apply result_bind_inr in Hrow as (a & _ & H). by injection H as <-.
Qed.

Lemma combined_inr (Working : list order) (rows : list drow) :
  combined Working = inr rows →
  ∃ bt mt,
    brand_totals (base Working) = inr bt ∧
    manager_totals (base Working) = inr mt ∧
    rows = merge_sort by_combined
             (base Working ++ bt ++ mt ++ [grand_total (base Working)]).
Proof.
  unfold combined. intros (bt & Hbt & H)%result_bind_inr.
  apply result_bind_inr in H as (mt & Hmt & H). injection H as <-.
  by exists bt, mt.
Qed.

Lemma filter_order_nil (P : drow → Prop) `{!∀ x, Decision (P x)}
    (l : list drow) (o o' : Z) :
  o ≠ o' → Forall (λ x, d_order x = o') l →
  filter (λ x, d_order x = o ∧ P x) l = [].
Proof.
  intros Hne Hl. apply (filter_nil_Forall (λ x, d_order x = o ∧ P x)).
  eapply Forall_impl; [done|]. simpl. intros x Hx [Ho _]. congruence.
Qed.

(** Among the rows of View D, the rows of class 0 with a given manager and
    brand are the base rows of that pair. *)
Lemma combined_base_group (Working : list order) (rows : list drow) (m b : cell) :
  combined Working = inr rows →
  filter (λ x, d_order x = 0 ∧ d_Brand_Manager x = m ∧ d_Brand x = b) rows
  ≡ₚ filter (λ x, d_Brand_Manager x = m ∧ d_Brand x = b) (base Working).
Proof.
  intros (bt & mt & Hbt & Hmt & ->)%combined_inr.
  set (P := λ x : drow, d_Brand_Manager x = m ∧ d_Brand x = b).
  rewrite merge_sort_Permutation, !filter_app.
  destruct (brand_totals_spec _ _ Hbt) as [Hbt1 _].
  rewrite (filter_order_nil P bt 0 1), (filter_order_nil P mt 0 2),
    (filter_order_nil P [grand_total (base Working)] 0 3); try done.
  - rewrite !app_nil_r.
    rewrite <- (list_filter_filter (λ x, d_order x = 0) P).
    rewrite filter_Forall_id; [done|].
    apply Forall_forall. intros x [_ Hx]%list_elem_of_filter.
    by eapply (proj1 (Forall_forall _ _) (base_order Working)).
  - by constructor.
  - by eapply manager_totals_order.
  - eapply Forall_impl; [done|]. simpl. tauto.
Qed.

Lemma combined_elem_of (Working : list order) (rows : list drow) (x : drow) :
  combined Working = inr rows →
  x ∈ rows ↔
  ∃ bt mt, brand_totals (base Working) = inr bt ∧
    manager_totals (base Working) = inr mt ∧
    ((x ∈ base Working ∧ d_order x = 0) ∨ (x ∈ bt ∧ d_order x = 1) ∨
     (x ∈ mt ∧ d_order x = 2) ∨ (x = grand_total (base Working) ∧ d_order x = 3)).
Proof.
  intros (bt & mt & Hbt & Hmt & ->)%combined_inr.
  rewrite merge_sort_elem_of, !elem_of_app, list_elem_of_singleton.
  pose proof (base_order Working) as H0.
  destruct (brand_totals_spec _ _ Hbt) as [H1 _].
  pose proof (manager_totals_order _ _ Hmt) as H2.
  rewrite Forall_forall in H0, H1, H2. split.
  - intros [Hx|[Hx|[Hx| ->]]]; exists bt, mt; (split; [done|]); (split; [done|]).
    + left. split; [done|]. by apply H0.
    + right; left. split; [done|]. by apply H1.
    + right; right; left. split; [done|]. by apply H2.
    + right; right; right. done.
  - intros (bt' & mt' & Hbt' & Hmt' & Hx).
    rewrite Hbt in Hbt'. rewrite Hmt in Hmt'.
    injection Hbt' as <-. injection Hmt' as <-. tauto.
Qed.


Lemma combined_StronglySorted (Working : list order) (rows : list drow) :
  combined Working = inr rows → StronglySorted by_combined rows.
Proof.
  intros (bt & mt & Hbt & Hmt & ->)%combined_inr.
  apply StronglySorted_merge_sort; unfold by_combined; apply _.
Qed.

(** X1.  View D is sorted by grand-total flag, manager, brand and row class
    ascending, then quantity descending, and holds the base rows, the brand
    and manager subtotal rows and the grand total row. *)
Theorem view_d_sorted_by_five_keys (Working : list order) (rows : list drow) :
  combined Working = inr rows →
  StronglySorted by_combined rows ∧
  ∃ bt mt,
    brand_totals (base Working) = inr bt ∧
    manager_totals (base Working) = inr mt ∧
    rows ≡ₚ base Working ++ bt ++ mt ++ [grand_total (base Working)].
Proof.
  intros Hrows. split; [by apply (combined_StronglySorted Working)|].
  destruct (combined_inr _ _ Hrows) as (bt & mt & Hbt & Hmt & ->).
  exists bt, mt. repeat split; try done. apply merge_sort_Permutation.
Qed.

(** X2.  The grand total row is the last row of View D whenever no base or
    subtotal row has the identifier "Grand Total". *)
Theorem view_d_grand_total_last (Working : list order) (rows : list drow) :
  combined Working = inr rows →
  Forall (λ x, d_order x ≠ 3 → d_asin x ≠ Str "Grand Total") rows →
  last rows = Some (grand_total (base Working)).
Proof.
  intros Hrows Hflag.
  pose proof (combined_StronglySorted _ _ Hrows) as Hsorted.
  assert (grand_total (base Working) ∈ rows) as Hgt.
  { apply (combined_elem_of _ _ _ Hrows).
    destruct (combined_inr _ _ Hrows) as (bt & mt & ? & ? & _).
    exists bt, mt. repeat split; try done. by do 3 right. }
  destruct rows as [|x0 rows0] using rev_ind; [by apply elem_of_nil in Hgt|].
  clear IHrows0. rewrite last_snoc. f_equal.
  apply elem_of_app in Hgt as [Hgt| ->%list_elem_of_singleton]; [|done].
  rewrite Forall_app, Forall_singleton in Hflag. destruct Hflag as [_ Hx0].
  apply StronglySorted_app_1_elem_of with (x1 := grand_total (base Working))
    (x2 := x0) in Hsorted; [|done|left].
  destruct Hsorted as [Hle _]. unfold on, is_grand in Hle. simpl in Hle.
  destruct (decide (d_asin x0 = Str "Grand Total")) as [Ha|Ha]; [|lia].
  destruct (decide (d_order x0 = 3)) as [Ho|Ho]; [|by destruct (Hx0 Ho)].
  assert (x0 ∈ rows0 ++ [x0]) as Hin by (apply elem_of_app; right; left).
  apply (combined_elem_of _ _ _ Hrows) in Hin
    as (bt & mt & _ & _ & [[_ ?]|[[_ ?]|[[_ ?]|[-> _]]]]); congruence.
Qed.

(** Every row of [Working] is in a base row of View D. *)
Lemma base_elem_of (Working : list order) (r : order) :
  r ∈ Working →
  ∃ x, x ∈ base Working ∧ d_order x = 0 ∧ d_asin x = asin r ∧
       d_Brand_Manager x = Brand_Manager r ∧ d_Brand x = Brand r.
Proof.
  intros Hr. unfold base, base_groups.
  eexists. split.
  - apply merge_sort_elem_of, list_elem_of_fmap.
    exists (asin r, Brand_Manager r, Brand r). split; [reflexivity|].
    apply merge_sort_elem_of, elem_of_remove_dups.
    by apply (list_elem_of_fmap_2 (λ r, (asin r, Brand_Manager r, Brand r))).
  - done.
Qed.

Section BlankIdentifier.

Variable parse : string → option Z.

(** C10.  Only the product master loses rows to identifier cleaning.  An
    order whose identifier reads "nan" or is empty once turned to text
    and trimmed stays in [Working]; its identifier is a key of no lookup
    map; it comes out of enrichment with brand and brand manager missing
    and cost 0; and when its own fields pass the filter it is a row of the
    filtered table, hence, on every run that completes, a row of the
    processed orders and the source of a base row of View D. *)
Theorem C10_blank_identifier_order (pm : frame) (orders W : list order)
    (r : order) :
  prepare parse pm orders = inr W →
  r ∈ orders →
  astype_str_strip (asin r) = "nan" ∨ astype_str_strip (asin r) = "" →
  length W = length orders ∧
  ∃ m, build_maps pm = inr m ∧
    bm_map m !! astype_str_strip (asin r) = None ∧
    brand_map m !! astype_str_strip (asin r) = None ∧
    vendor_map m !! astype_str_strip (asin r) = None ∧
    cp_map m !! astype_str_strip (asin r) = None ∧
    enrich_order parse m (normalise_order r) ∈ W ∧
    asin (enrich_order parse m (normalise_order r))
      = Str (astype_str_strip (asin r)) ∧
    Brand_Manager (enrich_order parse m (normalise_order r)) = NaN ∧
    Brand (enrich_order parse m (normalise_order r)) = NaN ∧
    cost (enrich_order parse m (normalise_order r)) = Num 0 ∧
    (keeps parse r →
     coerce_item_price parse (enrich_order parse m (normalise_order r))
       ∈ Working_filter parse W ∧
     ∀ out, run parse pm orders = inr out →
       coerce_item_price parse (enrich_order parse m (normalise_order r))
         ∈ processed_orders out ∧
       ∃ x, x ∈ bm_brand_asin_summary out ∧ d_order x = 0 ∧
            d_asin x = Str (astype_str_strip (asin r)) ∧
            d_Brand_Manager x = NaN ∧ d_Brand x = NaN).
Proof.
  intros HW Hr Hk.
  destruct (prepare_inr parse _ _ _ HW) as (m & Hm & HWeq).
  split; [by rewrite HWeq, !length_fmap|].
  exists m. split; [done|].
  assert (astype_str_strip (asin r) = "" ∨ astype_str_strip (asin r) = "nan")
    as Hk' by tauto.
  destruct (build_maps_blank pm m _ Hm Hk') as (Hbm & Hb & Hv & Hc).
  destruct (enrich_order_unmatched parse m r Hbm Hb Hv Hc)
    as (Hasin & HBM & HB & _ & Hcost & _).
  pose proof (enriched_elem_of parse pm orders W m r Hm HW Hr) as Hin.
  assert (keeps parse r →
          coerce_item_price parse (enrich_order parse m (normalise_order r))
            ∈ Working_filter parse W) as Hkeep.
  { intros Hkeeps. apply keeps_survives; [done|]. by apply keeps_enrich. }
  do 4 (split; [done|]).
  split; [done|]. split; [exact Hasin|].
  do 3 (split; [done|]).
  intros Hkeeps. split; [by apply Hkeep|].
  intros out (W' & HW' & HP & _ & _ & _ & HD)%run_inr.
  rewrite HW in HW'. injection HW' as <-.
  assert (coerce_item_price parse (enrich_order parse m (normalise_order r))
            ∈ processed_orders out) as Hp by (rewrite HP; by apply Hkeep).
  split; [done|].
  destruct (base_elem_of _ _ Hp) as (x & Hx & Ho & Ha & Hxm & Hxb).
  exists x. simpl in Ha, Hxm, Hxb. fold (astype_str_strip (asin r)) in Ha.
  rewrite Hbm in Hxm. rewrite Hb in Hxb.
  split; [|done].
  apply (combined_elem_of _ _ _ HD).
  destruct (combined_inr _ _ HD) as (bt & mt & ? & ? & _).
  exists bt, mt. repeat split; try done. by left.
Qed.

End BlankIdentifier.
(** ** More on Step 7 *)

Section FilterMore.

Variable parse : string → option Z.

Lemma coerce_item_price_idemp r :
  coerce_item_price parse (coerce_item_price parse r)
  = coerce_item_price parse r.
Proof.
  unfold coerce_item_price, set_item_price. simpl.
  by rewrite to_numeric_idemp.
Qed.

Lemma keeps_coerce r :
  keeps parse (coerce_item_price parse r) ↔ keeps parse r.
Proof.
  apply keeps_coerce_eq. apply coerce_item_price_idemp.
Qed.

(** X4.  Filtering a filtered table changes nothing. *)
Theorem Working_filter_idempotent (Working : list order) :
  Working_filter parse (Working_filter parse Working)
  = Working_filter parse Working.
Proof.
  rewrite !Working_filter_keeps, filter_fmap, <- list_fmap_compose.
  rewrite list_filter_filter.
  rewrite (list_filter_iff _ (keeps parse)).
  - apply list_fmap_ext. intros _ r _. apply coerce_item_price_idemp.
  - intros r. rewrite keeps_coerce. tauto.
Qed.

(** X5.  The filter judges each row on its own: filtering two tables one
    after the other gives the filtered rows of the first followed by those
    of the second. *)
Theorem Working_filter_app (W1 W2 : list order) :
  Working_filter parse (W1 ++ W2)
  = Working_filter parse W1 ++ Working_filter parse W2.
Proof. by rewrite !Working_filter_keeps, filter_app, fmap_app. Qed.

(** X6.  No row that leaves the filter has quantity 0, a price that is 0
    or text, a missing, blank or "-" product name, or the status
    "Cancelled". *)
Theorem Working_filter_rows_valid (Working : list order) :
  Forall (λ r, quantity r ≠ Some 0 ∧
               (item_price r = NaN ∨ ∃ z, item_price r = Num z ∧ z ≠ 0) ∧
               product_name_ok r ∧
               item_status r ≠ Str "Cancelled")
         (Working_filter parse Working).
Proof.
  rewrite Working_filter_keeps. apply Forall_fmap, Forall_forall.
  intros r [(Hq & Hp & Hn & Hs) _]%list_elem_of_filter. simpl.
  split; [done|]. split; [|done].
  destruct (to_numeric parse (item_price r)) as [|z|s] eqn:Hz.
  - by left.
  - right. exists z. split; [done|]. by intros ->.
  - by apply to_numeric_not_text in Hz.
Qed.

End FilterMore.

(** ** More on enrichment *)

(** The value each map holds for the first row of an identifier. *)
Lemma build_maps_first_row (pm : frame) (m : lookup_maps) (i : nat)
    (l1 l2 : list (list cell)) (row : list cell) (k : string) :
  column_position (clean_columns (columns pm)) "asin" = inr i →
  rows pm = l1 ++ row :: l2 →
  astype_str_strip (cell_at i row) = k →
  k ≠ "" → k ≠ "nan" →
  Forall (λ r0, astype_str_strip (cell_at i r0) ≠ k) l1 →
  build_maps pm = inr m →
  ∃ jbm jb jv jc,
    find_bm_col (clean_columns (columns pm))
      ≫= column_position (clean_columns (columns pm)) = inr jbm ∧
    find_brand_col (clean_columns (columns pm))
      ≫= column_position (clean_columns (columns pm)) = inr jb ∧
    find_vendor_col (clean_columns (columns pm))
      ≫= column_position (clean_columns (columns pm)) = inr jv ∧
    find_cp_col (clean_columns (columns pm))
      ≫= column_position (clean_columns (columns pm)) = inr jc ∧
    bm_map m !! k = Some (cell_at jbm row) ∧
    brand_map m !! k = Some (cell_at jb row) ∧
    vendor_map m !! k = Some (cell_at jv row) ∧
    cp_map m !! k = Some (cell_at jc row).
Proof.
  intros Hi Hrows Hk Hk1 Hk2 Hl1 Hb.
  assert (clean_pm_asin i [row] = [(k, row)]) as Hr.
  { unfold clean_pm_asin. simpl. rewrite filter_cons_True, Hk; [done|].
    simpl. rewrite Hk. unfold notna. done. }
  assert (k ∉ (clean_pm_asin i l1).*1) as Hfresh.
  { intros ([k' r0] & Hk' & Hin)%list_elem_of_fmap. simpl in Hk'. subst k'.
    apply clean_pm_asin_elem_of in Hin as (_ & _ & Hin & Heq). simpl in *.
    eapply Forall_forall in Hl1; [|done]. by apply Hl1. }
  apply build_maps_inr in Hb as (i' & jbm & jb & jv & jc & Hi' & ? & ? & ? & ? & ->).
  simpl in Hi'. rewrite Hi in Hi'. injection Hi' as <-.
  exists jbm, jb, jv, jc. repeat split; try done; simpl;
    (apply series_of_lookup; [apply drop_duplicates_go_NoDup|]);
    rewrite Hrows, (clean_pm_asin_app i l1 (row :: l2));
    change (row :: l2) with ([row] ++ l2);
    rewrite (clean_pm_asin_app i [row] l2), Hr;
    apply (drop_duplicates_go_first ∅ _ (k, row)); try done;
    apply not_elem_of_empty.
Qed.

Section EnrichmentMore.

Variable parse : string → option Z.

(** X9.  With distinct labels in both tables and identifiers that are
    text in both tables, an order whose trimmed identifier is that of a
    product-master row takes the brand manager and brand of the first such
    row; as cost the number its cost cell coerces to, 0 when it does not;
    and, when the vendor cell of that row is text or missing, its text
    ("nan" when missing) as vendor code. *)
Theorem enrich_matched_order (pm : frame) (m : lookup_maps) (i : nat)
    (l1 l2 : list (list cell)) (row : list cell) (r : order) :
  NoDup (clean_columns (columns pm)) →
  column_position (clean_columns (columns pm)) "asin" = inr i →
  Forall (λ r0, text_or_missing (cell_at i r0)) (rows pm) →
  text_or_missing (asin r) → other_labels_ok r →
  rows pm = l1 ++ row :: l2 →
  astype_str_strip (cell_at i row) = astype_str_strip (asin r) →
  astype_str_strip (asin r) ≠ "" → astype_str_strip (asin r) ≠ "nan" →
  Forall (λ r0, astype_str_strip (cell_at i r0) ≠ astype_str_strip (asin r)) l1 →
  build_maps pm = inr m →
  ∃ jbm jb jv jc,
    find_bm_col (clean_columns (columns pm))
      ≫= column_position (clean_columns (columns pm)) = inr jbm ∧
    find_brand_col (clean_columns (columns pm))
      ≫= column_position (clean_columns (columns pm)) = inr jb ∧
    find_vendor_col (clean_columns (columns pm))
      ≫= column_position (clean_columns (columns pm)) = inr jv ∧
    find_cp_col (clean_columns (columns pm))
      ≫= column_position (clean_columns (columns pm)) = inr jc ∧
    Brand_Manager (enrich_order parse m (normalise_order r)) = cell_at jbm row ∧
    Brand (enrich_order parse m (normalise_order r)) = cell_at jb row ∧
    cost (enrich_order parse m (normalise_order r))
      = fillna0 (to_numeric parse (cell_at jc row)) ∧
    (text_or_missing (cell_at jv row) →
     Vendor_SKU (enrich_order parse m (normalise_order r))
     = Str (Py.str (cell_at jv row))).
Proof.
  intros _ Hi _ _ _ Hrows Hk Hk1 Hk2 Hl1 Hb.
  destruct (build_maps_first_row pm m i l1 l2 row _ Hi Hrows Hk Hk1 Hk2 Hl1 Hb)
    as (jbm & jb & jv & jc & ? & ? & ? & ? & Hbm & Hbr & Hv & Hc).
  exists jbm, jb, jv, jc. do 4 (split; [done|]).
  simpl. fold (astype_str_strip (asin r)). rewrite Hbm, Hbr, Hv, Hc.
  split; [done|]. split; [done|]. split; [done|]. by intros _.
Qed.

End EnrichmentMore.

(** ** More on the lookup maps *)

Lemma drop_duplicates_go_keys seen pm k :
  k ∈ (drop_duplicates_go seen pm).*1 ↔ k ∈ pm.*1 ∧ k ∉ seen.
Proof.
  split.
  - intros ([k' r] & -> & [Hin Hs]%drop_duplicates_go_elem_of)%list_elem_of_fmap.
    split; [|done]. by apply (list_elem_of_fmap_2 fst) in Hin.
  - revert seen. induction pm as [|kr pm IH]; intros seen [Hin Hs].
    + by apply elem_of_nil in Hin.
    + rewrite fmap_cons in Hin. simpl.
      destruct (decide (kr.1 ∈ seen)) as [Hks|Hks].
      * apply IH. split; [|done].
        apply elem_of_cons in Hin as [->|Hin]; [contradiction|done].
      * rewrite fmap_cons. destruct (decide (k = kr.1)) as [->|Hne]; [left|].
        right. apply IH. split.
        -- apply elem_of_cons in Hin as [?|Hin]; [contradiction|done].
        -- by intros [?%elem_of_singleton|?]%elem_of_union.
Qed.

Lemma drop_duplicates_go_NoDup_id seen pm :
  NoDup pm.*1 → (∀ k, k ∈ pm.*1 → k ∉ seen) →
  drop_duplicates_go seen pm = pm.
Proof.
  revert seen. induction pm as [|kr pm IH]; intros seen Hnd Hs; [done|].
  rewrite fmap_cons in Hnd, Hs. apply NoDup_cons in Hnd as [Hk Hnd].
  simpl. rewrite decide_False by (apply Hs; left). f_equal.
  apply IH; [done|]. intros k Hin [->%elem_of_singleton|?]%elem_of_union.
  - contradiction.
  - by apply (Hs k); [right|].
Qed.

(** X10.  Removing duplicate identifiers twice is the same as once. *)
Theorem drop_duplicates_idempotent (pm : list (string * list cell)) :
  drop_duplicates (drop_duplicates pm) = drop_duplicates pm.
Proof.
  unfold drop_duplicates. apply drop_duplicates_go_NoDup_id.
  - apply drop_duplicates_go_NoDup.
  - intros k _. apply not_elem_of_empty.
Qed.

Lemma series_of_dom pmu j : dom (series_of pmu j) = list_to_set pmu.*1.
Proof.
  unfold series_of. rewrite dom_list_to_map_L. f_equal.
  by rewrite <- list_fmap_compose.
Qed.

(** X11.  The four maps have the same keys: the trimmed identifiers of the
    product-master rows, except the empty text and "nan". *)
Theorem lookup_maps_keys (pm : frame) (m : lookup_maps) (i : nat) :
  NoDup (clean_columns (columns pm)) →
  column_position (clean_columns (columns pm)) "asin" = inr i →
  Forall (λ row, text_or_missing (cell_at i row)) (rows pm) →
  build_maps pm = inr m →
  (∀ k, k ∈ dom (bm_map m) ↔
        k ≠ "" ∧ k ≠ "nan" ∧
        ∃ row, row ∈ rows pm ∧ astype_str_strip (cell_at i row) = k) ∧
  dom (brand_map m) = dom (bm_map m) ∧
  dom (vendor_map m) = dom (bm_map m) ∧
  dom (cp_map m) = dom (bm_map m).
Proof.
  intros _ Hi _
    (i' & jbm & jb & jv & jc & Hi' & _ & _ & _ & _ & ->)%build_maps_inr.
  simpl in Hi'. rewrite Hi in Hi'. injection Hi' as <-. simpl.
  rewrite !series_of_dom. split; [|done].
  intros k. rewrite elem_of_list_to_set. unfold drop_duplicates.
  rewrite drop_duplicates_go_keys, list_elem_of_fmap. split.
  - intros [([k' row] & -> & Hin) _].
    apply clean_pm_asin_elem_of in Hin as (? & ? & ? & ?). simpl in *.
    repeat split; try done. by exists row.
  - intros (Hk1 & Hk2 & row & Hrow & Hk). split; [|apply not_elem_of_empty].
    exists (k, row). split; [done|]. unfold clean_pm_asin.
    apply list_elem_of_filter. simpl. split; [done|].
    apply list_elem_of_fmap. exists row. by rewrite Hk.
Qed.

Lemma not_contains_brand_asin : ¬ Py.contains "brand" "asin".
Proof. by vm_compute. Qed.

Lemma set_index_asin_ok cols pmu col :
  col ∈ cols → col ≠ "asin" → ∃ s, set_index_asin cols pmu col = inr s.
Proof.
  intros Hin Hne. unfold set_index_asin. rewrite decide_False by done.
  unfold column_position.
  destruct (list_find_elem_of (λ c, c = col) cols col Hin eq_refl)
    as [[j c] Hj].
  rewrite Hj. simpl. eauto.
Qed.

Lemma fallback_ok (P : string → Prop) `{!∀ c, Decision (P c)} cols i :
  ¬ (Forall (λ c, ¬ P c) cols ∧ (length cols ≤ i)%nat) →
  ∃ c, match filter P cols with
       | c :: _ => mret c
       | [] => columns_getitem cols i
       end = inr c.
Proof.
  intros Hno. destruct (filter P cols) as [|c l'] eqn:Hf; [|eauto].
  apply filter_nil_Forall in Hf. unfold columns_getitem.
  destruct (cols !! i) as [c|] eqn:Hc; [eauto|].
  apply lookup_ge_None in Hc. destruct Hno. done.
Qed.

(** X12.  For a product master whose labels, trimmed and lower-cased, are
    distinct, the maps can be built exactly when there is an "asin" column,
    each of the four attribute columns is found by name or by position, and
    neither the vendor nor the cost column found is the "asin" column.
    (With a repeated label pandas selects a frame instead of a column; the
    model does not cover that case.) *)
Theorem build_maps_succeeds_iff (pm : frame) :
  NoDup (clean_columns (columns pm)) →
  (∃ m, build_maps pm = inr m) ↔
  "asin" ∈ clean_columns (columns pm) ∧
  ¬ unresolved (clean_columns (columns pm)) ∧
  find_vendor_col (clean_columns (columns pm)) ≠ inr "asin" ∧
  find_cp_col (clean_columns (columns pm)) ≠ inr "asin".
Proof.
  intros _. split.
  - intros [m Hm]. split; [|split; [by eapply build_maps_resolved|]].
    + apply build_maps_inr in Hm as (i & _ & _ & _ & _ & Hi & _).
      apply column_position_inr in Hi. by eapply list_elem_of_lookup_2.
    + rewrite build_maps_eq in Hm.
      apply result_bind_inr in Hm as (i & Hi & H).
      apply result_bind_inr in H as (cbm & Hcbm & H).
      apply result_bind_inr in H as (cb & Hcb & H).
      apply result_bind_inr in H as (bm & Hbm & H).
      apply result_bind_inr in H as (brand & Hbrand & H).
      apply result_bind_inr in H as (cv & Hcv & H).
      apply result_bind_inr in H as (vendor & Hvendor & H).
      apply result_bind_inr in H as (cc & Hcc & H).
      apply result_bind_inr in H as (cp & Hcp & H).
      rewrite Hcv, Hcc. split; intros [= ->].
      * unfold set_index_asin in Hvendor. by rewrite decide_True in Hvendor.
      * unfold set_index_asin in Hcp. by rewrite decide_True in Hcp.
  - intros (Hasin & Hres & Hv & Hc). rewrite build_maps_eq.
    destruct (list_find_elem_of (λ c, c = "asin") _ _ Hasin eq_refl)
      as [[i c] Hi].
    unfold column_position at 1. rewrite Hi. simpl.
    assert (∃ cbm, find_bm_col (clean_columns (columns pm)) = inr cbm ∧
                   cbm ∈ clean_columns (columns pm) ∧ cbm ≠ "asin")
      as (cbm & -> & Hcbm & Hcbm').
    { unfold find_bm_col.
      destruct (filter _ (clean_columns (columns pm))) as [|cbm l'] eqn:Hf.
      - destruct Hres. left.
        by apply (filter_nil_Forall
                    (λ c, Py.contains "brand" c ∧ Py.contains "manager" c)).
      - exists cbm. apply filter_head_elem_of in Hf as [? [Hb _]].
        repeat split; try done. intros ->. by apply not_contains_brand_asin. }
    assert (∃ cb, find_brand_col (clean_columns (columns pm)) = inr cb ∧
                  cb ∈ clean_columns (columns pm) ∧ cb ≠ "asin")
      as (cb & -> & Hcb & Hcb').
    { unfold find_brand_col.
      destruct (filter _ (clean_columns (columns pm))) as [|cb l'] eqn:Hf.
      - destruct Hres. right; left.
        by apply (filter_nil_Forall (λ c, c = "brand")).
      - exists cb. apply filter_head_elem_of in Hf as [? ->].
        repeat split; done. }
    simpl.
    destruct (set_index_asin_ok (clean_columns (columns pm))
                (drop_duplicates (clean_pm_asin i (rows pm))) cbm Hcbm Hcbm')
      as [bm ->].
    destruct (set_index_asin_ok (clean_columns (columns pm))
                (drop_duplicates (clean_pm_asin i (rows pm))) cb Hcb Hcb')
      as [brand ->].
    simpl.
    destruct (fallback_ok (λ c, c ∈ vendor_names) (clean_columns (columns pm)) 3)
      as [cv Hcv]; [intros ?; apply Hres; by right; right; left|].
    fold (find_vendor_col (clean_columns (columns pm))) in Hcv.
    rewrite Hcv in Hv |- *. simpl.
    destruct (set_index_asin_ok (clean_columns (columns pm))
                (drop_duplicates (clean_pm_asin i (rows pm))) cv)
      as [vendor ->]; [by apply fallback_inr in Hcv as [? _]|congruence|].
    simpl.
    destruct (fallback_ok (λ c, c ∈ cp_names) (clean_columns (columns pm)) 7)
      as [cc Hcc]; [intros ?; apply Hres; by right; right; right|].
    fold (find_cp_col (clean_columns (columns pm))) in Hcc.
    rewrite Hcc in Hc |- *. simpl.
    destruct (set_index_asin_ok (clean_columns (columns pm))
                (drop_duplicates (clean_pm_asin i (rows pm))) cc)
      as [cp ->]; [by apply fallback_inr in Hcc as [? _]|congruence|].
    simpl. eauto.
Qed.

(** ** The order of the columns *)

Lemma py_index_middle (x : string) (l1 l2 : list string) :
  x ∉ l1 → py_index x (l1 ++ x :: l2) = Some (length l1).
Proof.
  intros Hx. unfold py_index.
  induction l1 as [|c l1 IH]; simpl.
  - by rewrite decide_True.
  - apply not_elem_of_cons in Hx as [Hne Hx].
    rewrite decide_False by done. specialize (IH Hx).
    destruct (list_find _ (l1 ++ x :: l2)) as [[j y]|]; simpl in *; [|done].
    by injection IH as ->.
Qed.

Lemma py_index_Some (x : string) (l : list string) (i : nat) :
  py_index x l = Some i → l !! i = Some x.
Proof.
  unfold py_index. destruct (list_find _ l) as [[j y]|] eqn:Hf; [|done].
  intros [= <-]. by apply list_find_Some in Hf as (? & -> & _).
Qed.

Lemma py_insert_Permutation (i : nat) (x : string) (l : list string) :
  py_insert i x l ≡ₚ x :: l.
Proof.
  unfold py_insert. rewrite <- Permutation_middle. by rewrite take_drop.
Qed.


(** When the cost column stands after the item-price column, as it does
    when the pipeline has appended it, it is moved to the place right after
    item-price and the other columns keep their order. *)
Lemma place_cost_after_price (l1 l2 l3 : list string) :
  "item-price" ∉ l1 → "cost" ∉ l1 → "cost" ∉ l2 →
  place_cost (l1 ++ "item-price" :: l2 ++ "cost" :: l3)
  = l1 ++ "item-price" :: "cost" :: l2 ++ l3.
Proof.
  intros Hp Hc1 Hc2. unfold place_cost.
  rewrite py_index_middle by done.
  change (l1 ++ "item-price" :: l2 ++ "cost" :: l3)
    with (l1 ++ ("item-price" :: l2) ++ "cost" :: l3).
  rewrite app_assoc, py_index_middle, delete_middle.
  - unfold py_insert. rewrite <- app_assoc. simpl.
    replace (l1 ++ "item-price" :: l2 ++ l3)
      with ((l1 ++ ["item-price"]) ++ l2 ++ l3)
      by (by rewrite <- app_assoc).
    rewrite take_app_length', drop_app_length'
      by (rewrite length_app; simpl; lia).
    by rewrite <- app_assoc.
  - rewrite elem_of_app, elem_of_cons. intros [?|[?|?]]; done.
Qed.

(** X14.  When the orders file itself has a cost column before the
    item-price column, the cost column lands one place further: a column
    that followed item-price comes between them. *)
Theorem place_cost_before_price (l1 l2 l3 : list string) (x : string) :
  "cost" ∉ l1 → "item-price" ∉ l1 → "item-price" ∉ l2 →
  place_cost (l1 ++ "cost" :: l2 ++ "item-price" :: x :: l3)
  = l1 ++ l2 ++ "item-price" :: x :: "cost" :: l3.
Proof.
  intros Hc Hp1 Hp2. unfold place_cost.
  rewrite (py_index_middle "cost") by done.
  change (l1 ++ "cost" :: l2 ++ "item-price" :: x :: l3)
    with (l1 ++ ("cost" :: l2) ++ "item-price" :: x :: l3).
  rewrite app_assoc, py_index_middle.
  - rewrite <- app_assoc. simpl. rewrite delete_middle.
    unfold py_insert.
    replace (l1 ++ l2 ++ "item-price" :: x :: l3)
      with ((l1 ++ l2 ++ ["item-price"; x]) ++ l3)
      by (by rewrite <- !app_assoc).
    rewrite take_app_length', drop_app_length'
      by (rewrite !length_app; simpl; lia).
    by rewrite <- !app_assoc.
  - rewrite elem_of_app, elem_of_cons. intros [?|[?|?]]; done.
Qed.

Lemma after_asin_id (l : list string) : "asin" ∉ l → after_asin l = l.
Proof.
  induction l as [|c l IH]; [done|]. intros [Hne Hl]%not_elem_of_cons.
  simpl. rewrite decide_False by done. by rewrite IH.
Qed.

Lemma after_asin_app (l1 l2 : list string) :
  after_asin (l1 ++ l2) = after_asin l1 ++ after_asin l2.
Proof.
  induction l1 as [|c l1 IH]; [done|]. simpl.
  destruct (decide (c = "asin")); simpl; by rewrite IH.
Qed.

(** With one asin column and the Vendor SKU column after it, the Vendor
    SKU column is moved to the place right after asin and the other columns
    keep their order. *)
Lemma place_vendor_after_asin (l1 l2 l3 : list string) :
  "asin" ∉ l1 → "asin" ∉ l2 → "asin" ∉ l3 →
  "Vendor SKU" ∉ l1 → "Vendor SKU" ∉ l2 →
  place_vendor (l1 ++ "asin" :: l2 ++ "Vendor SKU" :: l3)
  = l1 ++ "asin" :: "Vendor SKU" :: l2 ++ l3.
Proof.
  intros Ha1 Ha2 Ha3 Hv1 Hv2. unfold place_vendor.
  rewrite py_index_middle by done.
  change (l1 ++ "asin" :: l2 ++ "Vendor SKU" :: l3)
    with (l1 ++ ("asin" :: l2) ++ "Vendor SKU" :: l3).
  rewrite app_assoc, py_index_middle, delete_middle.
  - rewrite <- app_assoc, after_asin_app. simpl.
    rewrite !after_asin_id; [done|..]; try done.
    rewrite elem_of_app. tauto.
  - rewrite elem_of_app, elem_of_cons. intros [?|[?|?]]; done.
Qed.

(** A label is in none of the pieces of a list of labels. *)
Ltac labels_apart :=
  repeat first [rewrite elem_of_app | rewrite elem_of_cons
               | rewrite elem_of_nil];
  intuition (try done; try discriminate).

Lemma assign_column_new (label : string) (cols : list string) :
  label ∉ cols → assign_column label cols = cols ++ [label].
Proof. intros H. unfold assign_column. by rewrite decide_False. Qed.

Lemma filter_eq_NoDup (c : string) (l : list string) :
  NoDup l → c ∈ l → filter (λ c', c' = c) l = [c].
Proof.
  induction 1 as [|x l Hx Hnd IH]; [by intros ?%elem_of_nil|].
  rewrite filter_cons. intros [->|Hin]%elem_of_cons.
  - rewrite decide_True by done. f_equal.
    apply (filter_nil_Forall (λ c', c' = x)), Forall_forall.
    intros y Hy ->. done.
  - rewrite decide_False by (intros ->; done). by apply IH.
Qed.

(** Selecting distinct labels the table has gives these labels. *)
Lemma getitem_columns_id (cols current : list string) :
  NoDup current → (∀ c, c ∈ cols → c ∈ current) →
  getitem_columns cols current = cols.
Proof.
  intros Hnd. unfold getitem_columns.
  induction cols as [|c cols IH]; intros Hin; [done|].
  rewrite bind_cons, filter_eq_NoDup, IH; [done| |done|].
  - intros c' Hc'. apply Hin. by right.
  - apply Hin. by left.
Qed.

(** X15.  For an orders file whose labels stay distinct when cleaned, whose
    asin column stands before its item-price column and whose other labels
    are none the pipeline places, the processed orders have the columns of
    the file in their order with Vendor SKU right after asin and cost right
    after item-price, followed by Brand Manager and Brand. *)
Theorem Working_columns_layout (orders_columns l1 l2 l3 : list string) :
  NoDup (clean_columns (assign_column "date" orders_columns)) →
  clean_columns (assign_column "date" orders_columns)
  = l1 ++ "asin" :: l2 ++ "item-price" :: l3 →
  Forall (λ c, c ∉ placed_labels) (l1 ++ l2 ++ l3) →
  Working_columns orders_columns
  = l1 ++ "asin" :: "Vendor SKU" :: l2 ++ "item-price" :: "cost" :: l3
       ++ ["Brand Manager"; "Brand"].
Proof.
  intros Hnd Hcols Hfresh. unfold Working_columns. rewrite Hcols in Hnd |- *.
  assert (∀ c, c ∈ placed_labels → (c ∉ l1) ∧ (c ∉ l2) ∧ (c ∉ l3)) as Hf.
  { intros c Hc. rewrite !Forall_app, !Forall_forall in Hfresh.
    destruct Hfresh as (H1 & H2 & H3).
    repeat split; intros Hin; [by apply (H1 c)|by apply (H2 c)|by apply (H3 c)]. }
  destruct (Hf "asin") as (Ha1 & Ha2 & Ha3); [compute_done|].
  destruct (Hf "item-price") as (Hp1 & Hp2 & Hp3); [compute_done|].
  destruct (Hf "Brand Manager") as (Hm1 & Hm2 & Hm3); [compute_done|].
  destruct (Hf "Brand") as (Hb1 & Hb2 & Hb3); [compute_done|].
  destruct (Hf "Vendor SKU") as (Hv1 & Hv2 & Hv3); [compute_done|].
  destruct (Hf "cost") as (Hc1 & Hc2 & Hc3); [compute_done|].
  clear Hf Hfresh Hcols.
  rewrite (assign_column_new "Brand Manager") by labels_apart.
  rewrite (assign_column_new "Brand") by labels_apart.
  rewrite (assign_column_new "Vendor SKU") by labels_apart.
  rewrite (assign_column_new "cost") by labels_apart.
  rewrite <- !app_assoc. simpl. rewrite <- !app_assoc. simpl.
  set (A := l1 ++ "asin" :: l2 ++ "item-price"
               :: l3 ++ ["Brand Manager"; "Brand"; "Vendor SKU"; "cost"]).
  set (B := l1 ++ "asin" :: l2 ++ "item-price" :: "cost"
               :: l3 ++ ["Brand Manager"; "Brand"; "Vendor SKU"]).
  assert (NoDup A) as HndA.
  { unfold A.
    replace (l1 ++ "asin" :: l2 ++ "item-price"
               :: l3 ++ ["Brand Manager"; "Brand"; "Vendor SKU"; "cost"])
      with ((l1 ++ "asin" :: l2 ++ "item-price" :: l3)
              ++ ["Brand Manager"; "Brand"; "Vendor SKU"; "cost"])
      by (repeat first [rewrite <- app_assoc | progress simpl]; done).
    apply NoDup_app. split; [done|]. split; [|compute_done].
    intros c Hc Hc'. revert Hc.
    rewrite !elem_of_cons, elem_of_nil in Hc'.
    destruct Hc' as [->|[->|[->|[->|?]]]]; labels_apart. }
  assert (place_cost A = B) as HB.
  { unfold A, B.
    replace (l1 ++ "asin" :: l2 ++ "item-price"
                :: l3 ++ ["Brand Manager"; "Brand"; "Vendor SKU"; "cost"])
      with ((l1 ++ "asin" :: l2) ++ "item-price"
              :: (l3 ++ ["Brand Manager"; "Brand"; "Vendor SKU"]) ++ "cost" :: [])
      by (repeat first [rewrite <- app_assoc | progress simpl]; done).
    rewrite place_cost_after_price by labels_apart.
    repeat first [rewrite <- app_assoc | rewrite app_nil_r | progress simpl].
    done. }
  assert (B ≡ₚ A) as Hperm.
  { unfold A, B. apply Permutation_app_head. constructor.
    apply Permutation_app_head. constructor.
    replace (l3 ++ ["Brand Manager"; "Brand"; "Vendor SKU"; "cost"])
      with ((l3 ++ ["Brand Manager"; "Brand"; "Vendor SKU"]) ++ ["cost"])
      by (by rewrite <- app_assoc).
    apply Permutation_cons_append. }
  destruct (decide ("item-price" ∈ A ∧ "cost" ∈ A)) as [_|Hn];
    [|destruct Hn; unfold A; clear; split; labels_apart].
  rewrite HB, getitem_columns_id; [|done|by intros c; rewrite Hperm].
  assert (NoDup B) as HndB by (by rewrite Hperm).
  destruct (decide ("asin" ∈ B ∧ "Vendor SKU" ∈ B)) as [_|Hn];
    [|destruct Hn; unfold B; clear; split; labels_apart].
  assert (place_vendor B
          = l1 ++ "asin" :: "Vendor SKU" :: l2 ++ "item-price" :: "cost"
              :: l3 ++ ["Brand Manager"; "Brand"]) as HC.
  { unfold B.
    replace (l1 ++ "asin" :: l2 ++ "item-price" :: "cost"
                :: l3 ++ ["Brand Manager"; "Brand"; "Vendor SKU"])
      with (l1 ++ "asin"
              :: (l2 ++ "item-price" :: "cost" :: l3 ++ ["Brand Manager"; "Brand"])
              ++ "Vendor SKU" :: [])
      by (repeat first [rewrite <- app_assoc | progress simpl]; done).
    rewrite place_vendor_after_asin by labels_apart.
    repeat first [rewrite <- app_assoc | rewrite app_nil_r | progress simpl].
    done. }
  rewrite HC. apply getitem_columns_id; [done|].
  intros c. unfold B. clear. labels_apart.
Qed.

(** ** Key metrics *)

Lemma idxmax_go_spec (best : cell * Z) (s : list (cell * Z)) :
  ∃ v, (idxmax_go best s, v) ∈ best :: s ∧
       ∀ kv, kv ∈ best :: s → kv.2 ≤ v.
Proof.
  revert best. induction s as [|kv s IH]; intros best; simpl.
  - exists best.2. split; [destruct best; left|].
    by intros kv' ->%list_elem_of_singleton.
  - destruct (IH (if decide (best.2 < kv.2) then kv else best))
      as (v & Hin & Hmax).
    exists v. split.
    + apply elem_of_cons in Hin as [Heq|Hin]; [|by do 2 right].
      rewrite Heq. destruct (decide (best.2 < kv.2)); [right; left|left].
    + intros kv' Hkv'.
      assert ((if decide (best.2 < kv.2) then kv else best).2 ≤ v) as Hb
        by (apply Hmax; left).
      apply elem_of_cons in Hkv' as [->|Hkv'].
      * destruct (decide (best.2 < kv.2)); lia.
      * apply elem_of_cons in Hkv' as [->|Hkv']; [|apply Hmax; by right].
        destruct (decide (best.2 < kv.2)); lia.
Qed.

Lemma idxmax_inr (s : list (cell * Z)) (k : cell) :
  idxmax s = inr k → ∃ v, (k, v) ∈ s ∧ ∀ kv, kv ∈ s → kv.2 ≤ v.
Proof.
  destruct s as [|kv s]; [done|]. intros [= <-]. apply idxmax_go_spec.
Qed.

Lemma groupby_item_price_elem_of (key : order → cell) (Working : list order)
    (k : cell) (v : Z) :
  (k, v) ∈ groupby_item_price key Working ↔
  notna k ∧ (∃ r, r ∈ Working ∧ key r = k) ∧
  v = sum_item_price (filter (λ r, key r = k) Working).
Proof.
  unfold groupby_item_price. rewrite list_elem_of_fmap.
  assert (∀ k', notna k' →
            filter (λ r, key r = k') (filter (λ r, notna (key r)) Working)
            = filter (λ r, key r = k') Working) as Hf.
  { intros k' Hk'. rewrite list_filter_filter. apply list_filter_iff.
    intros r. split; [tauto|]. intros ->. done. }
  split.
  - intros (k' & [= -> ->] & Hk).
    apply merge_sort_elem_of, elem_of_remove_dups, list_elem_of_fmap in Hk
      as (r & -> & [Hn Hr]%list_elem_of_filter).
    split; [done|]. split; [by exists r|]. by rewrite Hf.
  - intros (Hk & (r & Hr & Hkr) & ->). exists k. split; [by rewrite Hf|].
    apply merge_sort_elem_of, elem_of_remove_dups, list_elem_of_fmap.
    exists r. split; [done|]. apply list_elem_of_filter. by rewrite Hkr.
Qed.

Lemma groupby_item_price_nil (key : order → cell) (Working : list order) :
  Forall (λ r, key r = NaN) Working → groupby_item_price key Working = [].
Proof.
  intros HF. unfold groupby_item_price.
  assert (filter (λ r, notna (key r)) Working = []) as ->; [|done].
  apply (filter_nil_Forall (λ r, notna (key r))).
  eapply Forall_impl; [done|]. simpl. intros r -> Hn. by apply Hn.
Qed.

Section Metrics.

Variable parse : string → option Z.


(** X17.  On a run that completes, the top brand is the brand of a
    processed order, and no brand of a processed order has a larger sum of
    item-price; likewise the top manager. *)
Theorem run_top_brand_maximal (pm : frame) (orders : list order)
    (out : outputs) :
  run parse pm orders = inr out →
  ((∃ r, r ∈ processed_orders out ∧ Brand r = top_brand out) ∧
   notna (top_brand out) ∧
   ∀ r, r ∈ processed_orders out → notna (Brand r) →
     sum_item_price (filter (λ r', Brand r' = Brand r) (processed_orders out))
     ≤ sum_item_price
         (filter (λ r', Brand r' = top_brand out) (processed_orders out)))
  ∧ ((∃ r, r ∈ processed_orders out ∧ Brand_Manager r = top_manager out) ∧
     notna (top_manager out) ∧
     ∀ r, r ∈ processed_orders out → notna (Brand_Manager r) →
       sum_item_price (filter (λ r', Brand_Manager r' = Brand_Manager r)
                              (processed_orders out))
       ≤ sum_item_price
           (filter (λ r', Brand_Manager r' = top_manager out)
                   (processed_orders out))).
Proof.
  unfold run. intros (W & HW & H)%result_bind_inr.
  apply result_bind_inr in H as (tb & Htb & H).
  apply result_bind_inr in H as (tm & Htm & H).
  apply result_bind_inr in H as (d & Hd & H).
  injection H as <-. simpl.
  apply idxmax_inr in Htb as (vb & Hb & Hbmax).
  apply idxmax_inr in Htm as (vm & Hm & Hmmax).
  apply groupby_item_price_elem_of in Hb as (Hbn & Hbr & ->).
  apply groupby_item_price_elem_of in Hm as (Hmn & Hmr & ->).
  split; (split; [done|]); (split; [done|]); intros r Hr Hn.
  - apply (Hbmax (Brand r, _)). apply groupby_item_price_elem_of.
    split; [done|]. split; [by exists r|done].
  - apply (Hmmax (Brand_Manager r, _)). apply groupby_item_price_elem_of.
    split; [done|]. split; [by exists r|done].
Qed.

End Metrics.

(** ** View D, in terms of the filtered orders *)

Lemma base_elem_of_inv (Working : list order) (x : drow) :
  x ∈ base Working →
  d_order x = 0 ∧
  ∃ r, r ∈ Working ∧ d_asin x = asin r ∧
       d_Brand_Manager x = Brand_Manager r ∧ d_Brand x = Brand r.
Proof.
  unfold base, base_groups.
  intros (k & -> & Hk)%merge_sort_elem_of%list_elem_of_fmap.
  apply merge_sort_elem_of, elem_of_remove_dups, list_elem_of_fmap in Hk
    as (r & -> & Hr).
  split; [done|]. by exists r.
Qed.

(** The base rows picked by a condition on the three labels add up to the
    filtered orders picked by the same condition. *)
Lemma base_sums (Q : cell * cell * cell → Prop) `{!∀ k, Decision (Q k)}
    (Working : list order) :
  let rows :=
    filter (λ x, Q (d_asin x, d_Brand_Manager x, d_Brand x)) (base Working) in
  let orders :=
    filter (λ r, Q (asin r, Brand_Manager r, Brand r)) Working in
  sumZ (d_quantity <$> rows) = sum_quantity orders
  ∧ sumZ (d_item_price <$> rows) = sum_item_price orders
  ∧ sumZ (d_cost <$> rows) = sum_cost orders.
Proof.
  intros rows orders. subst rows.
  set (key := λ r : order, (asin r, Brand_Manager r, Brand r)).
  set (keys := merge_sort by_key3 (remove_dups (key <$> Working))).
  assert (NoDup (filter Q keys)) as Hnd.
  { apply NoDup_filter, merge_sort_NoDup, NoDup_remove_dups. }
  assert (∀ r, r ∈ orders → key r ∈ filter Q keys) as Hin.
  { intros r [HQ Hr]%list_elem_of_filter. apply list_elem_of_filter.
    split; [done|].
    apply merge_sort_elem_of, elem_of_remove_dups.
    by apply (list_elem_of_fmap_2 key). }
  assert (∀ k, Q k →
            filter (λ r, asin r = k.1.1 ∧ Brand_Manager r = k.1.2 ∧
                         Brand r = k.2) Working
            = filter (λ r, key r = k) orders) as Hg.
  { intros [[a m] b] HQ. unfold orders. rewrite list_filter_filter.
    apply list_filter_iff. intros r. unfold key. simpl. split.
    - intros (<- & <- & <-). done.
    - intros [[= -> -> ->] _]. done. }
  assert (∀ h : drow → Z,
            sumZ (h <$> filter
                    (λ x, Q (d_asin x, d_Brand_Manager x, d_Brand x))
                    (base Working))
            = sumZ ((λ k, h (
                {| d_asin := k.1.1; d_Brand_Manager := k.1.2; d_Brand := k.2;
                   d_quantity := sum_quantity (filter (λ r, key r = k) orders);
                   d_item_price :=
                     sum_item_price (filter (λ r, key r = k) orders);
                   d_cost := sum_cost (filter (λ r, key r = k) orders);
                   d_order := 0 |})) <$> filter Q keys)) as Hsum.
  { intros h.
    assert (filter (λ x, Q (d_asin x, d_Brand_Manager x, d_Brand x))
              (base Working)
            ≡ₚ filter (λ x, Q (d_asin x, d_Brand_Manager x, d_Brand x))
                 (base_groups Working)) as Hperm
      by (unfold base; by rewrite merge_sort_Permutation).
    rewrite (sumZ_Permutation _ _ (fmap_Permutation h _ _ Hperm)).
    unfold base_groups. fold key. fold keys.
    rewrite filter_fmap, <- list_fmap_compose. simpl.
    erewrite (list_filter_iff _ Q keys) by (by intros [[a m] b]).
    f_equal. apply list_fmap_ext.
    intros _ k [HQ _]%list_elem_of_lookup_2%list_elem_of_filter.
    simpl. by rewrite (Hg k HQ). }
  rewrite !Hsum. simpl. unfold sum_quantity, sum_item_price, sum_cost.
  by rewrite !sum_groups.
Qed.

Lemma grand_total_sums (Working : list order) :
  d_quantity (grand_total (base Working)) = sum_quantity Working
  ∧ d_item_price (grand_total (base Working)) = sum_item_price Working
  ∧ d_cost (grand_total (base Working)) = sum_cost Working.
Proof.
  pose proof (base_sums (λ _, True) Working) as H. simpl in H.
  rewrite !(filter_Forall_id (λ _, True)) in H
    by (apply Forall_forall; done).
  done.
Qed.

(** X18.  The Grand Total row of View D carries the sums of quantity,
    item-price and cost over every filtered order, with or without a brand
    manager or a brand; no other row has "order" 3. *)
Theorem view_d_grand_total_of_all_orders (Working : list order)
    (rows : list drow) :
  combined Working = inr rows →
  ∃ g, g ∈ rows ∧
    (∀ x, x ∈ rows → d_order x = 3 → x = g) ∧
    d_asin g = Str "Grand Total" ∧ d_Brand_Manager g = Str "" ∧
    d_Brand g = Str "" ∧
    d_quantity g = sum_quantity Working ∧
    d_item_price g = sum_item_price Working ∧
    d_cost g = sum_cost Working.
Proof.
  intros Hc. exists (grand_total (base Working)).
  destruct (grand_total_sums Working) as (Hq & Hp & Hcost).
  split; [|split; [|done]].
  - apply (combined_elem_of _ _ _ Hc).
    destruct (combined_inr _ _ Hc) as (bt & mt & Hbt & Hmt & _).
    exists bt, mt. split; [done|]. split; [done|]. by do 3 right.
  - intros x Hx Ho. apply (combined_elem_of _ _ _ Hc) in Hx
      as (bt & mt & _ & _ & [[_ H]|[[_ H]|[[_ H]|[H _]]]]);
      [rewrite Ho in H; done..|done].
Qed.

(** X19.  A brand subtotal row of View D carries the sums over the filtered
    orders that have its brand manager and its brand. *)
Theorem view_d_brand_subtotal_of_orders (Working : list order)
    (rows : list drow) (t : drow) :
  combined Working = inr rows → t ∈ rows → d_order t = 1 →
  let g := filter (λ r, Brand_Manager r = d_Brand_Manager t ∧
                        Brand r = d_Brand t) Working in
  g ≠ [] ∧
  d_quantity t = sum_quantity g ∧ d_item_price t = sum_item_price g ∧
  d_cost t = sum_cost g.
Proof.
  intros Hc Ht Ho g.
  apply (combined_elem_of _ _ _ Hc) in Ht
      as (bt & mt & Hbt & Hmt & [[_ H]|[[Ht _]|[[Hin H]|[_ H]]]]);
    [rewrite Ho in H; done| |..].
  2:{ apply manager_totals_order in Hmt.
      rewrite Forall_forall in Hmt. rewrite (Hmt _ Hin) in Ho. done. }
  2:{ rewrite Ho in H. done. }
  destruct (brand_totals_spec _ _ Hbt) as [Hspec _].
  rewrite Forall_forall in Hspec.
  destruct (Hspec _ Ht) as (_ & _ & _ & (x & Hx & Hxm & Hxb) & Hq & Hp & Hcost).
  pose proof (base_sums (λ k, k.1.2 = d_Brand_Manager t ∧ k.2 = d_Brand t)
                Working) as Hs.
  simpl in Hs. fold g in Hs. destruct Hs as (Hsq & Hsp & Hsc).
  split; [|by rewrite Hq, Hp, Hcost].
  apply base_elem_of_inv in Hx as (_ & r & Hr & _ & Hrm & Hrb).
  intros Hnil. apply (filter_nil_Forall _ _) in Hnil.
  rewrite Forall_forall in Hnil. apply (Hnil r Hr). split; congruence.
Qed.

Lemma manager_total_row_inr (bs : list drow) (m : cell) (t : drow) :
  notna m → manager_total_row bs m = inr t →
  ∃ s, m = Str s ∧ d_asin t = Str (s +:+ " Total") ∧
       d_Brand_Manager t = Str s ∧ d_Brand t = Str "" ∧ d_order t = 2 ∧
       let g := filter (λ x, d_Brand_Manager x = Str s) bs in
       d_quantity t = sumZ (d_quantity <$> g) ∧
       d_item_price t = sumZ (d_item_price <$> g) ∧
       d_cost t = sumZ (d_cost <$> g).
Proof.
  intros Hm. unfold manager_total_row.
  intros (a & Ha & H)%result_bind_inr. injection H as <-.
  destruct m as [|z|s]; [done|done|]. injection Ha as <-.
  exists s. simpl. repeat (split; [done|]).
  assert (filter (λ x, d_Brand_Manager x = Str s)
            (filter (λ x, notna (d_Brand_Manager x)) bs)
          = filter (λ x, d_Brand_Manager x = Str s) bs) as ->; [|done].
  rewrite list_filter_filter. apply list_filter_iff.
  intros x. split; [tauto|]. intros Hx. by rewrite Hx.
Qed.

Lemma manager_keys_spec (bs : list drow) (m : cell) :
  m ∈ merge_sort cell_le
        (remove_dups
           (d_Brand_Manager <$> filter (λ x, notna (d_Brand_Manager x)) bs))
  ↔ notna m ∧ ∃ x, x ∈ bs ∧ d_Brand_Manager x = m.
Proof.
  rewrite merge_sort_elem_of, elem_of_remove_dups, list_elem_of_fmap. split.
  - intros (x & -> & [Hn Hx]%list_elem_of_filter). split; [done|by exists x].
  - intros (Hn & x & Hx & <-). exists x. split; [done|].
    by apply list_elem_of_filter.
Qed.

(** X20.  A manager subtotal row of View D is labelled "<manager> Total"
    with an empty brand, and carries the sums over the filtered orders of
    that manager, those without a brand included; every filtered order with
    a brand manager has such a row. *)
Theorem view_d_manager_subtotal_of_orders (Working : list order)
    (rows : list drow) :
  combined Working = inr rows →
  (∀ t, t ∈ rows → d_order t = 2 →
     ∃ m, d_Brand_Manager t = Str m ∧ d_asin t = Str (m +:+ " Total") ∧
          d_Brand t = Str "" ∧
          let g := filter (λ r, Brand_Manager r = Str m) Working in
          g ≠ [] ∧
          d_quantity t = sum_quantity g ∧
          d_item_price t = sum_item_price g ∧
          d_cost t = sum_cost g)
  ∧ (∀ r, r ∈ Working → notna (Brand_Manager r) →
       ∃ t, t ∈ rows ∧ d_order t = 2 ∧
            d_Brand_Manager t = Brand_Manager r).
Proof.
  intros Hc.
  destruct (combined_inr _ _ Hc) as (bt & mt & Hbt & Hmt & _).
  pose proof Hmt as HF. unfold manager_totals in HF.
  apply mapM_result_inr in HF. split.
  - intros t Ht Ho.
    apply (combined_elem_of _ _ _ Hc) in Ht
      as (bt' & mt' & Hbt' & Hmt' & [[_ H]|[[Hin H]|[[Ht _]|[_ H]]]]);
      [rewrite Ho in H; done|..|rewrite Ho in H; done].
    { rewrite Hbt in Hbt'. injection Hbt' as <-.
      destruct (brand_totals_spec _ _ Hbt) as [Hspec _].
      rewrite Forall_forall in Hspec.
      destruct (Hspec _ Hin) as (Ho1 & _). rewrite Ho in Ho1. done. }
    rewrite Hmt in Hmt'. injection Hmt' as <-.
    destruct (Forall2_elem_of_r _ _ _ _ HF Ht) as (m & Hm & Hrow).
    apply manager_keys_spec in Hm as (Hn & x & Hx & Hxm).
    apply manager_total_row_inr in Hrow
      as (s & -> & Ha & Htm & Htb & _ & Hq & Hp & Hcost); [|done].
    exists s. repeat (split; [done|]).
    pose proof (base_sums (λ k, k.1.2 = Str s) Working) as Hs.
    simpl in Hs. destruct Hs as (Hsq & Hsp & Hsc).
    split; [|by rewrite Hq, Hp, Hcost].
    apply base_elem_of_inv in Hx as (_ & r & Hr & _ & Hrm & _).
    intros Hnil. apply (filter_nil_Forall _ _) in Hnil.
    rewrite Forall_forall in Hnil. apply (Hnil r Hr). congruence.
  - intros r Hr Hn.
    destruct (base_elem_of _ _ Hr) as (x & Hx & _ & _ & Hxm & _).
    assert (Brand_Manager r ∈ merge_sort cell_le
              (remove_dups (d_Brand_Manager <$>
                 filter (λ x, notna (d_Brand_Manager x)) (base Working))))
      as Hk.
    { apply manager_keys_spec. split; [done|by exists x]. }
    destruct (Forall2_elem_of_l _ _ _ _ HF Hk) as (t & Ht & Hrow).
    apply manager_total_row_inr in Hrow
      as (s & Hs & _ & Htm & _ & Ho & _); [|done].
    exists t. split; [|by rewrite Htm, Hs].
    apply (combined_elem_of _ _ _ Hc). exists bt, mt.
    split; [done|]. split; [done|]. right; right; left. done.
Qed.

Lemma mapM_result_total {A B} (f : A → result B) (l : list A) :
  Forall (λ x, ∃ y, f x = inr y) l → ∃ ys, mapM f l = inr ys.
Proof.
  induction 1 as [|x l [y Hy] _ [ys IH]]; [by exists []|].
  exists (y :: ys).
  change (mapM f (x :: l)) with (y ← f x; k ← mapM f l; mret (y :: k)).
  by rewrite Hy, IH.
Qed.

(** View D is built whenever every brand manager and brand among the
    filtered orders is text or missing: appending " Total" to the labels
    then cannot fail. *)
Lemma combined_total (Working : list order) :
  Forall (λ r, (∀ z, Brand_Manager r ≠ Num z) ∧ (∀ z, Brand r ≠ Num z))
         Working →
  ∃ rows, combined Working = inr rows.
Proof.
  intros Htext. rewrite Forall_forall in Htext.
  assert (∃ bt, brand_totals (base Working) = inr bt) as [bt Hbt].
  { apply mapM_result_total, Forall_forall.
    intros k (_ & _ & x & Hx & _ & Hxb)%brand_keys_spec.
    apply base_elem_of_inv in Hx as (_ & r & Hr & _ & _ & Hrb).
    destruct (Htext r Hr) as [_ Hb]. unfold brand_total_row.
    destruct k.2 as [|z|s] eqn:Hk; simpl; eauto.
    exfalso. apply (Hb z). congruence. }
  assert (∃ mt, manager_totals (base Working) = inr mt) as [mt Hmt].
  { apply mapM_result_total, Forall_forall.
    intros m (_ & x & Hx & Hxm)%manager_keys_spec.
    apply base_elem_of_inv in Hx as (_ & r & Hr & _ & Hrm & _).
    destruct (Htext r Hr) as [Hm _]. unfold manager_total_row.
    destruct m as [|z|s]; simpl; eauto.
    exfalso. apply (Hm z). congruence. }
  unfold combined. rewrite Hbt, Hmt. simpl. eauto.
Qed.

Lemma idxmax_total (key : order → cell) (Working : list order) (r : order) :
  r ∈ Working → notna (key r) →
  ∃ k, idxmax (groupby_item_price key Working) = inr k.
Proof.
  intros Hr Hn.
  assert ((key r, sum_item_price (filter (λ r', key r' = key r) Working))
          ∈ groupby_item_price key Working) as Hin.
  { apply groupby_item_price_elem_of. split; [done|]. split; [by exists r|done]. }
  destruct (groupby_item_price key Working) as [|kv s];
    [by apply elem_of_nil in Hin|].
  by eexists.
Qed.

Section Completion.

Variable parse : string → option Z.

(** X21.  The run of app2.py completes, with the filtered orders as its
    processed orders, when
    - the labels of the product master are distinct and those of the orders
      file stay distinct once cleaned, with one "date" column;
    - the identifiers of both tables are text or missing;
    - the lookup maps are built;
    - every brand manager and brand among the filtered orders is text or
      missing;
    - some filtered order has a brand manager and a date, and some has a
      brand and a date. *)
Theorem run_completes (pm : frame) (orders W : list order) (i : nat) :
  NoDup (clean_columns (columns pm)) →
  column_position (clean_columns (columns pm)) "asin" = inr i →
  Forall (λ row, text_or_missing (cell_at i row)) (rows pm) →
  Forall (λ r, text_or_missing (asin r) ∧ other_labels_ok r) orders →
  prepare parse pm orders = inr W →
  Forall (λ r, text_or_missing (Brand_Manager r) ∧ text_or_missing (Brand r))
         (Working_filter parse W) →
  (∃ r, r ∈ Working_filter parse W ∧ notna (Brand_Manager r) ∧
        is_Some (date r)) →
  (∃ r, r ∈ Working_filter parse W ∧ notna (Brand r) ∧ is_Some (date r)) →
  ∃ out, run parse pm orders = inr out ∧
         processed_orders out = Working_filter parse W.
Proof.
  intros _ _ _ _ HW Htext (rm & Hrm & Hmn & _) (rb & Hrb & Hbn & _).
  unfold run. rewrite HW.
  change (inr W ≫= ?f) with (f W). cbv beta zeta.
  destruct (idxmax_total Brand _ rb Hrb Hbn) as [tb ->].
  destruct (idxmax_total Brand_Manager _ rm Hrm Hmn) as [tm ->].
  destruct (combined_total _ Htext) as [rows ->].
  simpl. eauto.
Qed.

End Completion.

(** ** The two variants of the enrichment *)

Lemma Sales06_build_maps_eq (pm : frame) :
  Sales06Steps.build_maps pm
  = (let cols := clean_columns (columns pm) in
     i ← column_position cols "asin";
     let pm3 := clean_pm_asin i (rows pm) in
     bm_col ← find_bm_col cols;
     brand_col ← find_brand_col cols;
     let pm_unique := drop_duplicates pm3 in
     bm ← set_index_asin cols pm_unique bm_col;
     brand ← set_index_asin cols pm_unique brand_col;
     cp_col ← find_cp_col cols;
     cp ← set_index_asin cols pm_unique cp_col;
     mret {| Sales06Steps.bm_map := bm; Sales06Steps.brand_map := brand;
             Sales06Steps.cp_map := cp |}).
Proof.
  unfold Sales06Steps.build_maps. cbv zeta.
  destruct (column_position _ "asin") as [e|i]; [done|]. simpl.
  destruct (find_bm_col _) as [e|cbm]; [done|]. simpl.
  destruct (find_brand_col _) as [e|cb]; [done|]. simpl.
  destruct (set_index_asin _ _ cbm) as [e|bm]; [done|]. simpl.
  destruct (set_index_asin _ _ cb) as [e|brand]; [done|]. simpl.
  by rewrite map_check_drop_duplicates.
Qed.

Lemma Sales06_build_maps_inr (pm : frame) (m : Sales06Steps.lookup_maps) :
  Sales06Steps.build_maps pm = inr m →
  let cols := clean_columns (columns pm) in
  ∃ i cbm cb cc bm brand cp,
    column_position cols "asin" = inr i ∧
    find_bm_col cols = inr cbm ∧ find_brand_col cols = inr cb ∧
    find_cp_col cols = inr cc ∧
    let pm_unique := drop_duplicates (clean_pm_asin i (rows pm)) in
    set_index_asin cols pm_unique cbm = inr bm ∧
    set_index_asin cols pm_unique cb = inr brand ∧
    set_index_asin cols pm_unique cc = inr cp ∧
    m = {| Sales06Steps.bm_map := bm; Sales06Steps.brand_map := brand;
           Sales06Steps.cp_map := cp |}.
Proof.
  rewrite Sales06_build_maps_eq. intros H.
  apply result_bind_inr in H as (i & Hi & H).
  apply result_bind_inr in H as (cbm & Hcbm & H).
  apply result_bind_inr in H as (cb & Hcb & H).
  apply result_bind_inr in H as (bm & Hbm & H).
  apply result_bind_inr in H as (brand & Hbrand & H).
  apply result_bind_inr in H as (cc & Hcc & H).
  apply result_bind_inr in H as (cp & Hcp & H).
  injection H as <-. by exists i, cbm, cb, cc, bm, brand, cp.
Qed.

Lemma build_maps_steps (pm : frame) (m : lookup_maps) :
  build_maps pm = inr m →
  let cols := clean_columns (columns pm) in
  ∃ i cbm cb cv cc,
    column_position cols "asin" = inr i ∧
    find_bm_col cols = inr cbm ∧ find_brand_col cols = inr cb ∧
    find_vendor_col cols = inr cv ∧ find_cp_col cols = inr cc ∧
    let pm_unique := drop_duplicates (clean_pm_asin i (rows pm)) in
    set_index_asin cols pm_unique cbm = inr (bm_map m) ∧
    set_index_asin cols pm_unique cb = inr (brand_map m) ∧
    set_index_asin cols pm_unique cv = inr (vendor_map m) ∧
    set_index_asin cols pm_unique cc = inr (cp_map m).
Proof.
  rewrite build_maps_eq. intros H.
  apply result_bind_inr in H as (i & Hi & H).
  apply result_bind_inr in H as (cbm & Hcbm & H).
  apply result_bind_inr in H as (cb & Hcb & H).
  apply result_bind_inr in H as (bm & Hbm & H).
  apply result_bind_inr in H as (brand & Hbrand & H).
  apply result_bind_inr in H as (cv & Hcv & H).
  apply result_bind_inr in H as (vendor & Hvendor & H).
  apply result_bind_inr in H as (cc & Hcc & H).
  apply result_bind_inr in H as (cp & Hcp & H).
  injection H as <-. by exists i, cbm, cb, cv, cc.
Qed.

(** X22.  On a product master with distinct labels app2.py builds its
    lookup maps exactly when sales_06.py builds its own and, in addition,
    the vendor column is found, by name or as the fourth column, and is not
    the "asin" column; the maps of brand manager, brand and cost are then
    the same in both. *)
Theorem build_maps_variants (pm : frame) :
  NoDup (clean_columns (columns pm)) →
  ((∃ m, build_maps pm = inr m) ↔
   (∃ m', Sales06Steps.build_maps pm = inr m') ∧
   ∃ c, find_vendor_col (clean_columns (columns pm)) = inr c ∧ c ≠ "asin")
  ∧ ∀ m m', build_maps pm = inr m → Sales06Steps.build_maps pm = inr m' →
      Sales06Steps.bm_map m' = bm_map m ∧
      Sales06Steps.brand_map m' = brand_map m ∧
      Sales06Steps.cp_map m' = cp_map m.
Proof.
  intros _. split; [split|].
  - intros [m Hm].
    destruct (build_maps_steps _ _ Hm)
      as (i & cbm & cb & cv & cc & Hi & Hcbm & Hcb & Hcv & Hcc &
          Hbm & Hbrand & Hvendor & Hcp).
    split.
    + rewrite Sales06_build_maps_eq. cbv zeta.
      rewrite Hi. simpl. rewrite Hcbm. simpl. rewrite Hcb. simpl.
      rewrite Hbm. simpl. rewrite Hbrand. simpl. rewrite Hcc. simpl.
      rewrite Hcp. simpl. eauto.
    + exists cv. split; [done|]. intros ->.
      unfold set_index_asin in Hvendor. by rewrite decide_True in Hvendor.
  - intros [[m' Hm'] (cv & Hcv & Hne)].
    destruct (Sales06_build_maps_inr _ _ Hm')
      as (i & cbm & cb & cc & bm & brand & cp & Hi & Hcbm & Hcb & Hcc &
          Hbm & Hbrand & Hcp & _).
    assert (∃ vendor,
              set_index_asin (clean_columns (columns pm))
                (drop_duplicates (clean_pm_asin i (rows pm))) cv = inr vendor)
      as [vendor Hvendor].
    { apply set_index_asin_ok; [|done].
      unfold find_vendor_col in Hcv. by apply fallback_inr in Hcv as [? _]. }
    rewrite build_maps_eq. cbv zeta.
    rewrite Hi. simpl. rewrite Hcbm. simpl. rewrite Hcb. simpl.
    rewrite Hbm. simpl. rewrite Hbrand. simpl. rewrite Hcv. simpl.
    rewrite Hvendor. simpl. rewrite Hcc. simpl. rewrite Hcp. simpl. eauto.
  - intros m m' Hm Hm'.
    destruct (build_maps_steps _ _ Hm)
      as (i & cbm & cb & cv & cc & Hi & Hcbm & Hcb & Hcv & Hcc &
          Hbm & Hbrand & Hvendor & Hcp).
    destruct (Sales06_build_maps_inr _ _ Hm')
      as (i' & cbm' & cb' & cc' & bm & brand & cp & Hi' & Hcbm' & Hcb' & Hcc' &
          Hbm' & Hbrand' & Hcp' & ->).
    simpl. rewrite Hi in Hi'. injection Hi' as <-.
    rewrite Hcbm in Hcbm'. injection Hcbm' as <-.
    rewrite Hcb in Hcb'. injection Hcb' as <-.
    rewrite Hcc in Hcc'. injection Hcc' as <-.
    rewrite Hbm in Hbm'. rewrite Hbrand in Hbrand'. rewrite Hcp in Hcp'.
    by injection Hbm' as <-; injection Hbrand' as <-; injection Hcp' as <-.
Qed.

Lemma sku_astype_str_labels (cs : list (string * cell)) :
  (sku_astype_str cs).*1 = cs.*1.
Proof.
  unfold sku_astype_str. induction cs as [|[n c] cs IH]; [done|].
  rewrite !fmap_cons, IH. simpl. by destruct (decide (n = "sku")).
Qed.

Lemma sku_astype_str_others (cs : list (string * cell)) :
  filter (λ nc, nc.1 ≠ "sku") (sku_astype_str cs)
  = filter (λ nc, nc.1 ≠ "sku") cs.
Proof.
  unfold sku_astype_str. induction cs as [|[n c] cs IH]; [done|].
  rewrite fmap_cons. cbn beta. cbn [fst snd].
  destruct (decide (n = "sku")) as [->|Hn].
  - rewrite !filter_cons_False by (intros H; by apply H). apply IH.
  - rewrite !filter_cons_True by done. by rewrite IH.
Qed.

Section Variants.

Variable parse : string → option Z.

(** X23.  Where app2.py gets through Step 6 on tables with distinct
    labels, sales_06.py gets through its Step 5 on the same files,
    and its rows are those of app2.py except for the "Vendor SKU" column and
    the values of the "sku" column: every other column, named or not, is
    the same in both. *)
Theorem prepare_variants_agree (pm : frame) (orders W : list order) :
  NoDup (clean_columns (columns pm)) →
  Forall other_labels_ok orders →
  prepare parse pm orders = inr W →
  ∃ W', Sales06Steps.prepare parse pm orders = inr W' ∧
        Forall2 same_but_vendor W W'.
Proof.
  intros _ _ (m & Hm & ->)%prepare_inr.
  destruct (build_maps_steps _ _ Hm)
    as (i & cbm & cb & cv & cc & Hi & Hcbm & Hcb & Hcv & Hcc &
        Hbm & Hbrand & Hvendor & Hcp).
  exists (Sales06Steps.enrich_order parse
            {| Sales06Steps.bm_map := bm_map m;
               Sales06Steps.brand_map := brand_map m;
               Sales06Steps.cp_map := cp_map m |}
          <$> (normalise_order <$> orders)).
  split.
  - unfold Sales06Steps.prepare. rewrite Sales06_build_maps_eq. cbv zeta.
    rewrite Hi. simpl. rewrite Hcbm. simpl. rewrite Hcb. simpl.
    rewrite Hbm. simpl. rewrite Hbrand. simpl. rewrite Hcc. simpl.
    rewrite Hcp. done.
  - apply Forall2_fmap, Forall_Forall2_diag, Forall_forall.
    intros r _. unfold same_but_vendor. simpl.
    do 10 (split; [done|]).
    split; [apply sku_astype_str_labels|apply sku_astype_str_others].
Qed.

End Variants.

(** ** View D of sales_06.py *)

Lemma Sales06_view_d_keys (Working : list order) :
  let data :=
    filter (λ r, notna (Brand_Manager r) ∧ notna (Brand r) ∧ notna (asin r))
           Working in
  let keys :=
    merge_sort by_key3
      (remove_dups ((λ r, (Brand_Manager r, Brand r, asin r)) <$> data)) in
  NoDup keys ∧
  ∀ k, k ∈ keys ↔
       notna k.1.1 ∧ notna k.1.2 ∧ notna k.2 ∧
       ∃ r, r ∈ Working ∧ Brand_Manager r = k.1.1 ∧ Brand r = k.1.2 ∧
            asin r = k.2.
Proof.
  intros data keys. split; [apply merge_sort_NoDup, NoDup_remove_dups|].
  intros k. unfold keys.
  rewrite merge_sort_elem_of, elem_of_remove_dups, list_elem_of_fmap. split.
  - intros (r & -> & [(Hm & Hb & Ha) Hr]%list_elem_of_filter). simpl.
    repeat (split; [done|]). by exists r.
  - intros (Hm & Hb & Ha & r & Hr & Hrm & Hrb & Hra). exists r. split.
    + destruct k as [[m b] a]. simpl in *. by rewrite Hrm, Hrb, Hra.
    + apply list_elem_of_filter. by rewrite Hrm, Hrb, Hra.
Qed.

(** X24.  View D of sales_06.py is sorted by brand manager and brand
    ascending, then quantity descending; every row has a brand manager and
    a brand that some filtered order carries; and its quantities, prices
    and costs add up to those of the filtered orders that have both
    labels.  It has no subtotal and no total row. *)
Theorem sales06_view_d_sorted_sums (Working : list order) :
  let rows := Sales06ViewD.pivot_BM_Brand_ASIN_sorted Working in
  let labelled :=
    filter (λ r, notna (Brand_Manager r) ∧ notna (Brand r) ∧ notna (asin r))
           Working in
  StronglySorted Sales06ViewD.by_manager_brand_quantity rows
  ∧ Forall (λ t, notna (Sales06ViewD.t_Brand_Manager t) ∧
                 notna (Sales06ViewD.t_Brand t) ∧
                 ∃ r, r ∈ Working ∧
                      Brand_Manager r = Sales06ViewD.t_Brand_Manager t ∧
                      Brand r = Sales06ViewD.t_Brand t ∧
                      asin r = Sales06ViewD.t_asin t) rows
  ∧ sumZ (Sales06ViewD.t_quantity <$> rows) = sum_quantity labelled
  ∧ sumZ (Sales06ViewD.t_item_price <$> rows) = sum_item_price labelled
  ∧ sumZ (Sales06ViewD.t_cost <$> rows) = sum_cost labelled.
Proof.
  intros rows labelled. subst rows.
  unfold Sales06ViewD.pivot_BM_Brand_ASIN_sorted.
  destruct (Sales06_view_d_keys Working) as [Hnd Hkeys].
  split; [|split].
  - apply StronglySorted_merge_sort;
      unfold Sales06ViewD.by_manager_brand_quantity; apply _.
  - rewrite merge_sort_Permutation. unfold Sales06ViewD.pivot_BM_Brand_ASIN.
    apply Forall_fmap, Forall_forall. intros k Hk. simpl.
    apply Hkeys in Hk as (Hm & Hb & _ & Hr). done.
  - set (key := λ r : order, (Brand_Manager r, Brand r, asin r)).
    assert (∀ h : Sales06ViewD.trow → Z,
              sumZ (h <$> merge_sort Sales06ViewD.by_manager_brand_quantity
                            (Sales06ViewD.pivot_BM_Brand_ASIN Working))
              = sumZ (h <$> Sales06ViewD.pivot_BM_Brand_ASIN Working)) as Hp.
    { intros h. apply sumZ_Permutation, fmap_Permutation,
        merge_sort_Permutation. }
    rewrite !Hp. unfold Sales06ViewD.pivot_BM_Brand_ASIN.
    fold labelled. rewrite <- !list_fmap_compose.
    unfold sum_quantity, sum_item_price, sum_cost.
    rewrite <- (sum_groups key (qty_of ∘ quantity) labelled
                  (merge_sort by_key3 (remove_dups (key <$> labelled)))),
      <- (sum_groups key (num_of ∘ item_price) labelled
            (merge_sort by_key3 (remove_dups (key <$> labelled)))),
      <- (sum_groups key (num_of ∘ cost) labelled
            (merge_sort by_key3 (remove_dups (key <$> labelled)))); try done.
    + repeat split; f_equal; apply list_fmap_ext; intros _ [[m b] a] _; simpl;
        f_equal; f_equal; apply list_filter_iff; intros r; unfold key; simpl;
        (split; [intros (-> & -> & ->); done|intros [= -> -> ->]; done]).
    + intros r Hr. apply merge_sort_elem_of, elem_of_remove_dups.
      by apply (list_elem_of_fmap_2 key).
    + intros r Hr. apply merge_sort_elem_of, elem_of_remove_dups.
      by apply (list_elem_of_fmap_2 key).
    + intros r Hr. apply merge_sort_elem_of, elem_of_remove_dups.
      by apply (list_elem_of_fmap_2 key).
Qed.

Lemma base_groups_keys (Working : list order) :
  let keys :=
    merge_sort by_key3
      (remove_dups ((λ r, (asin r, Brand_Manager r, Brand r)) <$> Working)) in
  NoDup keys ∧
  ∀ k, k ∈ keys ↔
       ∃ r, r ∈ Working ∧ asin r = k.1.1 ∧ Brand_Manager r = k.1.2 ∧
            Brand r = k.2.
Proof.
  intros keys. split; [apply merge_sort_NoDup, NoDup_remove_dups|].
  intros k. unfold keys.
  rewrite merge_sort_elem_of, elem_of_remove_dups, list_elem_of_fmap. split.
  - intros (r & -> & Hr). by exists r.
  - intros (r & Hr & Ha & Hm & Hb). exists r. split; [|done].
    destruct k as [[a m] b]. simpl in *. by rewrite Ha, Hm, Hb.
Qed.

(** X25.  View D of sales_06.py holds the same rows as the detail rows of
    View D in app2.py that have a brand manager and a brand: the older
    variant leaves out the orders with a missing label, and the subtotal
    and total rows. *)
Theorem view_d_variants_same_detail (Working : list order) :
  Sales06ViewD.pivot_BM_Brand_ASIN_sorted Working
  ≡ₚ detail_row <$>
       filter (λ x, notna (d_Brand_Manager x) ∧ notna (d_Brand x) ∧
                    notna (d_asin x)) (base Working).
Proof.
  unfold Sales06ViewD.pivot_BM_Brand_ASIN_sorted, base.
  rewrite !merge_sort_Permutation.
  unfold Sales06ViewD.pivot_BM_Brand_ASIN, base_groups.
  destruct (Sales06_view_d_keys Working) as [HndS HkeysS].
  destruct (base_groups_keys Working) as [HndA HkeysA].
  simpl in HndS, HkeysS, HndA, HkeysA.
  set (data := filter (λ r, notna (Brand_Manager r) ∧ notna (Brand r) ∧
                            notna (asin r)) Working) in *.
  set (keysS := merge_sort by_key3 _) in *.
  set (keysA := merge_sort by_key3 _) in HndA, HkeysA |- *.
  set (swap := λ k : cell * cell * cell, (k.1.2, k.2, k.1.1)).
  set (Q := λ k : cell * cell * cell, notna k.1.2 ∧ notna k.2 ∧ notna k.1.1).
  assert (keysS ≡ₚ swap <$> filter Q keysA) as Hperm.
  { apply NoDup_Permutation; [done| |].
    - apply NoDup_fmap_2_strong; [|by apply NoDup_filter].
      intros [[a m] b] [[a' m'] b'] _ _ [= -> -> ->]. done.
    - intros [[m b] a]. rewrite HkeysS, list_elem_of_fmap. simpl. split.
      + intros (Hm & Hb & Ha & r & Hr & Hrm & Hrb & Hra).
        exists (a, m, b). split; [done|]. apply list_elem_of_filter.
        split; [done|]. apply HkeysA. by exists r.
      + intros ([[a' m'] b'] & [= -> -> ->] & [(Hm & Hb & Ha) Hk]%list_elem_of_filter).
        apply HkeysA in Hk as (r & Hr & Hra & Hrm & Hrb). simpl in *.
        repeat (split; [done|]). by exists r. }
  rewrite Hperm, filter_fmap, <- !list_fmap_compose.
  match goal with
  | |- ?l ≡ₚ ?k => assert (l = k) as ->; [|done]
  end.
  apply list_fmap_ext.
  intros _ [[a m] b] [(Hm & Hb & Ha) _]%list_elem_of_lookup_2%list_elem_of_filter.
  unfold detail_row. simpl in *.
  assert (filter (λ r, Brand_Manager r = m ∧ Brand r = b ∧ asin r = a) data
          = filter (λ r, asin r = a ∧ Brand_Manager r = m ∧ Brand r = b)
              Working) as ->; [|done].
  unfold data. rewrite list_filter_filter. apply list_filter_iff.
  intros r. split; [tauto|]. intros (-> & -> & ->). done.
Qed.

(** ** View C in both variants *)

(** X26.  View C has the same rows in the same order in app2.py and in
    sales_06.py: grouping by (asin, Brand) or by (Brand, asin) makes no
    difference once the rows are sorted by brand, then identifier.  The two
    scripts differ in the Grand Total row only. *)
Theorem view_c_variants_same_rows (Working : list order) :
  App2.pivot_Brand_ASIN Working = Sales06.pivot_Brand_ASIN Working.
Proof.
  unfold App2.pivot_Brand_ASIN, Sales06.pivot_Brand_ASIN.
  assert (filter (λ r, notna (Brand r) ∧ notna (asin r)) Working
          = filter (λ r, notna (asin r) ∧ notna (Brand r)) Working) as ->
    by (apply list_filter_iff; intros r; tauto).
  set (data := filter (λ r, notna (asin r) ∧ notna (Brand r)) Working).
  assert (∀ (R : relation (cell * cell)) `{!RelDecision R} (x : crow),
            x ∈ merge_sort by_Brand_asin
                  (brand_asin_table data (merge_sort R (brand_asin_keys data)))
            → ∃ k, x = {| c_asin := k.1; c_Brand := k.2;
                          c_quantity := sum_quantity
                            (filter (λ r, asin r = k.1 ∧ Brand r = k.2) data);
                          c_item_price := sum_item_price
                            (filter (λ r, asin r = k.1 ∧ Brand r = k.2) data);
                          c_cost := sum_cost
                            (filter (λ r, asin r = k.1 ∧ Brand r = k.2) data) |})
    as Hrow.
  { intros R ? x (k & -> & _)%merge_sort_elem_of%list_elem_of_fmap.
    by exists k. }
  apply (StronglySorted_unique_strong by_Brand_asin);
    [|apply by_Brand_asin_sorted..|].
  - intros x1 x2 [[a1 b1] ->]%Hrow [[a2 b2] ->]%Hrow.
    unfold by_Brand_asin, lex, on. simpl. intros [Hb12 Ha12] [Hb21 Ha21].
    assert (b1 = b2) as <- by (by apply (anti_symm cell_le)).
    assert (a1 = a2) as <- by (apply (anti_symm cell_le); auto).
    done.
  - etrans; [apply merge_sort_Permutation|].
    etrans; [|symmetry; apply merge_sort_Permutation].
    unfold brand_asin_table. apply fmap_Permutation.
    etrans; [apply merge_sort_Permutation|].
    symmetry. apply merge_sort_Permutation.
Qed.

(** ** Views A and B, date by date *)

Lemma column_sums_fmap {L D} (F : L → D → Z * Z) (labels : list L)
    (dates : list D) :
  foldr (λ (row : cell * list (Z * Z)) acc, zip_with add_pair row.2 acc)
        (replicate (length dates) (0, 0))
        ((λ m, (NaN, F m <$> dates)) <$> labels)
  = (λ d, (sumZ ((λ m, (F m d).1) <$> labels),
           sumZ ((λ m, (F m d).2) <$> labels))) <$> dates.
Proof.
  induction labels as [|m labels IH].
  - simpl. induction dates as [|d dates IHd]; [done|].
    simpl. by rewrite IHd.
  - rewrite fmap_cons. cbn [foldr]. rewrite IH. cbn [snd].
    clear IH. induction dates as [|d dates IHd]; [done|].
    rewrite !fmap_cons. cbn [zip_with]. rewrite IHd. f_equal.
Qed.

Lemma column_sums_labels (rows : list (cell * list (Z * Z))) (n : nat) :
  foldr (λ (row : cell * list (Z * Z)) acc, zip_with add_pair row.2 acc)
        (replicate n (0, 0)) rows
  = foldr (λ (row : cell * list (Z * Z)) acc, zip_with add_pair row.2 acc)
        (replicate n (0, 0)) ((λ row, (NaN, row.2)) <$> rows).
Proof.
  induction rows as [|row rows IH]; [done|].
  rewrite fmap_cons. cbn [foldr]. by rewrite IH.
Qed.

Lemma StronglySorted_le_lt (l : list Z) :
  NoDup l → StronglySorted Z.le l → StronglySorted Z.lt l.
Proof.
  induction 2 as [|x l Hs IH Hall]; [constructor|].
  apply NoDup_cons in H as [Hx Hnd]. constructor; [by apply IH|].
  rewrite Forall_forall in Hall |- *. intros y Hy.
  assert (x ≠ y) by (intros ->; done). specialize (Hall y Hy). lia.
Qed.

Lemma column_sums_by_date (index : order → cell) (Working : list order) :
  column_sums (pivot_by_date index Working)
  = totals_by_date index Working (pv_dates (pivot_by_date index Working)).
Proof.
  unfold column_sums, totals_by_date. rewrite column_sums_labels.
  unfold pivot_by_date. cbn [pv_rows pv_dates].
  set (data := filter (λ r, notna (index r) ∧ is_Some (date r)) Working).
  set (labels := merge_sort cell_le (remove_dups (index <$> data))).
  set (dates := merge_sort Z.le (remove_dups (omap date data))).
  rewrite <- list_fmap_compose.
  etrans;
    [apply (column_sums_fmap
              (λ m d, let g := filter (λ r, index r = m ∧ date r = Some d) data
                      in (sum_item_price g, sum_quantity g)) labels dates)|].
  apply list_fmap_ext. intros _ d _. cbn [fst snd].
  assert (filter (λ r, notna (index r) ∧ date r = Some d) Working
          = filter (λ r, date r = Some d) data) as ->.
  { unfold data. rewrite list_filter_filter. apply list_filter_iff.
    intros r. split; [intros [? Hd]; by rewrite Hd|tauto]. }
  assert (NoDup labels) as Hnd
    by apply merge_sort_NoDup, NoDup_remove_dups.
  assert (∀ r, r ∈ filter (λ r, date r = Some d) data → index r ∈ labels)
    as Hin.
  { intros r [_ Hr]%list_elem_of_filter.
    apply merge_sort_elem_of, elem_of_remove_dups.
    by apply list_elem_of_fmap_2. }
  unfold sum_item_price, sum_quantity.
  rewrite <- (sum_groups index (num_of ∘ item_price) _ labels Hnd Hin),
    <- (sum_groups index (qty_of ∘ quantity) _ labels Hnd Hin).
  f_equal; f_equal; apply list_fmap_ext; intros _ m _; do 2 f_equal;
    rewrite list_filter_filter; apply list_filter_iff; intros r; tauto.
Qed.

Lemma pivot_with_total_layout (index : order → cell) (Working : list order) :
  pivot_layout index Working (pivot_with_total (pivot_by_date index Working)).
Proof.
  unfold pivot_layout, pivot_with_total. cbn [pv_rows pv_dates].
  split; [|split].
  - unfold pivot_by_date. cbn [pv_dates].
    apply StronglySorted_le_lt;
      [apply merge_sort_NoDup, NoDup_remove_dups|].
    apply StronglySorted_merge_sort; apply _.
  - intros d. unfold pivot_by_date. cbn [pv_dates].
    rewrite merge_sort_elem_of, elem_of_remove_dups, list_elem_of_omap. split.
    + intros (r & [[Hn _] Hr]%list_elem_of_filter & Hd). by exists r.
    + intros (r & Hr & Hn & Hd). exists r. split; [|done].
      apply list_elem_of_filter. by rewrite Hd.
  - exists (pv_rows (pivot_by_date index Working)),
      (column_sums (pivot_by_date index Working)).
    split; [done|].
    assert (fst <$> pv_rows (pivot_by_date index Working)
            = merge_sort cell_le
                (remove_dups
                   (index <$> filter (λ r, notna (index r) ∧ is_Some (date r))
                                     Working))) as ->.
    { unfold pivot_by_date. cbn [pv_rows].
      rewrite <- list_fmap_compose. apply list_fmap_id. }
    split; [apply StronglySorted_merge_sort; apply _|].
    split; [apply merge_sort_NoDup, NoDup_remove_dups|]. split.
    + intros m. rewrite merge_sort_elem_of, elem_of_remove_dups,
        list_elem_of_fmap. split.
      * intros (r & -> & [[Hn Hd] Hr]%list_elem_of_filter).
        split; [done|]. by exists r.
      * intros (Hn & r & Hr & <- & Hd). exists r. split; [done|].
        by apply list_elem_of_filter.
    + apply Forall_app. split; [apply pivot_by_date_row_lengths|].
      constructor; [|constructor]. cbn [snd].
      rewrite column_sums_by_date. unfold totals_by_date.
      by rewrite length_fmap.
Qed.

Section DateViews.

Variable parse : string → option Z.

(** X27.  On a run that completes, the last row of View A is the Grand
    Total row and holds, under each date, the sums of item-price and
    quantity over the filtered orders of that date that have a brand
    manager; likewise View B with the brand.  Orders without the label
    count under no date. *)
Theorem view_ab_grand_total_by_date (pm : frame) (orders : list order)
    (out : outputs) :
  run parse pm orders = inr out →
  last (pv_rows (brand_manager_analysis out))
  = Some (Str "Grand Total",
          totals_by_date Brand_Manager (processed_orders out)
            (pv_dates (brand_manager_analysis out)))
  ∧ last (pv_rows (brand_analysis out))
    = Some (Str "Grand Total",
            totals_by_date Brand (processed_orders out)
              (pv_dates (brand_analysis out))).
Proof.
  intros (W & _ & _ & -> & -> & _)%run_inr.
  unfold pivot_with_total, pivot_Brand_Manager, pivot_Brand.
  cbn [pv_rows pv_dates]. rewrite !last_snoc.
  by rewrite !column_sums_by_date.
Qed.

(** X28.  On a run that completes, Views A and B have one pair of columns
    per date on which some filtered order with the label was bought, in
    strictly increasing order, and above the Grand Total row one row per
    label that some dated filtered order carries, in increasing order and
    never missing; each row has one pair per date. *)
Theorem view_ab_dates_and_labels (pm : frame) (orders : list order)
    (out : outputs) :
  run parse pm orders = inr out →
  pivot_layout Brand_Manager (processed_orders out)
               (brand_manager_analysis out)
  ∧ pivot_layout Brand (processed_orders out) (brand_analysis out).
Proof.
  intros (W & _ & _ & -> & -> & _)%run_inr.
  unfold pivot_Brand_Manager, pivot_Brand.
  split; apply pivot_with_total_layout.
Qed.

End DateViews.

(** * The theorems on the sample tables *)

(** C1: a row with quantity 1, the text "abc" as price, a product name and
    status "Shipped" passes the filter with a missing price, although the
    predicate of the specification rejects it. *)
Lemma C1_counterexample :
  Working_filter parse_decimal [order_bad_price]
  = [set_item_price NaN order_bad_price]
  ∧ to_numeric parse_decimal (item_price order_bad_price) = NaN
  ∧ ¬ spec_retained parse_decimal order_bad_price
  ∧ (∃ out, run parse_decimal pm_acme [order_bad_price] = inr out ∧
        item_price <$> processed_orders out = [NaN]).
Proof.
  split; [by vm_compute|]. split; [by vm_compute|]. split.
  - intros (_ & (z & Hz & _) & _). vm_compute in Hz. discriminate.
  - eexists. split; by vm_compute.
Qed.

(** C4: the same row leaves the filter with its price changed from the
    text "abc" to a missing value. *)
Lemma C4_counterexample :
  Working_filter parse_decimal [order_bad_price]
  = [set_item_price NaN order_bad_price]
  ∧ item_price order_bad_price = Str "abc"
  ∧ item_price (set_item_price NaN order_bad_price) = NaN
  ∧ (set_item_price NaN order_bad_price ∉ [order_bad_price])
  ∧ (∃ out, run parse_decimal pm_acme [order_bad_price] = inr out ∧
        item_price <$> processed_orders out = [NaN]).
Proof.
  split; [by vm_compute|]. split; [done|]. split; [done|]. split.
  - intros Hin%list_elem_of_singleton. discriminate.
  - eexists. split; by vm_compute.
Qed.

Lemma C4_witness :
  ∃ r, r ∈ [order_widget; order_bad_price] ∧
    purchase_date order_widget = purchase_date r ∧ date order_widget = date r ∧
    asin order_widget = asin r ∧ quantity order_widget = quantity r ∧
    product_name order_widget = product_name r ∧
    item_status order_widget = item_status r ∧
    Brand_Manager order_widget = Brand_Manager r ∧ Brand order_widget = Brand r ∧
    Vendor_SKU order_widget = Vendor_SKU r ∧ cost order_widget = cost r ∧
    others order_widget = others r ∧
    item_price order_widget = to_numeric parse_decimal (item_price r) ∧
    ((∀ s, item_price r ≠ Str s) → order_widget = r).
Proof.
  apply (C4_filter_changes_price_only parse_decimal
           [order_widget; order_bad_price] order_widget).
  compute_done.
Defined.



Lemma C5_witness :
  (∃ jbm jb jv jc,
    find_bm_col (clean_columns (columns pm_duplicates))
      ≫= column_position (clean_columns (columns pm_duplicates)) = inr jbm ∧
    find_brand_col (clean_columns (columns pm_duplicates))
      ≫= column_position (clean_columns (columns pm_duplicates)) = inr jb ∧
    find_vendor_col (clean_columns (columns pm_duplicates))
      ≫= column_position (clean_columns (columns pm_duplicates)) = inr jv ∧
    find_cp_col (clean_columns (columns pm_duplicates))
      ≫= column_position (clean_columns (columns pm_duplicates)) = inr jc ∧
    bm_map (maps_of pm_duplicates) !! "A1"
      = Some (cell_at jbm [Str "A1"; Str "Jo"; Str "Acme"; Str "V1"; Num 40]) ∧
    brand_map (maps_of pm_duplicates) !! "A1"
      = Some (cell_at jb [Str "A1"; Str "Jo"; Str "Acme"; Str "V1"; Num 40]) ∧
    vendor_map (maps_of pm_duplicates) !! "A1"
      = Some (cell_at jv [Str "A1"; Str "Jo"; Str "Acme"; Str "V1"; Num 40]) ∧
    cp_map (maps_of pm_duplicates) !! "A1"
      = Some (cell_at jc [Str "A1"; Str "Jo"; Str "Acme"; Str "V1"; Num 40]))
  ∧ build_maps
      {| columns := columns pm_duplicates;
         rows := [] ++ [Str "A1"; Str "Jo"; Str "Acme"; Str "V1"; Num 40]
                 :: filter (λ r', astype_str_strip (cell_at 0 r') ≠ "A1")
                      [[Str " A1 "; Str "Sam"; Str "Zenith"; Str "V9"; Num 99];
                       [Str "B2"; Str "Sam"; Str "Zenith"; Str "V2"; Str "N/A"]] |}
    = inr (maps_of pm_duplicates)
  ∧ NoDup (drop_duplicates (clean_pm_asin 0 (rows pm_duplicates))).*1
  ∧ (∀ r', ("A1", r') ∈ drop_duplicates (clean_pm_asin 0 (rows pm_duplicates))
           ↔ r' = [Str "A1"; Str "Jo"; Str "Acme"; Str "V1"; Num 40])
  ∧ (∀ r', r' ∈ [[Str " A1 "; Str "Sam"; Str "Zenith"; Str "V9"; Num 99];
                 [Str "B2"; Str "Sam"; Str "Zenith"; Str "V2"; Str "N/A"]] →
       astype_str_strip (cell_at 0 r') = "A1" →
       ∀ k', (k', r') ∈ drop_duplicates (clean_pm_asin 0 (rows pm_duplicates)) →
             r' = [Str "A1"; Str "Jo"; Str "Acme"; Str "V1"; Num 40]).
Proof.
  apply (C5_first_occurrence_wins pm_duplicates (maps_of pm_duplicates) 0 []
           [[Str " A1 "; Str "Sam"; Str "Zenith"; Str "V9"; Num 99];
            [Str "B2"; Str "Sam"; Str "Zenith"; Str "V2"; Str "N/A"]]
           [Str "A1"; Str "Jo"; Str "Acme"; Str "V1"; Num 40] "A1").
  - compute_done.
  - by vm_compute.
  - repeat constructor; intros z Hz; discriminate.
  - reflexivity.
  - by vm_compute.
  - done.
  - done.
  - constructor.
  - by vm_compute.
Defined.

(** The de-duplicated table of [pm_duplicates] holds the first row of A1
    and the row of B2; the second row of A1 is gone. *)
Example pm_duplicates_unique :
  drop_duplicates (clean_pm_asin 0 (rows pm_duplicates))
  = [("A1", [Str "A1"; Str "Jo"; Str "Acme"; Str "V1"; Num 40]);
     ("B2", [Str "B2"; Str "Sam"; Str "Zenith"; Str "V2"; Str "N/A"])]
  ∧ map_check (clean_pm_asin 0 (rows pm_duplicates))
    = inl (InvalidIndexError
             "Reindexing only valid with uniquely valued Index objects").
Proof. split; by vm_compute. Qed.

(** The duplicated identifier maps to the attributes of its first row. *)
Example pm_duplicates_A1 :
  bm_map (maps_of pm_duplicates) !! "A1" = Some (Str "Jo")
  ∧ brand_map (maps_of pm_duplicates) !! "A1" = Some (Str "Acme")
  ∧ vendor_map (maps_of pm_duplicates) !! "A1" = Some (Str "V1")
  ∧ cp_map (maps_of pm_duplicates) !! "A1" = Some (Num 40).
Proof. by vm_compute. Qed.



Lemma C10_witness :
  length (prepared pm_acme [order_widget; order_no_asin])
  = length [order_widget; order_no_asin] ∧
  ∃ m, build_maps pm_acme = inr m ∧
    bm_map m !! astype_str_strip (asin order_no_asin) = None ∧
    brand_map m !! astype_str_strip (asin order_no_asin) = None ∧
    vendor_map m !! astype_str_strip (asin order_no_asin) = None ∧
    cp_map m !! astype_str_strip (asin order_no_asin) = None ∧
    enrich_order parse_decimal m (normalise_order order_no_asin)
      ∈ prepared pm_acme [order_widget; order_no_asin] ∧
    asin (enrich_order parse_decimal m (normalise_order order_no_asin))
      = Str (astype_str_strip (asin order_no_asin)) ∧
    Brand_Manager (enrich_order parse_decimal m (normalise_order order_no_asin))
      = NaN ∧
    Brand (enrich_order parse_decimal m (normalise_order order_no_asin)) = NaN ∧
    cost (enrich_order parse_decimal m (normalise_order order_no_asin)) = Num 0 ∧
    (keeps parse_decimal order_no_asin →
     coerce_item_price parse_decimal
       (enrich_order parse_decimal m (normalise_order order_no_asin))
       ∈ Working_filter parse_decimal
           (prepared pm_acme [order_widget; order_no_asin]) ∧
     ∀ out, run parse_decimal pm_acme [order_widget; order_no_asin] = inr out →
       coerce_item_price parse_decimal
         (enrich_order parse_decimal m (normalise_order order_no_asin))
         ∈ processed_orders out ∧
       ∃ x, x ∈ bm_brand_asin_summary out ∧ d_order x = 0 ∧
            d_asin x = Str (astype_str_strip (asin order_no_asin)) ∧
            d_Brand_Manager x = NaN ∧ d_Brand x = NaN).
Proof.
  apply (C10_blank_identifier_order parse_decimal pm_acme
           [order_widget; order_no_asin]
           (prepared pm_acme [order_widget; order_no_asin]) order_no_asin).
  - by vm_compute.
  - compute_done.
  - left. by vm_compute.
Defined.





(** C7: with a brand named "Grand" the subtotal row of that brand is
    labelled "Grand Total" and flagged like the grand total row; the sort
    then places the grand total row (empty manager) before it, so the last
    row of View D is the brand subtotal and the grand total row is third
    of four. *)
Theorem C7_grand_total_not_last :
  ∃ out,
    run parse_decimal pm_grand [order_widget] = inr out
    ∧ length (bm_brand_asin_summary out) = 4%nat
    ∧ bm_brand_asin_summary out !! 2%nat
      = Some (grand_total (base (processed_orders out)))
    ∧ last (bm_brand_asin_summary out)
      = Some {| d_asin := Str "Grand Total"; d_Brand_Manager := Str "Jo";
                d_Brand := Str "Grand"; d_quantity := 2; d_item_price := 100;
                d_cost := 40; d_order := 1 |}
    ∧ last (bm_brand_asin_summary out)
      ≠ Some (grand_total (base (processed_orders out))).
Proof.
  eexists. split; [by vm_compute|]. split; [by vm_compute|].
  split; [by vm_compute|]. split; [by vm_compute|]. by vm_compute.
Qed.

Lemma view_d_sorted_witness :
  StronglySorted by_combined (bm_brand_asin_summary outputs_acme).
Proof.
  apply (view_d_sorted_by_five_keys (processed_orders outputs_acme)
           (bm_brand_asin_summary outputs_acme)).
  by vm_compute.
Defined.

Lemma view_d_grand_total_last_witness :
  last (bm_brand_asin_summary outputs_acme)
  = Some (grand_total (base (processed_orders outputs_acme))).
Proof.
  apply (view_d_grand_total_last (processed_orders outputs_acme)
           (bm_brand_asin_summary outputs_acme)).
  - by vm_compute.
  - compute_done.
Defined.

(** ** Enrichment, columns, metrics and views on the sample tables *)

Lemma enrich_matched_order_witness :
  ∃ jbm jb jv jc,
    find_bm_col (clean_columns (columns pm_duplicates))
      ≫= column_position (clean_columns (columns pm_duplicates)) = inr jbm ∧
    find_brand_col (clean_columns (columns pm_duplicates))
      ≫= column_position (clean_columns (columns pm_duplicates)) = inr jb ∧
    find_vendor_col (clean_columns (columns pm_duplicates))
      ≫= column_position (clean_columns (columns pm_duplicates)) = inr jv ∧
    find_cp_col (clean_columns (columns pm_duplicates))
      ≫= column_position (clean_columns (columns pm_duplicates)) = inr jc ∧
    Brand_Manager (enrich_order parse_decimal (maps_of pm_duplicates)
                     (normalise_order order_with_sku))
      = cell_at jbm [Str "A1"; Str "Jo"; Str "Acme"; Str "V1"; Num 40] ∧
    Brand (enrich_order parse_decimal (maps_of pm_duplicates)
             (normalise_order order_with_sku))
      = cell_at jb [Str "A1"; Str "Jo"; Str "Acme"; Str "V1"; Num 40] ∧
    cost (enrich_order parse_decimal (maps_of pm_duplicates)
            (normalise_order order_with_sku))
      = fillna0 (to_numeric parse_decimal
                   (cell_at jc [Str "A1"; Str "Jo"; Str "Acme"; Str "V1";
                                Num 40])) ∧
    (text_or_missing (cell_at jv [Str "A1"; Str "Jo"; Str "Acme"; Str "V1";
                                  Num 40]) →
     Vendor_SKU (enrich_order parse_decimal (maps_of pm_duplicates)
                   (normalise_order order_with_sku))
     = Str (Py.str (cell_at jv [Str "A1"; Str "Jo"; Str "Acme"; Str "V1";
                                Num 40]))).
Proof.
  apply (enrich_matched_order parse_decimal pm_duplicates
           (maps_of pm_duplicates) 0 []
           [[Str " A1 "; Str "Sam"; Str "Zenith"; Str "V9"; Num 99];
            [Str "B2"; Str "Sam"; Str "Zenith"; Str "V2"; Str "N/A"]]
           [Str "A1"; Str "Jo"; Str "Acme"; Str "V1"; Num 40] order_with_sku).
  - compute_done.
  - by vm_compute.
  - repeat constructor; intros z Hz; discriminate.
  - intros z Hz; discriminate.
  - compute_done.
  - reflexivity.
  - by vm_compute.
  - by vm_compute.
  - by vm_compute.
  - constructor.
  - by vm_compute.
Defined.

Lemma lookup_maps_keys_witness :
  (∀ k, k ∈ dom (bm_map (maps_of pm_duplicates)) ↔
        k ≠ "" ∧ k ≠ "nan" ∧
        ∃ row, row ∈ rows pm_duplicates ∧
               astype_str_strip (cell_at 0 row) = k) ∧
  dom (brand_map (maps_of pm_duplicates)) = dom (bm_map (maps_of pm_duplicates)) ∧
  dom (vendor_map (maps_of pm_duplicates)) = dom (bm_map (maps_of pm_duplicates)) ∧
  dom (cp_map (maps_of pm_duplicates)) = dom (bm_map (maps_of pm_duplicates)).
Proof.
  apply (lookup_maps_keys pm_duplicates (maps_of pm_duplicates) 0).
  - compute_done.
  - by vm_compute.
  - repeat constructor; intros z Hz; discriminate.
  - by vm_compute.
Defined.

Lemma place_cost_before_price_witness :
  place_cost (["asin"] ++ "cost" :: ["quantity"] ++
              "item-price" :: "item-tax" :: ["item-status"])
  = ["asin"] ++ ["quantity"] ++
    "item-price" :: "item-tax" :: "cost" :: ["item-status"].
Proof.
  apply (place_cost_before_price ["asin"] ["quantity"] ["item-status"]
           "item-tax"); compute_done.
Defined.

Lemma Working_columns_layout_witness :
  Working_columns ["purchase-date"; " ASIN "; "Quantity"; "item-price";
                   "item-tax"]
  = ["purchase-date"] ++ "asin" :: "Vendor SKU" :: ["quantity"] ++
    "item-price" :: "cost" :: ["item-tax"; "date"] ++
    ["Brand Manager"; "Brand"].
Proof.
  apply (Working_columns_layout
           ["purchase-date"; " ASIN "; "Quantity"; "item-price"; "item-tax"]
           ["purchase-date"] ["quantity"] ["item-tax"; "date"]).
  - compute_done.
  - by vm_compute.
  - compute_done.
Defined.


Lemma run_top_brand_maximal_witness :
  notna (top_brand outputs_acme) ∧ notna (top_manager outputs_acme) ∧
  (∃ r, r ∈ processed_orders outputs_acme ∧ Brand r = top_brand outputs_acme).
Proof.
  assert (run parse_decimal pm_acme [order_widget; order_unlisted]
          = inr outputs_acme) as Hrun by (by vm_compute).
  destruct (run_top_brand_maximal parse_decimal pm_acme
              [order_widget; order_unlisted] outputs_acme Hrun)
    as ((Hb & Hbn & _) & (_ & Hmn & _)).
  split; [exact Hbn|]. split; [exact Hmn|exact Hb].
Defined.

Lemma view_d_grand_total_witness :
  ∃ g, g ∈ bm_brand_asin_summary outputs_acme ∧
    (∀ x, x ∈ bm_brand_asin_summary outputs_acme → d_order x = 3 → x = g) ∧
    d_asin g = Str "Grand Total" ∧ d_Brand_Manager g = Str "" ∧
    d_Brand g = Str "" ∧
    d_quantity g = sum_quantity (processed_orders outputs_acme) ∧
    d_item_price g = sum_item_price (processed_orders outputs_acme) ∧
    d_cost g = sum_cost (processed_orders outputs_acme).
Proof.
  apply (view_d_grand_total_of_all_orders (processed_orders outputs_acme)
           (bm_brand_asin_summary outputs_acme)).
  by vm_compute.
Defined.

Lemma view_d_brand_subtotal_witness :
  filter (λ r, Brand_Manager r = Str "Jo" ∧ Brand r = Str "Acme")
         (processed_orders outputs_acme) ≠ [] ∧
  2 = sum_quantity
        (filter (λ r, Brand_Manager r = Str "Jo" ∧ Brand r = Str "Acme")
                (processed_orders outputs_acme)) ∧
  100 = sum_item_price
          (filter (λ r, Brand_Manager r = Str "Jo" ∧ Brand r = Str "Acme")
                  (processed_orders outputs_acme)) ∧
  40 = sum_cost
         (filter (λ r, Brand_Manager r = Str "Jo" ∧ Brand r = Str "Acme")
                 (processed_orders outputs_acme)).
Proof.
  apply (view_d_brand_subtotal_of_orders (processed_orders outputs_acme)
           (bm_brand_asin_summary outputs_acme)
           {| d_asin := Str "Acme Total"; d_Brand_Manager := Str "Jo";
              d_Brand := Str "Acme"; d_quantity := 2; d_item_price := 100;
              d_cost := 40; d_order := 1 |}).
  - by vm_compute.
  - compute_done.
  - reflexivity.
Defined.

Lemma view_d_manager_subtotal_witness :
  (∀ t, t ∈ bm_brand_asin_summary outputs_acme → d_order t = 2 →
     ∃ m, d_Brand_Manager t = Str m ∧ d_asin t = Str (m +:+ " Total") ∧
          d_Brand t = Str "" ∧
          filter (λ r, Brand_Manager r = Str m) (processed_orders outputs_acme)
            ≠ [] ∧
          d_quantity t
            = sum_quantity (filter (λ r, Brand_Manager r = Str m)
                                   (processed_orders outputs_acme)) ∧
          d_item_price t
            = sum_item_price (filter (λ r, Brand_Manager r = Str m)
                                     (processed_orders outputs_acme)) ∧
          d_cost t
            = sum_cost (filter (λ r, Brand_Manager r = Str m)
                               (processed_orders outputs_acme)))
  ∧ (∀ r, r ∈ processed_orders outputs_acme → notna (Brand_Manager r) →
       ∃ t, t ∈ bm_brand_asin_summary outputs_acme ∧ d_order t = 2 ∧
            d_Brand_Manager t = Brand_Manager r).
Proof.
  apply (view_d_manager_subtotal_of_orders (processed_orders outputs_acme)
           (bm_brand_asin_summary outputs_acme)).
  by vm_compute.
Defined.

Lemma run_completes_witness :
  ∃ out, run parse_decimal pm_acme [order_with_sku; order_unlisted] = inr out ∧
         processed_orders out
         = Working_filter parse_decimal
             (prepared pm_acme [order_with_sku; order_unlisted]).
Proof.
  apply (run_completes parse_decimal pm_acme [order_with_sku; order_unlisted]
           (prepared pm_acme [order_with_sku; order_unlisted]) 0).
  - compute_done.
  - by vm_compute.
  - repeat constructor; intros z Hz; discriminate.
  - repeat constructor;
      first [intros z Hz; discriminate | compute_done].
  - by vm_compute.
  - vm_compute. repeat constructor; intros z Hz; discriminate.
  - exists (enrich_order parse_decimal (maps_of pm_acme)
              (normalise_order order_with_sku)).
    split; [compute_done|]. split; compute_done.
  - exists (enrich_order parse_decimal (maps_of pm_acme)
              (normalise_order order_with_sku)).
    split; [compute_done|]. split; compute_done.
Defined.

Lemma prepare_variants_agree_witness :
  ∃ W', Sales06Steps.prepare parse_decimal pm_acme
          [order_with_sku; order_unlisted] = inr W' ∧
        Forall2 same_but_vendor
                (prepared pm_acme [order_with_sku; order_unlisted]) W'.
Proof.
  apply (prepare_variants_agree parse_decimal pm_acme
           [order_with_sku; order_unlisted]).
  - compute_done.
  - compute_done.
  - by vm_compute.
Defined.

(** The two scripts leave the order with an "sku" column with the same
    "item-tax" value; app2.py alone turns the "sku" value into text. *)
Example order_with_sku_others :
  others <$> prepared pm_acme [order_with_sku]
  = [[("sku", Str "77"); ("item-tax", Num 18)]]
  ∧ match Sales06Steps.prepare parse_decimal pm_acme [order_with_sku] with
    | inr W' => others <$> W' = [[("sku", Num 77); ("item-tax", Num 18)]]
    | inl _ => False
    end.
Proof. split; by vm_compute. Qed.

Lemma build_maps_succeeds_iff_witness :
  (∃ m, build_maps pm_acme = inr m) ↔
  "asin" ∈ clean_columns (columns pm_acme) ∧
  ¬ unresolved (clean_columns (columns pm_acme)) ∧
  find_vendor_col (clean_columns (columns pm_acme)) ≠ inr "asin" ∧
  find_cp_col (clean_columns (columns pm_acme)) ≠ inr "asin".
Proof.
  apply (build_maps_succeeds_iff pm_acme). compute_done.
Defined.

Lemma build_maps_variants_witness :
  ((∃ m, build_maps pm_no_vendor = inr m) ↔
   (∃ m', Sales06Steps.build_maps pm_no_vendor = inr m') ∧
   ∃ c, find_vendor_col (clean_columns (columns pm_no_vendor)) = inr c ∧
        c ≠ "asin")
  ∧ ∀ m m', build_maps pm_no_vendor = inr m →
      Sales06Steps.build_maps pm_no_vendor = inr m' →
      Sales06Steps.bm_map m' = bm_map m ∧
      Sales06Steps.brand_map m' = brand_map m ∧
      Sales06Steps.cp_map m' = cp_map m.
Proof.
  apply (build_maps_variants pm_no_vendor). compute_done.
Defined.

Lemma view_ab_grand_total_by_date_witness :
  last (pv_rows (brand_manager_analysis outputs_acme))
  = Some (Str "Grand Total",
          totals_by_date Brand_Manager (processed_orders outputs_acme)
            (pv_dates (brand_manager_analysis outputs_acme)))
  ∧ last (pv_rows (brand_analysis outputs_acme))
    = Some (Str "Grand Total",
            totals_by_date Brand (processed_orders outputs_acme)
              (pv_dates (brand_analysis outputs_acme))).
Proof.
  apply (view_ab_grand_total_by_date parse_decimal pm_acme
           [order_widget; order_unlisted] outputs_acme).
  by vm_compute.
Defined.

Lemma view_ab_dates_and_labels_witness :
  pivot_layout Brand_Manager (processed_orders outputs_acme)
               (brand_manager_analysis outputs_acme)
  ∧ pivot_layout Brand (processed_orders outputs_acme)
                 (brand_analysis outputs_acme).
Proof.
  apply (view_ab_dates_and_labels parse_decimal pm_acme
           [order_widget; order_unlisted] outputs_acme).
  by vm_compute.
Defined.
